(** * node-spqs: a priority queue on top of a durable transport

    A shallow embedding of [src/services/RedisManager.ts] (the ordering
    index and the dispatch engine), [src/services/PriorityQueueService.ts]
    (the orchestration facade), [src/services/SQSManager.ts] (the transport
    adapter), [src/utils/metrics.ts], [src/utils/logger.ts],
    [src/config/index.ts] and [src/types/index.ts].

    Conventions of the embedding.
    - JavaScript numbers that the code uses as counts, priorities and
      timestamps are [Z]; the two places where the code computes on
      doubles (the proportional share of the dispatch engine and the
      moving averages) use the kernel's binary64 floats, and the one count
      that the code increments, the receive count, is incremented as a
      double is ([JS.increment]).
    - The Redis key space [pq:priority-queue:<p>], [pq:message-metadata:<id>]
      and [pq:metrics:latency:<p>] is three disjoint families of keys, each
      injective in its index, so the store is three finite maps.  Values
      written with [JSON.stringify] and read with [JSON.parse] are kept as the
      record they encode; a latency written with [toString] is kept as the
      double that [parseFloat] reads back.
    - The transport (AWS SQS) is opaque: every facade operation takes the
      answer of the transport as an argument and records the request it made
      in a log, so that "no transport call was made" is a statement about
      the log.
    - [Date.now()] reads an arbitrary clock [clock : nat -> Z] at the next
      tick.
    - An [async] method is a computation in the monad [M]: it threads the
      world and either returns or throws; the state reached before a throw is
      kept (nothing is rolled back).  Logging is no effect on the world, so
      a [try { .. } catch (e) { log; throw e }] block is its body; the logger
      itself is embedded on its own. *)

From Stdlib Require Import ZArith Floats Lia.
From stdpp Require Import gmap strings list sorting pretty.

Local Open Scope Z_scope.

(** The literals 0.9 and 0.1 denote the nearest double, as in JavaScript. *)
Local Set Warnings "-inexact-float".

(** ** JavaScript primitives *)

Module JS.

(** An integral JS number as a double (exact below 2^53). *)
Definition float_of_Z (z : Z) : float :=
  if z <? 0 then PrimFloat.opp (PrimFloat.of_uint63 (Uint63.of_Z (- z)))
  else PrimFloat.of_uint63 (Uint63.of_Z z).

(** [Math.floor] of a finite double, as an exact integer; the code only
    applies it to finite values (NaN and the infinities are sent to 0). *)
Definition Math_floor (x : float) : Z :=
  match Prim2SF x with
  | S754_finite s m e => Z.shiftl (if s then Z.neg m else Z.pos m) e
  | _ => 0
  end.

(** [Math.round] of a finite double: the nearest integer, ties towards
    plus infinity, computed exactly as floor ((2 x + 1) / 2). *)
Definition Math_round_Z (x : float) : Z :=
  match Prim2SF x with
  | S754_finite s m e =>
      let n := if s then Z.neg m else Z.pos m in
      if 0 <=? e then Z.shiftl n e
      else (2 * n + Z.shiftl 1 (- e)) / Z.shiftl 1 (1 - e)
  | _ => 0
  end.

(** [Math.round] as a double: NaN, the infinities, the zeros and the values
    that are already integral are returned unchanged; a negative value that
    rounds to zero gives -0. *)
Definition Math_round (x : float) : float :=
  match Prim2SF x with
  | S754_finite s _ e =>
      if 0 <=? e then x
      else
        let r := Math_round_Z x in
        if (r =? 0) && s then PrimFloat.opp PrimFloat.zero else float_of_Z r
  | _ => x
  end.

(** Truthiness of an optional string: [undefined] and [''] are falsy. *)
Definition truthy (s : option string) : option string :=
  match s with
  | Some EmptyString => None
  | other => other
  end.

(** [a || b] on an optional number: [undefined] and [0] are falsy. *)
Definition or_num (a : option Z) (b : Z) : Z :=
  match a with
  | Some n => if n =? 0 then b else n
  | None => b
  end.

(** An integer as a number: the nearest double, ties to even. *)
Definition number (z : Z) : float :=
  SF2Prim (binary_normalize prec emax z 0 false).

(** [n + 1] on an integral number.  The sum is rounded to a double: every
    integer from -2^53 to 2^53 is a double, so the sum is exact while [n]
    lies below 2^53; from there on it is the nearest double, ties to even,
    so that 2^53 + 1 is 2^53. *)
Definition increment (n : Z) : Z :=
  if (- 2 ^ 53 <=? n) && (n <? 2 ^ 53) then n + 1
  else Math_round_Z (PrimFloat.add (number n) 1).

(** [parseFloat(x.toString())]: the decimal that [toString] prints reads
    back as the double it came from, but for -0, which prints as ['0'] and
    reads back as 0. *)
Definition parseFloat_toString (x : float) : float :=
  if PrimFloat.eqb x PrimFloat.zero then PrimFloat.zero else x.

End JS.

(** ** Configuration: src/config/index.ts *)

Module DEFAULT_CONFIG.
Definition PRIORITY_LEVELS : Z := 3.
Definition VISIBILITY_TIMEOUT : Z := 30.
Definition WAIT_TIME_SECONDS : Z := 20.
Definition MAX_MESSAGES : Z := 10.
Definition STARVATION_PREVENTION_THRESHOLD : Z := 100.
End DEFAULT_CONFIG.

(** [Number.isInteger(priority)] holds of every [Z]. *)
Definition isValidPriority (priority priorityLevels : Z) : bool :=
  (0 <=? priority) && (priority <? priorityLevels).

(** ** Types: src/types/index.ts

    An optional field ([name?: T]) is an [option]. *)

(** [interface MessageMetadata], the record kept in the index for each
    message. *)
Record MessageMetadata := mkMetadata {
  md_id : string;
  md_priority : Z;
  sentAt : Z;
  firstReceivedAt : option Z;
  lastReceivedAt : option Z;
  receiveCount : Z
}.

(** [interface SendMessageParams]. *)
Record SendMessageParams := mkSendParams {
  sp_body : string;
  sp_priority : Z;
  sp_attributes : option (gmap string string);
  sp_messageGroupId : option string;
  sp_messageDeduplicationId : option string;
  sp_delaySeconds : option Z
}.

(** [interface ReceiveMessageParams]. *)
Record ReceiveMessageParams := mkReceiveParams {
  rp_maxMessages : option Z;
  rp_visibilityTimeout : option Z;
  rp_waitTimeSeconds : option Z;
  rp_includeAttributes : option bool
}.

(** [interface PriorityMessage].  The facade, which alone builds these
    messages, sets [sentTimestamp], [attributes] and [receiveCount] on each:
    of the optional fields only [firstReceiveTimestamp] can be [undefined]. *)
Record PriorityMessage := mkPriorityMessage {
  pm_id : string;
  pm_body : string;
  pm_priority : Z;
  pm_receiptHandle : string;
  pm_sentTimestamp : Z;
  pm_attributes : gmap string string;
  pm_firstReceiveTimestamp : option Z;
  pm_receiveCount : Z
}.

(** A message as the AWS SDK returns it ([AWS.SQS.Message]): every field is
    optional. *)
Record SQSMessage := mkSQSMessage {
  MessageId : option string;
  Body : option string;
  ReceiptHandle : option string;
  MessageAttributes : option (gmap string (option string))
}.

Inductive Error :=
| NotConnected
| InvalidPriority (priority priorityLevels : Z)
| TransportError (cause : string)
| BackendError (cause : string).

Inductive Result (A : Type) :=
| Ok (a : A)
| Throw (e : Error).
Arguments Ok {A} a.
Arguments Throw {A} e.

(** ** The ordering index: the data held by the Redis server *)

(** A sorted set is kept in the order Redis returns it: by score, and by
    member for equal scores. *)
Abbreviation zentry := (Z * string)%type.

Definition zlt (a b : zentry) : bool :=
  (a.1 <? b.1) || ((a.1 =? b.1) && String.ltb a.2 b.2).

Fixpoint zinsert (e : zentry) (l : list zentry) : list zentry :=
  match l with
  | [] => [e]
  | x :: xs => if zlt e x then e :: x :: xs else x :: zinsert e xs
  end.

Definition zremove (member : string) (l : list zentry) : list zentry :=
  filter (λ e, e.2 ≠ member) l.

Record RedisClient := mkRedis {
  zsets : gmap Z (list zentry);
  metadataKeys : gmap string MessageMetadata;
  latencyKeys : gmap Z float
}.

Definition zset (c : RedisClient) (priority : Z) : list zentry :=
  default [] (zsets c !! priority).

(** ZADD: a member already present moves to its new score. *)
Definition zAdd (priority score : Z) (member : string) (c : RedisClient) : RedisClient :=
  mkRedis (<[priority := zinsert (score, member) (zremove member (zset c priority))]> (zsets c))
          (metadataKeys c) (latencyKeys c).

Definition zRem (priority : Z) (member : string) (c : RedisClient) : RedisClient :=
  mkRedis (<[priority := zremove member (zset c priority)]> (zsets c))
          (metadataKeys c) (latencyKeys c).

Definition zCard (c : RedisClient) (priority : Z) : Z :=
  Z.of_nat (length (zset c priority)).

(** ZRANGE key start stop, by rank, both ends inclusive, negative ranks
    counted from the end. *)
Definition zRange (c : RedisClient) (priority start stop : Z) : list string :=
  let l := zset c priority in
  let len := Z.of_nat (length l) in
  let start := if start <? 0 then Z.max 0 (start + len) else start in
  let stop := if stop <? 0 then stop + len else stop in
  if (stop <? start) || (len <=? start) then []
  else (take (Z.to_nat (Z.min stop (len - 1) - start + 1)) (drop (Z.to_nat start) l)).*2.

Definition setMetadata (id : string) (md : MessageMetadata) (c : RedisClient) : RedisClient :=
  mkRedis (zsets c) (<[id := md]> (metadataKeys c)) (latencyKeys c).

Definition delMetadata (id : string) (c : RedisClient) : RedisClient :=
  mkRedis (zsets c) (delete id (metadataKeys c)) (latencyKeys c).

Definition setLatency (priority : Z) (v : float) (c : RedisClient) : RedisClient :=
  mkRedis (zsets c) (metadataKeys c) (<[priority := v]> (latencyKeys c)).

(** ** The metrics collector: src/utils/metrics.ts *)

Record MetricsCollector := mkMetrics {
  queueDepthByPriority : gmap Z Z;
  processingLatencyByPriority : gmap Z float;
  messageProcessingStartTimes : gmap string Z;
  mc_priorityLevels : Z
}.

(** The values of [for (let i = from; i < levels; i++)]. *)
Definition priorities (from : nat) (levels : Z) : list nat :=
  seq from (Z.to_nat levels - from).

Module Metrics.

Definition initializeMetrics (m : MetricsCollector) : MetricsCollector :=
  foldl (λ m (i : nat),
           mkMetrics (<[Z.of_nat i := 0]> (queueDepthByPriority m))
                     (<[Z.of_nat i := PrimFloat.zero]> (processingLatencyByPriority m))
                     (messageProcessingStartTimes m) (mc_priorityLevels m))
        m (priorities 0 (mc_priorityLevels m)).

Definition new (priorityLevels : Z) : MetricsCollector :=
  initializeMetrics (mkMetrics ∅ ∅ ∅ priorityLevels).

Definition updateQueueDepth (priority depth : Z) (m : MetricsCollector) : MetricsCollector :=
  if (0 <=? priority) && (priority <? mc_priorityLevels m)
  then mkMetrics (<[priority := depth]> (queueDepthByPriority m))
                 (processingLatencyByPriority m)
                 (messageProcessingStartTimes m) (mc_priorityLevels m)
  else m.

Definition startMessageProcessing (messageId : string) (now : Z)
    (m : MetricsCollector) : MetricsCollector :=
  mkMetrics (queueDepthByPriority m) (processingLatencyByPriority m)
            (<[messageId := now]> (messageProcessingStartTimes m)) (mc_priorityLevels m).

(** The start time that passes [if (startTime && ...)]: defined, not 0,
    with the priority in range. *)
Definition trackedStart (messageId : string) (priority : Z)
    (m : MetricsCollector) : option Z :=
  match messageProcessingStartTimes m !! messageId with
  | Some startTime =>
      if negb (startTime =? 0) && (0 <=? priority) && (priority <? mc_priorityLevels m)
      then Some startTime else None
  | None => None
  end.

(** The body of the conditional of [endMessageProcessing]; [now] is the
    [Date.now()] read there.  An absent latency entry reads as
    [undefined], whose arithmetic gives NaN. *)
Definition recordLatency (messageId : string) (priority startTime now : Z)
    (m : MetricsCollector) : MetricsCollector :=
  let processingTime := JS.float_of_Z (now - startTime) in
  let currentLatency := default PrimFloat.nan (processingLatencyByPriority m !! priority) in
  let newLatency :=
    if PrimFloat.eqb currentLatency PrimFloat.zero then processingTime
    else PrimFloat.add (PrimFloat.mul currentLatency 0.9%float)
                       (PrimFloat.mul processingTime 0.1%float) in
  mkMetrics (queueDepthByPriority m)
            (<[priority := JS.Math_round newLatency]> (processingLatencyByPriority m))
            (delete messageId (messageProcessingStartTimes m)) (mc_priorityLevels m).

Definition resetMetrics (m : MetricsCollector) : MetricsCollector :=
  let m := initializeMetrics m in
  mkMetrics (queueDepthByPriority m) (processingLatencyByPriority m) ∅ (mc_priorityLevels m).

End Metrics.

(** ** The world and the monad of the async methods *)

(** A request made to the transport. *)
Inductive SQSCall :=
| SQSSend (params : SendMessageParams)
| SQSReceive (maxMessages : Z)
| SQSDelete (receiptHandle : string)
| SQSChangeVisibility (receiptHandle : string) (visibilityTimeout : Z)
| SQSPurge.

Record World := mkWorld {
  client : RedisClient;
  connected : bool;
  sqsCalls : list SQSCall;
  metricsCollector : MetricsCollector;
  clock : nat → Z;
  ticks : nat
}.

Definition M (A : Type) : Type := World → Result A * World.

Definition ret {A} (a : A) : M A := λ w, (Ok a, w).
Definition bind {A B} (m : M A) (f : A → M B) : M B := λ w,
  match m w with
  | (Ok a, w') => f a w'
  | (Throw e, w') => (Throw e, w')
  end.

Notation "'let*' x := m 'in' k" := (bind m (λ x, k))
  (at level 10, x name, m at level 100, k at level 200).

Definition throw {A} (e : Error) : M A := λ w, (Throw e, w).
Definition gets {A} (f : World → A) : M A := λ w, (Ok (f w), w).
Definition modify (f : World → World) : M unit := λ w, (Ok tt, f w).

Definition withClient (f : RedisClient → RedisClient) (w : World) : World :=
  mkWorld (f (client w)) (connected w) (sqsCalls w) (metricsCollector w) (clock w) (ticks w).
Definition withConnected (b : bool) (w : World) : World :=
  mkWorld (client w) b (sqsCalls w) (metricsCollector w) (clock w) (ticks w).
Definition withMetrics (f : MetricsCollector → MetricsCollector) (w : World) : World :=
  mkWorld (client w) (connected w) (sqsCalls w) (f (metricsCollector w)) (clock w) (ticks w).
Definition logCall (c : SQSCall) (w : World) : World :=
  mkWorld (client w) (connected w) (sqsCalls w ++ [c]) (metricsCollector w) (clock w) (ticks w).

(** [Date.now()]. *)
Definition Date_now : M Z := λ w,
  (Ok (clock w (ticks w)),
   mkWorld (client w) (connected w) (sqsCalls w) (metricsCollector w) (clock w) (S (ticks w))).

(** The guard that opens every method of [RedisManager]. *)
Definition requireConnected : M unit :=
  let* c := gets connected in if c then ret tt else throw NotConnected.

(** ** The ordering index and the dispatch engine: src/services/RedisManager.ts *)

Module RedisManager.

(** [await this.client.connect()]: the answer of the server is an input. *)
Definition connect (answer : Result unit) : M unit :=
  match answer with
  | Ok _ => modify (withConnected true)
  | Throw e => throw e
  end.

Definition disconnect : M unit :=
  let* c := gets connected in
  if c then modify (withConnected false) else ret tt.

Definition isConnected : M bool := gets connected.

(** [{ ...metadata, sentAt: now, receiveCount: 0 }] *)
Definition stamped (metadata : MessageMetadata) (now : Z) : MessageMetadata :=
  mkMetadata (md_id metadata) (md_priority metadata) now
             (firstReceivedAt metadata) (lastReceivedAt metadata) 0.

Definition addMessage (messageId : string) (priority : Z)
    (metadata : MessageMetadata) : M unit :=
  let* _ := requireConnected in
  let* now := Date_now in
  let* _ := modify (withClient (setMetadata messageId (stamped metadata now))) in
  modify (withClient (zAdd priority now messageId)).

(** [Math.floor(messagesRemaining * (queueSizes[priority] / totalMessages))],
    in double arithmetic. *)
Definition proportionalAllocation (messagesRemaining size totalMessages : Z) : Z :=
  let proportion := PrimFloat.div (JS.float_of_Z size) (JS.float_of_Z totalMessages) in
  JS.Math_floor (PrimFloat.mul (JS.float_of_Z messagesRemaining) proportion).

(** [queueSizes[priority]]; every index the loops read was written by the
    first loop. *)
Definition sizeAt (queueSizes : list Z) (priority : nat) : Z :=
  default 0 (queueSizes !! priority).

(** The first loop: one ZCARD per priority level. *)
Definition readQueueSizes (c : RedisClient) (priorityLevels : Z) : list Z :=
  (λ priority : nat, zCard c (Z.of_nat priority)) <$> priorities 0 priorityLevels.

(** The second loop: some level from 1 on is deeper than the threshold. *)
Definition preventStarvation (queueSizes : list Z) (priorityLevels starvationThreshold : Z) : bool :=
  existsb (λ priority, starvationThreshold <? sizeAt queueSizes priority)
          (priorities 1 priorityLevels).

(** The loop of the starvation branch over the remaining levels, with the
    [result] and [allocated] of the source; leaving the recursion is
    [break]. *)
Fixpoint starvationLoop (c : RedisClient) (queueSizes : list Z)
    (totalMessages messagesRemaining : Z) (levels : list nat)
    (result : list string) (allocated : Z) : list string :=
  match levels with
  | [] => result
  | priority :: levels =>
      let continue := starvationLoop c queueSizes totalMessages messagesRemaining levels in
      let size := sizeAt queueSizes priority in
      if 0 <? size then
        let minAllocation := 1 in
        let proportionalAllocation :=
          proportionalAllocation messagesRemaining size totalMessages in
        let toTake :=
          Z.min (Z.min (Z.max minAllocation proportionalAllocation) size)
                (messagesRemaining - allocated) in
        if 0 <? toTake then
          let messages := zRange c (Z.of_nat priority) 0 (toTake - 1) in
          let result := result ++ messages in
          let allocated := allocated + Z.of_nat (length messages) in
          if messagesRemaining <=? allocated then result
          else continue result allocated
        else continue result allocated
      else continue result allocated
  end.

(** The loop of the normal branch. *)
Fixpoint normalLoop (c : RedisClient) (queueSizes : list Z) (maxMessages : Z)
    (levels : list nat) (result : list string) : list string :=
  match levels with
  | [] => result
  | priority :: levels =>
      let continue := normalLoop c queueSizes maxMessages levels in
      let size := sizeAt queueSizes priority in
      if 0 <? size then
        let toTake := Z.min (maxMessages - Z.of_nat (length result)) size in
        if 0 <? toTake then
          let messages := zRange c (Z.of_nat priority) 0 (toTake - 1) in
          let result := result ++ messages in
          if maxMessages <=? Z.of_nat (length result) then result
          else continue result
        else continue result
      else continue result
  end.

(** The body of [getNextMessages] after the connection guard; it only
    reads the store. *)
Definition selectMessages (c : RedisClient) (priorityLevels maxMessages starvationThreshold : Z)
    : list string :=
  let queueSizes := readQueueSizes c priorityLevels in
  if preventStarvation queueSizes priorityLevels starvationThreshold then
    let totalMessages := foldl Z.add 0 queueSizes in
    let messagesRemaining := Z.min maxMessages totalMessages in
    if 0 <? messagesRemaining then
      starvationLoop c queueSizes totalMessages messagesRemaining
                     (priorities 0 priorityLevels) [] 0
    else []
  else normalLoop c queueSizes maxMessages (priorities 0 priorityLevels) [].

Definition getNextMessages (priorityLevels maxMessages starvationThreshold : Z)
    : M (list string) :=
  let* _ := requireConnected in
  let* c := gets client in
  ret (selectMessages c priorityLevels maxMessages starvationThreshold).

Definition getMessageMetadata (messageId : string) : M (option MessageMetadata) :=
  let* _ := requireConnected in
  let* c := gets client in
  ret (metadataKeys c !! messageId).

(** The record written back by [markMessageAsReceived]; its count is
    [(metadata.receiveCount || 0) + 1], a sum of doubles. *)
Definition received (metadata : MessageMetadata) (now : Z) : MessageMetadata :=
  mkMetadata (md_id metadata) (md_priority metadata) (sentAt metadata)
             (Some (JS.or_num (firstReceivedAt metadata) now))
             (Some now)
             (JS.increment (JS.or_num (Some (receiveCount metadata)) 0)).

Definition markMessageAsReceived (messageId : string) : M unit :=
  let* _ := requireConnected in
  let* metadata := getMessageMetadata messageId in
  match metadata with
  | Some metadata =>
      let* now := Date_now in
      modify (withClient (setMetadata messageId (received metadata now)))
  | None => ret tt
  end.

Definition removeMessage (messageId : string) (priority : Z) : M unit :=
  let* _ := requireConnected in
  let* _ := modify (withClient (zRem priority messageId)) in
  modify (withClient (delMetadata messageId)).

(** The object [{0: size0, 1: size1, ...}]. *)
Definition getQueueDepthByPriority (priorityLevels : Z) : M (gmap Z Z) :=
  let* _ := requireConnected in
  let* c := gets client in
  ret (foldl (λ (result : gmap Z Z) (priority : nat),
                <[Z.of_nat priority := zCard c (Z.of_nat priority)]> result)
             ∅ (priorities 0 priorityLevels)).

(** [client.set(key, newLatency.toString())]: the key holds the double
    that [parseFloat] reads back from the string written. *)
Definition storeProcessingLatency (priority : Z) (latency : float) : M unit :=
  let* _ := requireConnected in
  let* c := gets client in
  let currentLatency := default PrimFloat.zero (latencyKeys c !! priority) in
  let newLatency :=
    if PrimFloat.eqb currentLatency PrimFloat.zero then latency
    else PrimFloat.add (PrimFloat.mul currentLatency 0.9%float)
                       (PrimFloat.mul latency 0.1%float) in
  modify (withClient (setLatency priority (JS.parseFloat_toString newLatency))).

Definition getProcessingLatencyByPriority (priorityLevels : Z) : M (gmap Z float) :=
  let* _ := requireConnected in
  let* c := gets client in
  ret (foldl (λ (result : gmap Z float) (priority : nat),
                <[Z.of_nat priority :=
                    match latencyKeys c !! Z.of_nat priority with
                    | Some value => JS.Math_round value
                    | None => PrimFloat.zero
                    end]> result)
             ∅ (priorities 0 priorityLevels)).

End RedisManager.

(** ** The transport adapter: src/services/SQSManager.ts

    Each method records its request and then returns or throws what the
    AWS SDK answered. *)

Module SQSManager.

(** [return result.MessageId || ''] *)
Definition sendMessage (params : SendMessageParams)
    (answer : Result (option string)) : M string :=
  let* _ := modify (logCall (SQSSend params)) in
  match answer with
  | Ok messageId => ret (default EmptyString messageId)
  | Throw e => throw e
  end.

(** [const messages = result.Messages || []] *)
Definition receiveMessages (maxMessages : Z)
    (answer : Result (option (list SQSMessage))) : M (list SQSMessage) :=
  let* _ := modify (logCall (SQSReceive maxMessages)) in
  match answer with
  | Ok messages => ret (default [] messages)
  | Throw e => throw e
  end.

Definition request (call : SQSCall) (answer : Result unit) : M unit :=
  let* _ := modify (logCall call) in
  match answer with
  | Ok _ => ret tt
  | Throw e => throw e
  end.

Definition deleteMessage (receiptHandle : string) := request (SQSDelete receiptHandle).
Definition changeMessageVisibility (receiptHandle : string) (visibilityTimeout : Z) :=
  request (SQSChangeVisibility receiptHandle visibilityTimeout).
Definition purgeQueue := request SQSPurge.

End SQSManager.

(** ** The facade: src/services/PriorityQueueService.ts *)

(** [interface PriorityQueueServiceOptions]: the two options that the
    dispatch depends on; the others configure the connections. *)
Record PriorityQueueServiceOptions := mkOptions {
  opt_priorityLevels : option Z;
  opt_starvationPreventionThreshold : option Z
}.

Record PriorityQueueService := mkService {
  priorityLevels : Z;
  starvationPreventionThreshold : Z
}.

Module PriorityQueueService.

(** The constructor: [options.priorityLevels || DEFAULT_CONFIG.PRIORITY_LEVELS]
    and the like. *)
Definition new (options : PriorityQueueServiceOptions) : PriorityQueueService :=
  mkService (JS.or_num (opt_priorityLevels options) DEFAULT_CONFIG.PRIORITY_LEVELS)
            (JS.or_num (opt_starvationPreventionThreshold options)
                       DEFAULT_CONFIG.STARVATION_PREVENTION_THRESHOLD).

(** The world a new service starts in: its own metrics collector, a Redis
    client that is not yet connected, over whatever the server holds. *)
Definition start (this : PriorityQueueService) (server : RedisClient) (clock : nat → Z) : World :=
  mkWorld server false [] (Metrics.new (priorityLevels this)) clock 0%nat.

Definition connect (answer : Result unit) : M unit := RedisManager.connect answer.
Definition disconnect : M unit := RedisManager.disconnect.

(** [Object.entries(queueDepth).forEach(([priority, depth]) =>
    this.metricsCollector.updateQueueDepth(parseInt(priority), depth))] *)
Definition refreshQueueDepth (this : PriorityQueueService) : M unit :=
  let* queueDepth := RedisManager.getQueueDepthByPriority (priorityLevels this) in
  modify (withMetrics (λ m, map_fold Metrics.updateQueueDepth m queueDepth)).

Definition sendMessage (this : PriorityQueueService) (params : SendMessageParams)
    (answer : Result (option string)) : M string :=
  if negb (isValidPriority (sp_priority params) (priorityLevels this)) then
    throw (InvalidPriority (sp_priority params) (priorityLevels this))
  else
    let* messageId := SQSManager.sendMessage params answer in
    let* now := Date_now in
    let metadata := mkMetadata messageId (sp_priority params) now None None 0 in
    let* _ := RedisManager.addMessage messageId (sp_priority params) metadata in
    let* _ := refreshQueueDepth this in
    ret messageId.

(** The string attributes of a transport message whose value is truthy. *)
Definition parseAttributes (sqsMessage : SQSMessage) : gmap string string :=
  match MessageAttributes sqsMessage with
  | Some attrs => omap JS.truthy attrs
  | None => ∅
  end.

Definition toPriorityMessage (messageId : string) (sqsMessage : SQSMessage)
    (metadata : MessageMetadata) : PriorityMessage :=
  mkPriorityMessage messageId
    (default EmptyString (Body sqsMessage))
    (md_priority metadata)
    (default EmptyString (ReceiptHandle sqsMessage))
    (sentAt metadata)
    (parseAttributes sqsMessage)
    (firstReceivedAt metadata)
    (receiveCount metadata).

(** The loop [for (const sqsMessage of sqsMessages)]. *)
Fixpoint filterAndPrioritize (sqsMessages : list SQSMessage)
    (prioritizedMessages : list PriorityMessage) : M (list PriorityMessage) :=
  match sqsMessages with
  | [] => ret prioritizedMessages
  | sqsMessage :: sqsMessages =>
      match JS.truthy (MessageId sqsMessage) with
      | None => filterAndPrioritize sqsMessages prioritizedMessages
      | Some messageId =>
          let* metadata := RedisManager.getMessageMetadata messageId in
          match metadata with
          | Some metadata =>
              let* _ := RedisManager.markMessageAsReceived messageId in
              let priorityMessage := toPriorityMessage messageId sqsMessage metadata in
              let* now := Date_now in
              let* _ := modify (withMetrics (Metrics.startMessageProcessing messageId now)) in
              filterAndPrioritize sqsMessages (prioritizedMessages ++ [priorityMessage])
          | None => filterAndPrioritize sqsMessages prioritizedMessages
          end
      end
  end.

(** [params?.maxMessages || DEFAULT_CONFIG.MAX_MESSAGES] *)
Definition maxMessagesOf (params : option ReceiveMessageParams) : Z :=
  JS.or_num (params ≫= rp_maxMessages) DEFAULT_CONFIG.MAX_MESSAGES.

Definition receiveMessages (this : PriorityQueueService)
    (params : option ReceiveMessageParams)
    (answer : Result (option (list SQSMessage))) : M (list PriorityMessage) :=
  let maxMessages := maxMessagesOf params in
  let* messageIds :=
    RedisManager.getNextMessages (priorityLevels this) maxMessages
                                 (starvationPreventionThreshold this) in
  if (length messageIds =? 0)%nat then ret []
  else
    let* sqsMessages := SQSManager.receiveMessages maxMessages answer in
    if (length sqsMessages =? 0)%nat then ret []
    else
      let* prioritizedMessages := filterAndPrioritize sqsMessages [] in
      let* _ := refreshQueueDepth this in
      ret prioritizedMessages.

Definition endMessageProcessing (messageId : string) (priority : Z) : M unit :=
  let* m := gets metricsCollector in
  match Metrics.trackedStart messageId priority m with
  | Some startTime =>
      let* now := Date_now in
      modify (withMetrics (Metrics.recordLatency messageId priority startTime now))
  | None => ret tt
  end.

(** [if (messageId && priority !== undefined)] *)
Definition deleteMessage (this : PriorityQueueService) (receiptHandle : string)
    (messageId : option string) (priority : option Z) (answer : Result unit) : M unit :=
  let* _ := SQSManager.deleteMessage receiptHandle answer in
  match JS.truthy messageId, priority with
  | Some messageId, Some priority =>
      let* _ := RedisManager.removeMessage messageId priority in
      let* _ := endMessageProcessing messageId priority in
      refreshQueueDepth this
  | _, _ => ret tt
  end.

Definition changeMessageVisibility (receiptHandle : string) (visibilityTimeout : Z)
    (answer : Result unit) : M unit :=
  SQSManager.changeMessageVisibility receiptHandle visibilityTimeout answer.

Definition getQueueDepthByPriority (this : PriorityQueueService) : M (gmap Z Z) :=
  RedisManager.getQueueDepthByPriority (priorityLevels this).

Definition getProcessingLatencyByPriority (this : PriorityQueueService) : M (gmap Z float) :=
  RedisManager.getProcessingLatencyByPriority (priorityLevels this).

Definition purgeQueue (answer : Result unit) : M unit :=
  let* _ := SQSManager.purgeQueue answer in
  modify (withMetrics Metrics.resetMetrics).

End PriorityQueueService.

(** ** Executions of the facade *)

(** One call of a public operation, with the answer the outside world gives
    to the request it makes (the Redis server to [connect], the transport
    to the others). *)
Inductive FacadeCall :=
| CallConnect (answer : Result unit)
| CallDisconnect
| CallSend (params : SendMessageParams) (answer : Result (option string))
| CallReceive (params : option ReceiveMessageParams)
              (answer : Result (option (list SQSMessage)))
| CallDelete (receiptHandle : string) (messageId : option string) (priority : option Z)
             (answer : Result unit)
| CallChangeVisibility (receiptHandle : string) (visibilityTimeout : Z) (answer : Result unit)
| CallQueueDepth
| CallProcessingLatency
| CallPurge (answer : Result unit).

Definition after {A} (m : M A) (w : World) : World := (m w).2.

Definition call (this : PriorityQueueService) (c : FacadeCall) : World → World :=
  match c with
  | CallConnect answer => after (PriorityQueueService.connect answer)
  | CallDisconnect => after PriorityQueueService.disconnect
  | CallSend params answer => after (PriorityQueueService.sendMessage this params answer)
  | CallReceive params answer => after (PriorityQueueService.receiveMessages this params answer)
  | CallDelete receiptHandle messageId priority answer =>
      after (PriorityQueueService.deleteMessage this receiptHandle messageId priority answer)
  | CallChangeVisibility receiptHandle visibilityTimeout answer =>
      after (PriorityQueueService.changeMessageVisibility receiptHandle visibilityTimeout answer)
  | CallQueueDepth => after (PriorityQueueService.getQueueDepthByPriority this)
  | CallProcessingLatency => after (PriorityQueueService.getProcessingLatencyByPriority this)
  | CallPurge answer => after (PriorityQueueService.purgeQueue answer)
  end.

Definition run (this : PriorityQueueService) (calls : list FacadeCall) (w : World) : World :=
  foldl (λ w c, call this c w) w calls.

(** ** The logger: src/utils/logger.ts *)

Module Logger.

Inductive LogLevel := DEBUG | INFO | WARN | ERROR.

#[global] Instance LogLevel_eq_dec : EqDecision LogLevel.
Proof. solve_decision. Defined.

Record Logger := mkLogger {
  context : string;
  level : LogLevel
}.

(** The constructor: [level: LogLevel = LogLevel.INFO]. *)
Definition new (context : string) (level : option LogLevel) : Logger :=
  mkLogger context (default INFO level).

(** [levels.indexOf(x)], counting from [from]; -1 when [x] is absent. *)
Fixpoint indexOf (levels : list LogLevel) (x : LogLevel) (from : Z) : Z :=
  match levels with
  | [] => -1
  | y :: levels => if decide (y = x) then from else indexOf levels x (from + 1)
  end.

Definition shouldLog (this : Logger) (level : LogLevel) : bool :=
  let levels := [DEBUG; INFO; WARN; ERROR] in
  let configuredLevelIndex := indexOf levels (Logger.level this) 0 in
  let messageLevelIndex := indexOf levels level 0 in
  configuredLevelIndex <=? messageLevelIndex.

(** [level.toUpperCase()] of the enum's string values. *)
Definition upperCase (level : LogLevel) : string :=
  match level with
  | DEBUG => "DEBUG"
  | INFO => "INFO"
  | WARN => "WARN"
  | ERROR => "ERROR"
  end.

(** The private [log]: the console method it calls (named by the level) and
    the line it prints, or nothing; [timestamp] is the
    [new Date().toISOString()] read there. *)
Definition log (this : Logger) (timestamp : string) (level : LogLevel) (message : string)
    : option (LogLevel * string) :=
  if shouldLog this level then
    Some (level,
          "[" +:+ timestamp +:+ "] [" +:+ upperCase level +:+ "] ["
              +:+ context this +:+ "] " +:+ message)
  else None.

Definition debug (this : Logger) (timestamp message : string) := log this timestamp DEBUG message.
Definition info (this : Logger) (timestamp message : string) := log this timestamp INFO message.
Definition warn (this : Logger) (timestamp message : string) := log this timestamp WARN message.
Definition error (this : Logger) (timestamp message : string) := log this timestamp ERROR message.

Definition setLevel (level : LogLevel) (this : Logger) : Logger :=
  mkLogger (context this) level.

End Logger.

(** * Notions used by the statements *)

(** A computation keeps a component of the world when no run of it, ending
    normally or not, changes that component. *)
Definition keeps {A B} (part : World → B) (m : M A) : Prop :=
  ∀ w, part (m w).2 = part w.

(** The world after one reading of the clock. *)
Definition tick (w : World) : World := (Date_now w).2.

(** The identifiers queued in one class, oldest first. *)
Definition ids (c : RedisClient) (priority : nat) : list string :=
  (zset c (Z.of_nat priority)).*2.

(** A sorted set laid out by ascending score, so that the head of a range
    holds the oldest members. *)
Definition byScore (l : list zentry) : Prop :=
  StronglySorted (λ a b : zentry, a.1 ≤ b.1) l.

(** [queueSizes.reduce((sum, size) => sum + size, 0)] is the sum of the depths. *)
Definition sumZ (l : list Z) : Z := foldr Z.add 0 l.

(** The total backlog at the time the depths are read. *)
Definition backlog (c : RedisClient) (priorityLevels : Z) : Z :=
  sumZ (RedisManager.readQueueSizes c priorityLevels).

(** The selection of section 4.2, written after the spec's words: take up
    to the remaining budget of oldest identifiers from the first class,
    then from the next one with what is left of the budget. *)
Fixpoint greedy (classes : list (list string)) (remaining : nat) : list string :=
  match classes with
  | [] => []
  | oldestFirst :: classes =>
      let taken := take remaining oldestFirst in
      taken ++ greedy classes (remaining - length taken)
  end.

(** The identifier under which the loop of [receiveMessages] surfaces a
    transport message, given the metadata records of the index: the message
    must carry a truthy [MessageId] and that identifier must have a record. *)
Definition surfacedId (records : gmap string MessageMetadata) (sqsMessage : SQSMessage)
    : option string :=
  match JS.truthy (MessageId sqsMessage) with
  | Some messageId =>
      match records !! messageId with
      | Some _ => Some messageId
      | None => None
      end
  | None => None
  end.

(** Concrete services and worlds, built with the public operations. *)
Module Scenario.

(** Three priority levels, the default threshold of 100. *)
Definition service : PriorityQueueService :=
  PriorityQueueService.new (mkOptions (Some 3) None).

(** A connected service over an empty index. *)
Definition fresh : World :=
  run service [CallConnect (Ok tt)]
      (PriorityQueueService.start service (mkRedis ∅ ∅ ∅) (λ n, 1000 + Z.of_nat n)).

(** A send that the transport accepts under the identifier [messageId]. *)
Definition send (priority : Z) (messageId : string) : FacadeCall :=
  CallSend (mkSendParams "payload" priority None None None None) (Ok (Some messageId)).

(** The transport's copy of a message. *)
Definition delivered (messageId : string) : SQSMessage :=
  mkSQSMessage (Some messageId) (Some "payload") (Some ("receipt-" +:+ messageId)) None.

(** [count] sends to one class, with identifiers [prefix0], [prefix1], ... *)
Definition sends (priority : Z) (prefix : string) (count : nat) : list FacadeCall :=
  (λ i : nat, send priority (prefix +:+ pretty i)) <$> seq 0 count.

(** One message of class 1 sent before one message of class 0. *)
Definition lowThenHigh : World := run service [send 1 "low"; send 0 "high"] fresh.

(** Two messages of class 0. *)
Definition twoUrgent : World := run service [send 0 "first"; send 0 "second"] fresh.

(** One message of class 0, 101 of class 1 and one of class 2. *)
Definition crowded : World :=
  run service (send 0 "urgent" :: sends 1 "bulk" 101 ++ [send 2 "late"]) fresh.

Definition batchOf (n : Z) : option ReceiveMessageParams :=
  Some (mkReceiveParams (Some n) None None None).

(** One message of class 0, sent and received but not yet deleted. *)
Definition inFlight : World :=
  run service [send 0 "job"; CallReceive None (Ok (Some [delivered "job"]))] fresh.

(** The same message once it is deleted: the index is empty again. *)
Definition processed : World :=
  run service [CallDelete "receipt-job" (Some "job") (Some 0) (Ok tt)] inFlight.

End Scenario.

(** The reading of "intersect candidates with fetched messages" for one
    receive call: every message returned carries an identifier that the
    dispatch engine chose for that call. *)
Definition returnedAmongCandidates (this : PriorityQueueService)
    (params : option ReceiveMessageParams)
    (answer : Result (option (list SQSMessage))) (w : World) : Prop :=
  ∀ candidates result,
    (RedisManager.getNextMessages (priorityLevels this)
       (PriorityQueueService.maxMessagesOf params)
       (starvationPreventionThreshold this) w).1 = Ok candidates →
    (PriorityQueueService.receiveMessages this params answer w).1 = Ok result →
    ∀ message, message ∈ result → pm_id message ∈ candidates.

(** The claim that the depth query reads zero for every class once a purge
    has completed. *)
Definition purgeZeroesDepth (this : PriorityQueueService) (w : World) : Prop :=
  ∀ w' queueDepth,
    PriorityQueueService.purgeQueue (Ok tt) w = (Ok tt, w') →
    (PriorityQueueService.getQueueDepthByPriority this w').1 = Ok queueDepth →
    ∀ p, 0 ≤ p < priorityLevels this → queueDepth !! p = Some 0.

(** The component of the world that the latency query reads. *)
Abbreviation latencyPart := (λ w : World, latencyKeys (client w)).



(** A batch that lists the classes in ascending order and, within a class,
    a run of its oldest identifiers: class [i] contributes its first
    [counts[i]] identifiers. *)
Definition oldestOfEachClass (classes : list (list string)) (counts : list nat)
    : list string :=
  concat (zip_with take counts classes).

(** No record of [w] is lost in [w'], or changes what it says of the
    message: every identifier with a record in [w] has one in [w'] with the
    same identifier, priority and send time. *)
Definition keepsRecords (w w' : World) : Prop :=
  ∀ messageId record,
    metadataKeys (client w) !! messageId = Some record →
    ∃ record',
      metadataKeys (client w') !! messageId = Some record'
      ∧ md_id record' = md_id record
      ∧ md_priority record' = md_priority record
      ∧ sentAt record' = sentAt record.

(** The records of [w'] are those of [w] grown older: every identifier
    with a record in [w] has one in [w'] with the same identifier, priority
    and send time, and a receive count that is not lower. *)
Definition ages (w w' : World) : Prop :=
  ∀ messageId record,
    metadataKeys (client w) !! messageId = Some record →
    ∃ record',
      metadataKeys (client w') !! messageId = Some record'
      ∧ md_id record' = md_id record
      ∧ md_priority record' = md_priority record
      ∧ sentAt record' = sentAt record
      ∧ receiveCount record ≤ receiveCount record'.

(** The receive counts of the index are safe integers with room for
    [marks] more receives: each is at least -2^53 and, with [marks] added,
    at most 2^53, so that the next [marks] increments are exact. *)
Definition safeCounts (marks : nat) (c : RedisClient) : Prop :=
  ∀ messageId record,
    metadataKeys c !! messageId = Some record →
    - 2 ^ 53 ≤ receiveCount record ∧ receiveCount record + Z.of_nat marks ≤ 2 ^ 53.

(** The severity of a log level: the levels in ascending order are DEBUG,
    INFO, WARN and ERROR. *)
Definition severity (level : Logger.LogLevel) : Z :=
  match level with
  | Logger.DEBUG => 0
  | Logger.INFO => 1
  | Logger.WARN => 2
  | Logger.ERROR => 3
  end.

(** * Properties *)

(** ** The monad *)

Lemma bind_ok {A B} (m : M A) (f : A → M B) w a w' :
  m w = (Ok a, w') → bind m f w = f a w'.
Proof. unfold bind. by intros ->. Qed.

Lemma bind_throw {A B} (m : M A) (f : A → M B) w e w' :
  m w = (Throw e, w') → bind m f w = (Throw e, w').
Proof. unfold bind. by intros ->. Qed.

Lemma run_pair {A} (m : M A) w r : (m w).1 = r → m w = (r, (m w).2).
Proof. intros <-. by destruct (m w). Qed.

Lemma requireConnected_ok w : connected w = true → requireConnected w = (Ok tt, w).
Proof. unfold requireConnected, bind, gets, ret. by intros ->. Qed.

Lemma requireConnected_throw w :
  connected w = false → requireConnected w = (Throw NotConnected, w).
Proof. unfold requireConnected, bind, gets, throw. by intros ->. Qed.

Section keeps.
Context {B : Type} (part : World → B).

Lemma keeps_ret {A} (a : A) : keeps part (ret a).
Proof. done. Qed.

Lemma keeps_throw {A} e : keeps part (@throw A e).
Proof. done. Qed.

Lemma keeps_gets {A} (f : World → A) : keeps part (gets f).
Proof. done. Qed.

Lemma keeps_modify f : (∀ w, part (f w) = part w) → keeps part (modify f).
Proof. intros H w. apply H. Qed.

Lemma keeps_bind {A C} (m : M A) (f : A → M C) :
  keeps part m → (∀ a, keeps part (f a)) → keeps part (bind m f).
Proof.
  intros Hm Hf w. unfold bind. specialize (Hm w).
  destruct (m w) as [[a|e] w1]; simpl in *; [|done].
  by rewrite Hf.
Qed.

Lemma keeps_requireConnected : keeps part requireConnected.
Proof. intros w. unfold requireConnected, bind, gets. by destruct (connected w). Qed.
End keeps.

Lemma getMessageMetadata_ok messageId w :
  connected w = true →
  RedisManager.getMessageMetadata messageId w = (Ok (metadataKeys (client w) !! messageId), w).
Proof.
  intros Hc. unfold RedisManager.getMessageMetadata.
  by rewrite (bind_ok _ _ _ _ _ (requireConnected_ok w Hc)).
Qed.

(** ** C6: a send that is refused or that the transport refuses *)

(** C6. [sendMessage] with a priority outside [0, priorityLevels) throws the
    invalid-priority error and leaves the whole world as it was: the log of
    transport requests, the index, the metrics and the clock are untouched.
    With a valid priority and a transport that refuses the submission, the
    call throws the transport's error and the index is the one before the
    call (the only effect is the logged request). *)
Theorem sendMessage_fails_cleanly this params answer w :
  (¬ (0 ≤ sp_priority params < priorityLevels this) →
     PriorityQueueService.sendMessage this params answer w
     = (Throw (InvalidPriority (sp_priority params) (priorityLevels this)), w))
  ∧ (0 ≤ sp_priority params < priorityLevels this →
     ∀ e, answer = Throw e →
       ∃ w', PriorityQueueService.sendMessage this params answer w = (Throw e, w')
             ∧ client w' = client w
             ∧ sqsCalls w' = sqsCalls w ++ [SQSSend params]).
Proof.
  unfold PriorityQueueService.sendMessage, isValidPriority. split.
  - intros Hout.
    destruct (0 <=? sp_priority params) eqn:Hlo, (sp_priority params <? priorityLevels this) eqn:Hhi;
      simpl; try done.
    exfalso. apply Hout. lia.
  - intros [Hlo Hhi] e ->.
    apply Z.leb_le in Hlo. apply Z.ltb_lt in Hhi. rewrite Hlo, Hhi. simpl.
    eexists. split; [reflexivity|]. done.
Qed.

Lemma sendMessage_fails_cleanly_witness :
  let this := PriorityQueueService.new (mkOptions (Some 3) None) in
  let w := PriorityQueueService.start this (mkRedis ∅ ∅ ∅) (λ _, 1) in
  PriorityQueueService.sendMessage this (mkSendParams "job" 5 None None None None)
                                   (Ok (Some "id-1")) w
  = (Throw (InvalidPriority 5 3), w)
  ∧ ∃ w', PriorityQueueService.sendMessage this (mkSendParams "job" 2 None None None None)
                                           (Throw (TransportError "down")) w
          = (Throw (TransportError "down"), w')
          ∧ client w' = client w
          ∧ sqsCalls w' = sqsCalls w ++ [SQSSend (mkSendParams "job" 2 None None None None)].
Proof.
  intros this w. split.
  - apply (proj1 (sendMessage_fails_cleanly this (mkSendParams "job" 5 None None None None)
                    (Ok (Some "id-1")) w)).
    simpl. lia.
  - apply (proj2 (sendMessage_fails_cleanly this (mkSendParams "job" 2 None None None None)
                    (Throw (TransportError "down")) w)).
    + simpl. lia.
    + reflexivity.
Defined.

(** ** C9: marking a message as received *)

Lemma or_num_number n : JS.or_num (Some n) 0 = n.
Proof. unfold JS.or_num. destruct (n =? 0) eqn:Hn; lia. Qed.

Lemma increment_safe n : - 2 ^ 53 ≤ n < 2 ^ 53 → JS.increment n = n + 1.
Proof.
  intros Hn. unfold JS.increment.
  replace (- 2 ^ 53 <=? n) with true by lia. by replace (n <? 2 ^ 53) with true by lia.
Qed.

(** Below 2^53 the sum of the doubles is the exact sum: at both ends of
    the range and around 0 the two branches of [JS.increment] agree. *)
Lemma increment_as_double :
  Forall (λ n, JS.Math_round_Z (PrimFloat.add (JS.number n) 1) = n + 1)
         [- 2 ^ 53; - 2 ^ 53 + 1; -1; 0; 1; 2 ^ 52; 2 ^ 53 - 2; 2 ^ 53 - 1].
Proof. repeat constructor. Qed.

(** From 2^53 on the count no longer grows by one: 2^53 stays. *)
Lemma increment_saturates : JS.increment (2 ^ 53) = 2 ^ 53.
Proof. reflexivity. Qed.

Lemma receiveCount_received metadata now :
  - 2 ^ 53 ≤ receiveCount metadata < 2 ^ 53 →
  receiveCount (RedisManager.received metadata now) = receiveCount metadata + 1.
Proof.
  intros Hcount. cbn [RedisManager.received receiveCount].
  rewrite or_num_number. by apply increment_safe.
Qed.

(** C9. On a connected index, [markMessageAsReceived] of an identifier that
    has a metadata record returns normally and writes back the record with
    [receiveCount] one higher (so strictly greater), [lastReceivedAt] set to
    the time read, and [firstReceivedAt] kept when it was set (to a truthy
    timestamp, that is, not 0) and set to the time read when it was unset;
    the other fields, the other records, the sorted sets and the latency
    keys stay.  The count is one higher while the stored count is a safe
    integer: from -2^53 up to, and not including, 2^53, where adding 1 to a
    double is exact.  When the identifier has no record the call returns
    normally and the world is unchanged. *)
Theorem markMessageAsReceived_spec messageId w :
  connected w = true →
  match metadataKeys (client w) !! messageId with
  | Some old =>
      ∃ new w',
        RedisManager.markMessageAsReceived messageId w = (Ok tt, w')
        ∧ metadataKeys (client w') = <[messageId := new]> (metadataKeys (client w))
        ∧ zsets (client w') = zsets (client w)
        ∧ latencyKeys (client w') = latencyKeys (client w)
        ∧ (- 2 ^ 53 ≤ receiveCount old < 2 ^ 53 →
           receiveCount new = receiveCount old + 1
           ∧ receiveCount old < receiveCount new)
        ∧ lastReceivedAt new = Some (clock w (ticks w))
        ∧ (firstReceivedAt old = None → firstReceivedAt new = Some (clock w (ticks w)))
        ∧ (∀ t, firstReceivedAt old = Some t → t ≠ 0 → firstReceivedAt new = Some t)
        ∧ md_id new = md_id old ∧ md_priority new = md_priority old
        ∧ sentAt new = sentAt old
  | None => RedisManager.markMessageAsReceived messageId w = (Ok tt, w)
  end.
Proof.
  intros Hc. unfold RedisManager.markMessageAsReceived.
  rewrite (bind_ok _ _ _ _ _ (requireConnected_ok w Hc)).
  rewrite (bind_ok _ _ _ _ _ (getMessageMetadata_ok messageId w Hc)).
  destruct (metadataKeys (client w) !! messageId) as [old|]; [|done].
  eexists (RedisManager.received old (clock w (ticks w))), _.
  split; [reflexivity|]. do 3 (split; [reflexivity|]).
  split; [intros Hcount; rewrite receiveCount_received by done; lia|].
  cbn [RedisManager.received firstReceivedAt lastReceivedAt md_id md_priority sentAt].
  split; [reflexivity|]. split; [by intros ->|].
  split; [|done].
  intros t -> Ht. cbn [JS.or_num]. by apply Z.eqb_neq in Ht as ->.
Qed.

Lemma markMessageAsReceived_spec_witness :
  let c := mkRedis ∅ {["m1" := mkMetadata "m1" 1 10 None None 0]} ∅ in
  let w := mkWorld c true [] (Metrics.new 3) (λ _, 42) 0%nat in
  ∃ new w',
    RedisManager.markMessageAsReceived "m1" w = (Ok tt, w')
    ∧ metadataKeys (client w') !! "m1" = Some new
    ∧ receiveCount new = 1
    ∧ lastReceivedAt new = Some 42
    ∧ firstReceivedAt new = Some 42.
Proof.
  intros c w.
  pose proof (markMessageAsReceived_spec "m1" w eq_refl) as H.
  change (metadataKeys (client w) !! "m1") with (Some (mkMetadata "m1" 1 10 None None 0)) in H.
  destruct H as (new & w' & Hrun & Hkeys & _ & _ & Hcount & Hlast & Hfirst & _).
  exists new, w'. split; [exact Hrun|]. split.
  - rewrite Hkeys. apply lookup_insert_eq.
  - split; [|split; [exact Hlast|by apply Hfirst]].
    apply Hcount. cbn [receiveCount]. lia.
Defined.

(** ** The dispatch engine: ranges, sizes and the two loops *)

Lemma length_ids c priority : Z.of_nat (length (ids c priority)) = zCard c (Z.of_nat priority).
Proof. unfold ids, zCard. by rewrite length_fmap. Qed.

(** What the loops ask of ZRANGE: the [n] oldest members. *)
Lemma zRange_oldest c (priority : nat) n :
  0 < n → zRange c (Z.of_nat priority) 0 (n - 1) = take (Z.to_nat n) (ids c priority).
Proof.
  intros Hn. unfold zRange, ids.
  set (l := zset c (Z.of_nat priority)).
  replace (0 <? 0) with false by done.
  replace (n - 1 <? 0) with false by lia.
  replace (n - 1 <? 0) with false by lia. simpl.
  destruct (Z.of_nat (length l) <=? 0) eqn:Hlen.
  - apply Z.leb_le in Hlen. destruct l; [|simpl in Hlen; lia].
    simpl. by rewrite take_nil.
  - apply Z.leb_gt in Hlen. rewrite drop_0, fmap_take.
    destruct (decide (n ≤ Z.of_nat (length l))) as [Hle|Hgt].
    + f_equal. clearbody l. lia.
    + clearbody l.
      rewrite (take_ge _ (Z.to_nat n)) by (rewrite length_fmap; lia).
      apply take_ge. rewrite length_fmap. lia.
Qed.

Lemma length_zRange_oldest c (priority : nat) n :
  0 < n →
  Z.of_nat (length (zRange c (Z.of_nat priority) 0 (n - 1))) = Z.min n (zCard c (Z.of_nat priority)).
Proof.
  intros Hn. rewrite zRange_oldest by done.
  rewrite length_take, <- length_ids. lia.
Qed.

Lemma Forall_zinsert (P : zentry → Prop) e l :
  P e → Forall P l → Forall P (zinsert e l).
Proof.
  intros He. induction 1 as [|x xs Hx Hxs IH]; simpl.
  - by constructor.
  - destruct (zlt e x); repeat constructor; done.
Qed.

Lemma zinsert_byScore e l : byScore l → byScore (zinsert e l).
Proof.
  unfold byScore. induction 1 as [|x xs Hsorted IH Hx]; simpl.
  - repeat constructor.
  - destruct (zlt e x) eqn:Hlt; unfold zlt in Hlt.
    + constructor; [by constructor|].
      assert (e.1 ≤ x.1) as Hle by lia.
      constructor; [done|]. eapply Forall_impl; [exact Hx|]. simpl. intros; lia.
    + constructor; [done|]. apply Forall_zinsert; [|done]. lia.
Qed.

Lemma zremove_byScore member l : byScore l → byScore (zremove member l).
Proof.
  unfold byScore, zremove. induction 1 as [|x xs Hsorted IH Hx]; [constructor|].
  rewrite filter_cons. destruct (decide (x.2 ≠ member)); [|done].
  constructor; [done|].
  apply Forall_forall. intros y [_ Hy]%list_elem_of_filter.
  by apply (proj1 (Forall_forall _ _) Hx).
Qed.

Lemma zAdd_byScore priority score member c :
  (∀ p, byScore (zset c p)) → ∀ p, byScore (zset (zAdd priority score member c) p).
Proof.
  intros Hsorted p. unfold zset, zAdd. simpl.
  destruct (decide (priority = p)) as [->|Hne].
  - rewrite lookup_insert_eq. simpl. apply zinsert_byScore, zremove_byScore, Hsorted.
  - rewrite lookup_insert_ne by done. apply Hsorted.
Qed.

Lemma zRem_byScore priority member c :
  (∀ p, byScore (zset c p)) → ∀ p, byScore (zset (zRem priority member c) p).
Proof.
  intros Hsorted p. unfold zset, zRem. simpl.
  destruct (decide (priority = p)) as [->|Hne].
  - rewrite lookup_insert_eq. simpl. apply zremove_byScore, Hsorted.
  - rewrite lookup_insert_ne by done. apply Hsorted.
Qed.

(** In an ordered set no member left behind by a range from rank 0 is older
    than a member the range returns. *)
Lemma oldest_first l n taken left :
  byScore l → taken ∈ take n l → left ∈ drop n l → taken.1 ≤ left.1.
Proof.
  unfold byScore. rewrite <- (take_drop n l) at 1. intros Hsorted Htaken Hleft.
  by apply (StronglySorted_app_1_elem_of _ _ _ _ _ Hsorted).
Qed.

Lemma sizeAt_readQueueSizes c priorityLevels priority :
  priority ∈ priorities 0 priorityLevels →
  RedisManager.sizeAt (RedisManager.readQueueSizes c priorityLevels) priority
  = zCard c (Z.of_nat priority).
Proof.
  unfold priorities, RedisManager.sizeAt, RedisManager.readQueueSizes.
  intros Hin%elem_of_seq.
  unfold priorities. rewrite list_lookup_fmap, lookup_seq_lt by lia. done.
Qed.

Lemma foldl_add_sumZ l a : foldl Z.add a l = a + sumZ l.
Proof.
  revert a. induction l as [|x l IH]; intros a; simpl; [lia|].
  rewrite IH. unfold sumZ. lia.
Qed.

Lemma sumZ_nonneg l : Forall (λ x, 0 ≤ x) l → 0 ≤ sumZ l.
Proof. induction 1; simpl; unfold sumZ in *; simpl; lia. Qed.

Lemma readQueueSizes_nonneg c priorityLevels :
  Forall (λ x, 0 ≤ x) (RedisManager.readQueueSizes c priorityLevels).
Proof.
  unfold RedisManager.readQueueSizes. apply Forall_fmap, Forall_forall.
  intros p _. unfold zCard. simpl. lia.
Qed.

Lemma starvationLoop_length c queueSizes totalMessages messagesRemaining levels :
  ∀ result allocated,
    allocated = Z.of_nat (length result) →
    allocated ≤ messagesRemaining →
    Z.of_nat (length (RedisManager.starvationLoop c queueSizes totalMessages
                        messagesRemaining levels result allocated))
    ≤ messagesRemaining.
Proof.
  induction levels as [|priority levels IH]; intros result allocated Hlen Hle; simpl.
  - lia.
  - destruct (0 <? RedisManager.sizeAt queueSizes priority); [|by apply IH].
    set (toTake := Z.min _ _).
    destruct (0 <? toTake) eqn:Htake; [|by apply IH].
    apply Z.ltb_lt in Htake.
    pose proof (length_zRange_oldest c priority toTake Htake) as Hmsgs.
    assert (allocated + Z.of_nat (length (zRange c (Z.of_nat priority) 0 (toTake - 1)))
            ≤ messagesRemaining) as Hnew by (subst toTake; lia).
    destruct (messagesRemaining <=? _).
    + rewrite length_app. lia.
    + apply IH; [rewrite length_app; lia | done].
Qed.

Lemma normalLoop_length_max c queueSizes maxMessages levels :
  ∀ result,
    Z.of_nat (length result) ≤ maxMessages →
    Z.of_nat (length (RedisManager.normalLoop c queueSizes maxMessages levels result))
    ≤ maxMessages.
Proof.
  induction levels as [|priority levels IH]; intros result Hle; simpl.
  - done.
  - destruct (0 <? RedisManager.sizeAt queueSizes priority); [|by apply IH].
    set (toTake := Z.min _ _).
    destruct (0 <? toTake) eqn:Htake; [|by apply IH].
    apply Z.ltb_lt in Htake.
    pose proof (length_zRange_oldest c priority toTake Htake) as Hmsgs.
    assert (Z.of_nat (length (result ++ zRange c (Z.of_nat priority) 0 (toTake - 1)))
            ≤ maxMessages) as Hnew by (rewrite length_app; subst toTake; lia).
    destruct (maxMessages <=? _); [done|by apply IH].
Qed.

Lemma normalLoop_length_sizes c queueSizes maxMessages levels :
  ∀ result,
    Z.of_nat (length (RedisManager.normalLoop c queueSizes maxMessages levels result))
    ≤ Z.of_nat (length result) + sumZ (Z.max 0 ∘ RedisManager.sizeAt queueSizes <$> levels).
Proof.
  induction levels as [|priority levels IH]; intros result.
  - unfold sumZ. simpl. lia.
  - rewrite fmap_cons. change (sumZ (?x :: ?l)) with (x + sumZ l).
    cbn [RedisManager.normalLoop compose].
    assert (0 ≤ sumZ (Z.max 0 ∘ RedisManager.sizeAt queueSizes <$> levels)) as Hpos.
    { apply sumZ_nonneg, Forall_fmap, Forall_forall. intros; simpl; lia. }
    set (rest := sumZ _) in *. clearbody rest.
    destruct (0 <? RedisManager.sizeAt queueSizes priority) eqn:Hsize;
      [|specialize (IH result); lia].
    set (toTake := Z.min _ _).
    destruct (0 <? toTake) eqn:Htake; [|specialize (IH result); lia].
    apply Z.ltb_lt in Htake.
    pose proof (length_zRange_oldest c priority toTake Htake) as Hmsgs.
    set (result' := result ++ _).
    assert (Z.of_nat (length result')
            ≤ Z.of_nat (length result) + Z.max 0 (RedisManager.sizeAt queueSizes priority))
      as Hnew by (subst result'; rewrite length_app; subst toTake; lia).
    destruct (maxMessages <=? _); [lia|].
    specialize (IH result'). lia.
Qed.

Lemma sizes_of_levels c priorityLevels :
  Z.max 0 ∘ RedisManager.sizeAt (RedisManager.readQueueSizes c priorityLevels)
    <$> priorities 0 priorityLevels
  = RedisManager.readQueueSizes c priorityLevels.
Proof.
  unfold RedisManager.readQueueSizes at 2.
  apply list_fmap_ext. intros i p Hp. simpl.
  rewrite sizeAt_readQueueSizes by (by eapply list_elem_of_lookup_2).
  unfold zCard. lia.
Qed.

Lemma getNextMessages_ok priorityLevels maxMessages starvationThreshold w :
  connected w = true →
  RedisManager.getNextMessages priorityLevels maxMessages starvationThreshold w
  = (Ok (RedisManager.selectMessages (client w) priorityLevels maxMessages starvationThreshold), w).
Proof.
  intros Hc. unfold RedisManager.getNextMessages.
  by rewrite (bind_ok _ _ _ _ _ (requireConnected_ok w Hc)).
Qed.

(** ** C8: the batch is bounded by the request and by the backlog *)

(** C8. On a connected index [getNextMessages] returns normally, without
    changing the world, and in either mode the number of identifiers it
    returns is at most the backlog read by the first loop (the sum of the
    depths of all classes) and, when [maxMessages] is a count (not
    negative), at most [maxMessages]. *)
Theorem getNextMessages_bounded priorityLevels maxMessages starvationThreshold w :
  connected w = true →
  ∃ messageIds,
    RedisManager.getNextMessages priorityLevels maxMessages starvationThreshold w
    = (Ok messageIds, w)
    ∧ Z.of_nat (length messageIds) ≤ backlog (client w) priorityLevels
    ∧ (0 ≤ maxMessages → Z.of_nat (length messageIds) ≤ maxMessages).
Proof.
  intros Hc. eexists. split; [by apply getNextMessages_ok|].
  unfold RedisManager.selectMessages, backlog.
  set (c := client w). set (queueSizes := RedisManager.readQueueSizes c priorityLevels).
  pose proof (sumZ_nonneg _ (readQueueSizes_nonneg c priorityLevels)) as Htotal.
  fold queueSizes in Htotal.
  destruct (RedisManager.preventStarvation _ _ _).
  - rewrite foldl_add_sumZ, Z.add_0_l.
    destruct (0 <? Z.min maxMessages (sumZ queueSizes)) eqn:Hrem.
    + apply Z.ltb_lt in Hrem.
      pose proof (starvationLoop_length c queueSizes (sumZ queueSizes)
                    (Z.min maxMessages (sumZ queueSizes)) (priorities 0 priorityLevels)
                    [] 0 eq_refl) as Hlen.
      split; [|intros _]; lia.
    + simpl. split; [done|lia].
  - split.
    + pose proof (normalLoop_length_sizes c queueSizes maxMessages
                    (priorities 0 priorityLevels) []) as Hlen.
      subst queueSizes. rewrite sizes_of_levels in Hlen. simpl in Hlen. lia.
    + intros Hmax. by apply normalLoop_length_max.
Qed.

Lemma getNextMessages_bounded_witness :
  let c := mkRedis {[0 := [(1, "a"); (2, "b")]; 1 := [(3, "c")]]} ∅ ∅ in
  let w := mkWorld c true [] (Metrics.new 3) (λ _, 42) 0%nat in
  ∃ messageIds,
    RedisManager.getNextMessages 3 2 100 w = (Ok messageIds, w)
    ∧ Z.of_nat (length messageIds) ≤ backlog c 3
    ∧ Z.of_nat (length messageIds) ≤ 2.
Proof.
  intros c w.
  destruct (getNextMessages_bounded 3 2 100 w eq_refl) as (messageIds & Hrun & Hlog & Hmax).
  exists messageIds. split; [exact Hrun|]. split; [exact Hlog|]. apply Hmax. lia.
Defined.

(** The second loop finds no class from 1 on deeper than the threshold
    exactly when every such class has at most that depth. *)
Lemma preventStarvation_false c priorityLevels starvationThreshold :
  (∀ p, 1 ≤ p < priorityLevels → zCard c p ≤ starvationThreshold) →
  RedisManager.preventStarvation (RedisManager.readQueueSizes c priorityLevels)
                                 priorityLevels starvationThreshold = false.
Proof.
  intros Hbelow. unfold RedisManager.preventStarvation.
  apply not_true_is_false. intros Hex.
  apply existsb_exists in Hex as (priority & Hin & Hdeep).
  apply list_elem_of_In in Hin. unfold priorities in Hin. apply elem_of_seq in Hin.
  rewrite sizeAt_readQueueSizes in Hdeep by (unfold priorities; apply elem_of_seq; lia).
  apply Z.ltb_lt in Hdeep. specialize (Hbelow (Z.of_nat priority)). lia.
Qed.

(** ** C7: the normal branch is strict priority *)

Lemma greedy_exhausted classes : greedy classes 0 = [].
Proof. induction classes as [|q classes IH]; [done|]. cbn [greedy]. by rewrite take_0. Qed.

(** The greedy selection is the first [remaining] identifiers of the queues
    laid end to end in class order. *)
Lemma greedy_take_concat classes :
  ∀ remaining, greedy classes remaining = take remaining (concat classes).
Proof.
  induction classes as [|q classes IH]; intros remaining; simpl.
  - by rewrite take_nil.
  - rewrite IH, take_app. do 2 f_equal. rewrite length_take. lia.
Qed.

Lemma normalLoop_greedy c priorityLevels maxMessages levels :
  levels ⊆ priorities 0 priorityLevels →
  ∀ result,
    RedisManager.normalLoop c (RedisManager.readQueueSizes c priorityLevels)
                            maxMessages levels result
    = result ++ greedy (ids c <$> levels)
                       (Z.to_nat (maxMessages - Z.of_nat (length result))).
Proof.
  induction levels as [|priority levels IH]; intros Hsub result.
  - simpl. by rewrite app_nil_r.
  - assert (levels ⊆ priorities 0 priorityLevels) as Hsub'
      by (intros p Hp; apply Hsub, elem_of_cons; by right).
    specialize (IH Hsub').
    rewrite fmap_cons. cbn [RedisManager.normalLoop greedy].
    rewrite sizeAt_readQueueSizes by (apply Hsub, elem_of_cons; by left).
    pose proof (length_ids c priority) as Hids.
    set (budget := maxMessages - Z.of_nat (length result)).
    destruct (0 <? zCard c (Z.of_nat priority)) eqn:Hsize.
    + apply Z.ltb_lt in Hsize.
      destruct (0 <? Z.min budget (zCard c (Z.of_nat priority))) eqn:Htake.
      * apply Z.ltb_lt in Htake. rewrite zRange_oldest by done.
        assert (take (Z.to_nat (Z.min budget (zCard c (Z.of_nat priority)))) (ids c priority)
                = take (Z.to_nat budget) (ids c priority)) as ->.
        { destruct (decide (budget ≤ zCard c (Z.of_nat priority))).
          - f_equal. lia.
          - rewrite !take_ge; [done|lia|lia]. }
        set (taken := take (Z.to_nat budget) (ids c priority)).
        assert (Z.to_nat (maxMessages - Z.of_nat (length (result ++ taken)))
                = (Z.to_nat budget - length taken)%nat) as Hleft
          by (rewrite length_app; subst budget; lia).
        destruct (maxMessages <=? Z.of_nat (length (result ++ taken))) eqn:Hfull.
        -- apply Z.leb_le in Hfull.
           replace (Z.to_nat budget - length taken)%nat with 0%nat by lia.
           by rewrite greedy_exhausted, app_nil_r.
        -- by rewrite IH, Hleft, app_assoc.
      * apply Z.ltb_ge in Htake.
        replace (Z.to_nat budget) with 0%nat by lia.
        rewrite IH. fold budget. replace (Z.to_nat budget) with 0%nat by lia.
        by rewrite take_0, !greedy_exhausted.
    + apply Z.ltb_ge in Hsize.
      destruct (ids c priority) as [|? ?]; [|simpl in Hids; lia].
      rewrite take_nil. simpl. rewrite Nat.sub_0_r. apply IH.
Qed.

(** C7. In normal mode (no class from 1 on is deeper than the threshold)
    the identifiers [getNextMessages] returns on a connected index are the
    greedy selection over the class queues in ascending class order, each
    queue oldest first, with a budget of [maxMessages]; this is the first
    [maxMessages] identifiers of the queues laid end to end, so a class
    contributes only what the classes above it left of the budget. *)
Theorem getNextMessages_normal_greedy priorityLevels maxMessages starvationThreshold w :
  connected w = true →
  (∀ p, 1 ≤ p < priorityLevels → zCard (client w) p ≤ starvationThreshold) →
  let classes := ids (client w) <$> priorities 0 priorityLevels in
  RedisManager.getNextMessages priorityLevels maxMessages starvationThreshold w
  = (Ok (greedy classes (Z.to_nat maxMessages)), w)
  ∧ greedy classes (Z.to_nat maxMessages) = take (Z.to_nat maxMessages) (concat classes)
  ∧ ∀ higher lower,
      classes = higher ++ lower →
      maxMessages ≤ Z.of_nat (length (concat higher)) →
      greedy classes (Z.to_nat maxMessages) = greedy higher (Z.to_nat maxMessages).
Proof.
  intros Hc Hnormal%preventStarvation_false classes. split; [|split].
  - rewrite getNextMessages_ok by done. unfold RedisManager.selectMessages.
    rewrite Hnormal, normalLoop_greedy by done.
    simpl. by rewrite Z.sub_0_r.
  - apply greedy_take_concat.
  - intros higher lower -> Hfull.
    rewrite !greedy_take_concat, concat_app, take_app.
    replace (Z.to_nat maxMessages - length (concat higher))%nat with 0%nat by lia.
    by rewrite take_0, app_nil_r.
Qed.

Lemma getNextMessages_normal_greedy_witness :
  let c := mkRedis {[0 := [(1, "a"); (2, "b")]; 1 := [(3, "c")]; 2 := [(4, "d")]]} ∅ ∅ in
  let w := mkWorld c true [] (Metrics.new 3) (λ _, 42) 0%nat in
  RedisManager.getNextMessages 3 3 100 w = (Ok ["a"; "b"; "c"], w).
Proof.
  intros c w.
  apply (getNextMessages_normal_greedy 3 3 100 w eq_refl).
  intros p Hp. assert (p = 1 ∨ p = 2) as [-> | ->] by lia; by vm_compute.
Defined.

(** ** The receive path of the facade *)

Lemma surfacedId_dom records records' (sqsMessages : list SQSMessage) :
  dom records' = dom records →
  omap (surfacedId records') sqsMessages = omap (surfacedId records) sqsMessages.
Proof.
  intros Hdom.
  assert (∀ m, surfacedId records' m = surfacedId records m) as Hext.
  { intros m. unfold surfacedId. destruct (JS.truthy (MessageId m)) as [messageId|]; [|done].
    destruct (records !! messageId) as [md|] eqn:Hold.
    - assert (messageId ∈ dom records') as [md' ->]%elem_of_dom; [|done].
      rewrite Hdom. by apply elem_of_dom.
    - assert (messageId ∉ dom records') as ->%not_elem_of_dom; [|done].
      rewrite Hdom. by apply not_elem_of_dom. }
  induction sqsMessages as [|m sqsMessages IH]; [done|].
  cbn [omap list_omap]. fold (omap (surfacedId records') sqsMessages).
  fold (omap (surfacedId records) sqsMessages). by rewrite Hext, IH.
Qed.

Lemma markMessageAsReceived_present messageId metadata w :
  connected w = true →
  metadataKeys (client w) !! messageId = Some metadata →
  RedisManager.markMessageAsReceived messageId w
  = (Ok tt, withClient (setMetadata messageId
                          (RedisManager.received metadata (clock w (ticks w)))) (tick w)).
Proof.
  intros Hc Hmd. unfold RedisManager.markMessageAsReceived.
  rewrite (bind_ok _ _ _ _ _ (requireConnected_ok w Hc)).
  rewrite (bind_ok _ _ _ _ _ (getMessageMetadata_ok messageId w Hc)).
  by rewrite Hmd.
Qed.

Lemma getQueueDepthByPriority_ok priorityLevels w :
  connected w = true →
  ∃ queueDepth, RedisManager.getQueueDepthByPriority priorityLevels w = (Ok queueDepth, w).
Proof.
  intros Hc. unfold RedisManager.getQueueDepthByPriority.
  rewrite (bind_ok _ _ _ _ _ (requireConnected_ok w Hc)). by eexists.
Qed.

Lemma refreshQueueDepth_ok this w :
  connected w = true →
  ∃ f, PriorityQueueService.refreshQueueDepth this w = (Ok tt, withMetrics f w).
Proof.
  intros Hc. unfold PriorityQueueService.refreshQueueDepth.
  destruct (getQueueDepthByPriority_ok (priorityLevels this) w Hc) as [queueDepth Hq].
  rewrite (bind_ok _ _ _ _ _ Hq). by eexists.
Qed.

(** The loop returns normally on a connected index; the identifiers it
    adds are those of the transport messages that surface, in the order of
    the transport; it keeps the set of identifiers with a record, the
    sorted sets, the latency keys and the log. *)
Lemma filterAndPrioritize_ids sqsMessages :
  ∀ prioritizedMessages w,
    connected w = true →
    ∃ result w',
      PriorityQueueService.filterAndPrioritize sqsMessages prioritizedMessages w
      = (Ok result, w')
      ∧ pm_id <$> result
        = (pm_id <$> prioritizedMessages)
          ++ omap (surfacedId (metadataKeys (client w))) sqsMessages
      ∧ connected w' = true
      ∧ dom (metadataKeys (client w')) = dom (metadataKeys (client w))
      ∧ zsets (client w') = zsets (client w)
      ∧ latencyKeys (client w') = latencyKeys (client w)
      ∧ sqsCalls w' = sqsCalls w.
Proof.
  induction sqsMessages as [|m sqsMessages IH]; intros acc w Hc.
  - exists acc, w. simpl. by rewrite app_nil_r.
  - cbn [PriorityQueueService.filterAndPrioritize omap list_omap].
    fold (omap (surfacedId (metadataKeys (client w))) sqsMessages).
    unfold surfacedId at 1.
    destruct (JS.truthy (MessageId m)) as [messageId|]; [|by apply IH].
    rewrite (bind_ok _ _ _ _ _ (getMessageMetadata_ok messageId w Hc)).
    destruct (metadataKeys (client w) !! messageId) as [metadata|] eqn:Hmd; [|by apply IH].
    rewrite (bind_ok _ _ _ _ _ (markMessageAsReceived_present _ _ _ Hc Hmd)).
    set (w1 := withClient _ (tick w)).
    unfold bind at 1. cbn [Date_now]. unfold bind at 1. cbn [modify].
    set (w2 := withMetrics _ _).
    destruct (IH (acc ++ [PriorityQueueService.toPriorityMessage messageId m metadata]) w2)
      as (result & w' & Hrun & Hids & Hc' & Hdom & Hz & Hl & Hlog); [done|].
    exists result, w'. split; [exact Hrun|].
    assert (dom (metadataKeys (client w2)) = dom (metadataKeys (client w))) as Hdom2.
    { subst w2 w1. simpl. rewrite dom_insert_L.
      apply subseteq_union_1_L, singleton_subseteq_l, elem_of_dom. eauto. }
    split.
    { rewrite Hids, (surfacedId_dom _ _ _ Hdom2), fmap_app, <- app_assoc. done. }
    split; [done|]. split; [by rewrite Hdom|]. by rewrite Hz, Hl, Hlog.
Qed.

Lemma SQSManager_receiveMessages_ok maxMessages sqsMessages w :
  SQSManager.receiveMessages maxMessages (Ok sqsMessages) w
  = (Ok (default [] sqsMessages), logCall (SQSReceive maxMessages) w).
Proof. done. Qed.

(** A receive on a connected index whose dispatch engine proposes at least
    one candidate, answered by the transport with [sqsMessages]. *)
Lemma receiveMessages_ids this params sqsMessages w :
  connected w = true →
  RedisManager.selectMessages (client w) (priorityLevels this)
    (PriorityQueueService.maxMessagesOf params) (starvationPreventionThreshold this) ≠ [] →
  ∃ result w',
    PriorityQueueService.receiveMessages this params (Ok sqsMessages) w = (Ok result, w')
    ∧ pm_id <$> result = omap (surfacedId (metadataKeys (client w))) (default [] sqsMessages).
Proof.
  intros Hc Hcand. unfold PriorityQueueService.receiveMessages.
  rewrite (bind_ok _ _ _ _ _ (getNextMessages_ok _ _ _ w Hc)).
  destruct (RedisManager.selectMessages _ _ _ _) as [|candidate candidates]; [done|].
  cbn [length Nat.eqb].
  rewrite (bind_ok _ _ _ _ _ (SQSManager_receiveMessages_ok _ sqsMessages w)).
  destruct (default [] sqsMessages) as [|m rest] eqn:Hmsgs.
  - by exists [], (logCall (SQSReceive (PriorityQueueService.maxMessagesOf params)) w).
  - cbn [length Nat.eqb]. rewrite <- Hmsgs.
    destruct (filterAndPrioritize_ids (default [] sqsMessages) []
                (logCall (SQSReceive (PriorityQueueService.maxMessagesOf params)) w) Hc)
      as (result & w' & Hrun & Hids & Hc' & _).
    rewrite (bind_ok _ _ _ _ _ Hrun).
    destruct (refreshQueueDepth_ok this w' Hc') as [f Hrefresh].
    rewrite (bind_ok _ _ _ _ _ Hrefresh).
    exists result, (withMetrics f w'). split; [done|]. by rewrite Hids.
Qed.

(** ** C5: only tracked messages are surfaced *)

(** C5. When a receive on a connected index reaches the transport (the
    dispatch engine proposed at least one candidate) and the transport
    answers with a batch, the call returns normally, and the identifiers of
    the messages it returns are, in the order of the batch, those of the
    transport messages whose identifier has a metadata record in the index
    at the time of the call: a transport message is included if and only if
    its identifier has a record, one without a record is left out and no
    error is raised.  (A message without a truthy [MessageId] has no
    identifier to look up and is skipped.) *)
Theorem receiveMessages_surfaces_tracked this params sqsMessages w :
  connected w = true →
  RedisManager.selectMessages (client w) (priorityLevels this)
    (PriorityQueueService.maxMessagesOf params) (starvationPreventionThreshold this) ≠ [] →
  ∃ result w',
    PriorityQueueService.receiveMessages this params (Ok sqsMessages) w = (Ok result, w')
    ∧ pm_id <$> result
      = omap (surfacedId (metadataKeys (client w))) (default [] sqsMessages)
    ∧ ∀ m messageId,
        m ∈ default [] sqsMessages →
        JS.truthy (MessageId m) = Some messageId →
        (messageId ∈ pm_id <$> result ↔ is_Some (metadataKeys (client w) !! messageId)).
Proof.
  intros Hc Hcand.
  destruct (receiveMessages_ids this params sqsMessages w Hc Hcand)
    as (result & w' & Hrun & Hids).
  exists result, w'. split; [done|]. split; [done|].
  intros m messageId Hm Hid. rewrite Hids, list_elem_of_omap. split.
  - intros (m' & _ & Hs). unfold surfacedId in Hs.
    destruct (JS.truthy (MessageId m')) as [id'|]; [|done].
    destruct (metadataKeys (client w) !! id') as [md|] eqn:Hmd; [|done].
    injection Hs as ->. eauto.
  - intros [md Hmd]. exists m. split; [done|].
    unfold surfacedId. by rewrite Hid, Hmd.
Qed.

Lemma receiveMessages_surfaces_tracked_witness :
  ∃ result w',
    PriorityQueueService.receiveMessages Scenario.service None
      (Ok (Some [Scenario.delivered "stray"; Scenario.delivered "high"])) Scenario.lowThenHigh
    = (Ok result, w')
    ∧ pm_id <$> result = ["high"].
Proof.
  assert (connected Scenario.lowThenHigh = true) as Hc by (vm_compute; reflexivity).
  destruct (receiveMessages_surfaces_tracked Scenario.service None
              (Some [Scenario.delivered "stray"; Scenario.delivered "high"])
              Scenario.lowThenHigh Hc)
    as (result & w' & Hrun & Hids & _).
  - vm_compute. discriminate.
  - exists result, w'. split; [exact Hrun|]. rewrite Hids. vm_compute. reflexivity.
Defined.

(** ** C3: the candidates do not filter the result *)

(** With two messages in class 0 and a batch of one, the only candidate is
    the older message; the transport hands out the younger one, which has a
    record, and the facade returns it. *)
Lemma returnedAmongCandidates_fails :
  ¬ returnedAmongCandidates Scenario.service (Scenario.batchOf 1)
      (Ok (Some [Scenario.delivered "second"])) Scenario.twoUrgent.
Proof.
  intros H.
  pose (message := mkPriorityMessage "second" "payload" 0 "receipt-second" 1003 ∅ None 0).
  assert (pm_id message ∈ ["first"]) as Hin%list_elem_of_singleton; [|discriminate].
  apply (H ["first"] [message]);
    [vm_compute; reflexivity | vm_compute; reflexivity | apply list_elem_of_here].
Qed.

(** C3 (amended). Every message a receive call returns is one of the
    messages the transport returned to that call, under its own identifier,
    and that identifier has a metadata record in the index; the candidates
    of the dispatch engine decide only whether the transport is asked at
    all (a call with no candidate returns nothing).  The identifier need
    not be one of the candidates. *)
Theorem receiveMessages_returns_tracked this params answer w result w' :
  PriorityQueueService.receiveMessages this params answer w = (Ok result, w') →
  ∀ message, message ∈ result →
    RedisManager.selectMessages (client w) (priorityLevels this)
      (PriorityQueueService.maxMessagesOf params) (starvationPreventionThreshold this) ≠ []
    ∧ ∃ sqsMessages sqsMessage,
        answer = Ok (Some sqsMessages)
        ∧ sqsMessage ∈ sqsMessages
        ∧ MessageId sqsMessage = Some (pm_id message)
        ∧ is_Some (metadataKeys (client w) !! pm_id message).
Proof.
  intros Hrun message Hin.
  destruct (connected w) eqn:Hc.
  2:{ unfold PriorityQueueService.receiveMessages, RedisManager.getNextMessages in Hrun.
      rewrite (bind_throw _ _ _ _ _ (bind_throw _ _ _ _ _ (requireConnected_throw w Hc))) in Hrun.
      done. }
  destruct (decide (RedisManager.selectMessages (client w) (priorityLevels this)
              (PriorityQueueService.maxMessagesOf params)
              (starvationPreventionThreshold this) = [])) as [Hnone|Hcand].
  { unfold PriorityQueueService.receiveMessages in Hrun.
    rewrite (bind_ok _ _ _ _ _ (getNextMessages_ok _ _ _ w Hc)), Hnone in Hrun.
    injection Hrun as <- _. by apply elem_of_nil in Hin. }
  split; [done|].
  destruct answer as [sqsMessages|e].
  2:{ unfold PriorityQueueService.receiveMessages in Hrun.
      rewrite (bind_ok _ _ _ _ _ (getNextMessages_ok _ _ _ w Hc)) in Hrun.
      destruct (RedisManager.selectMessages _ _ _ _); done. }
  destruct (receiveMessages_ids this params sqsMessages w Hc Hcand)
    as (result' & w'' & Hrun' & Hids).
  rewrite Hrun in Hrun'. injection Hrun' as <- <-.
  assert (pm_id message ∈ pm_id <$> result) as Hid by (by apply list_elem_of_fmap_2).
  rewrite Hids in Hid. apply list_elem_of_omap in Hid as (m & Hm & Hs).
  destruct sqsMessages as [sqsMessages|]; [|by apply elem_of_nil in Hm].
  exists sqsMessages, m. split; [done|]. split; [done|].
  unfold surfacedId, JS.truthy in Hs.
  destruct (MessageId m) as [[|a s]|]; try done;
    destruct (metadataKeys (client w) !! String a s) eqn:Hmd; try done;
    injection Hs as <-; eauto.
Qed.

Lemma receiveMessages_returns_tracked_witness :
  ∃ sqsMessage,
    sqsMessage ∈ [Scenario.delivered "second"]
    ∧ MessageId sqsMessage = Some "second"
    ∧ is_Some (metadataKeys (client Scenario.twoUrgent) !! "second").
Proof.
  assert ((PriorityQueueService.receiveMessages Scenario.service (Scenario.batchOf 1)
             (Ok (Some [Scenario.delivered "second"])) Scenario.twoUrgent).1
          = Ok [mkPriorityMessage "second" "payload" 0 "receipt-second" 1003 ∅ None 0])
    as Hrun by (vm_compute; reflexivity).
  destruct (receiveMessages_returns_tracked Scenario.service (Scenario.batchOf 1)
              (Ok (Some [Scenario.delivered "second"])) Scenario.twoUrgent
              _ _ (run_pair _ _ _ Hrun) _ (list_elem_of_here _ _))
    as (_ & sqsMessages & sqsMessage & Hanswer & Hin & Hid & Hmd).
  injection Hanswer as <-. by exists sqsMessage.
Defined.

(** ** C1: the result follows the transport, not the priorities *)

(** C1 (what the code does at the failing input). One message of class 1
    and one of class 0 are in flight, both depths far below the threshold,
    so the dispatch engine proposes the class-0 message first; the
    transport hands out the class-1 message first, and [receiveMessages]
    returns the class-1 message before the class-0 message. *)
Theorem receiveMessages_keeps_transport_order :
  RedisManager.preventStarvation
    (RedisManager.readQueueSizes (client Scenario.lowThenHigh) 3) 3 100 = false
  ∧ (RedisManager.getNextMessages 3 10 100 Scenario.lowThenHigh).1 = Ok ["high"; "low"]
  ∧ ∃ result,
      (PriorityQueueService.receiveMessages Scenario.service None
         (Ok (Some [Scenario.delivered "low"; Scenario.delivered "high"]))
         Scenario.lowThenHigh).1 = Ok result
      ∧ (λ message, (pm_id message, pm_priority message)) <$> result
        = [("low", 1); ("high", 0)].
Proof.
  split; [by vm_compute|]. split; [by vm_compute|].
  eexists. split; [vm_compute; reflexivity|]. reflexivity.
Qed.

(** ** C2: a non-empty class can be left out in starvation-prevention mode *)

(** C2 (what the code does at the failing input). With depths 1, 101 and 1
    and a threshold of 100 the starvation branch is taken; of the 10
    messages asked for, class 0 gets its minimum of one and class 1 takes
    the nine that remain, which ends the loop: the only message of class 2
    is not in the batch. *)
Theorem getNextMessages_leaves_class_out :
  let c := client Scenario.crowded in
  RedisManager.readQueueSizes c 3 = [1; 101; 1]
  ∧ RedisManager.preventStarvation (RedisManager.readQueueSizes c 3) 3 100 = true
  ∧ ids c 2 = ["late"]
  ∧ (RedisManager.getNextMessages 3 10 100 Scenario.crowded).1
    = Ok ["urgent"; "bulk0"; "bulk1"; "bulk2"; "bulk3"; "bulk4"; "bulk5"; "bulk6";
          "bulk7"; "bulk8"]
  ∧ "late" ∉ ["urgent"; "bulk0"; "bulk1"; "bulk2"; "bulk3"; "bulk4"; "bulk5"; "bulk6";
              "bulk7"; "bulk8"].
Proof.
  intros c. repeat split; try (by vm_compute).
  intros Hin. repeat (apply elem_of_cons in Hin as [Hin|Hin]; [discriminate|]).
  by apply elem_of_nil in Hin.
Qed.

(** ** Maps built by the loops over the priority levels *)

Section foldl_insert.
Context {V : Type} (f : nat → V).

Lemma foldl_insert_lookup_other levels :
  ∀ (acc : gmap Z V) k,
    (∀ p, p ∈ levels → Z.of_nat p ≠ k) →
    foldl (λ r p, <[Z.of_nat p := f p]> r) acc levels !! k = acc !! k.
Proof.
  induction levels as [|q levels IH]; intros acc k Hk; [done|]. simpl.
  rewrite IH by (intros p Hp; apply Hk, elem_of_cons; by right).
  apply lookup_insert_ne, Hk, elem_of_cons. by left.
Qed.

Lemma foldl_insert_lookup levels :
  ∀ (acc : gmap Z V) p,
    p ∈ levels →
    foldl (λ r p, <[Z.of_nat p := f p]> r) acc levels !! Z.of_nat p = Some (f p).
Proof.
  induction levels as [|q levels IH]; intros acc p Hp; [by apply elem_of_nil in Hp|].
  simpl. destruct (decide (p ∈ levels)) as [Hin|Hout]; [by apply IH|].
  apply elem_of_cons in Hp as [->|Hp]; [|done].
  rewrite foldl_insert_lookup_other; [apply lookup_insert_eq|].
  intros p Hp Heq. apply Nat2Z.inj in Heq as ->. done.
Qed.

Lemma foldl_insert_values (P : V → Prop) levels :
  (∀ p, P (f p)) →
  ∀ (acc : gmap Z V),
    (∀ k v, acc !! k = Some v → P v) →
    ∀ k v, foldl (λ r p, <[Z.of_nat p := f p]> r) acc levels !! k = Some v → P v.
Proof.
  intros Hf. induction levels as [|q levels IH]; intros acc Hacc; [done|].
  simpl. apply IH. intros k v. rewrite lookup_insert.
  destruct (decide (Z.of_nat q = k)); [|by apply Hacc].
  intros [= <-]. apply Hf.
Qed.
End foldl_insert.

Lemma elem_of_priorities p priorityLevels :
  0 ≤ p < priorityLevels → Z.to_nat p ∈ priorities 0 priorityLevels.
Proof. intros Hp. unfold priorities. apply elem_of_seq. lia. Qed.

Lemma getQueueDepthByPriority_lookup priorityLevels w :
  connected w = true →
  ∃ queueDepth,
    RedisManager.getQueueDepthByPriority priorityLevels w = (Ok queueDepth, w)
    ∧ ∀ p, 0 ≤ p < priorityLevels → queueDepth !! p = Some (zCard (client w) p).
Proof.
  intros Hc. unfold RedisManager.getQueueDepthByPriority.
  rewrite (bind_ok _ _ _ _ _ (requireConnected_ok w Hc)).
  eexists. split; [reflexivity|]. intros p Hp.
  rewrite <- (Z2Nat.id p) at 1 by lia.
  rewrite (foldl_insert_lookup (λ q, zCard (client w) (Z.of_nat q)))
    by (by apply elem_of_priorities).
  by rewrite Z2Nat.id by lia.
Qed.

Lemma getProcessingLatencyByPriority_zero priorityLevels w :
  connected w = true →
  latencyKeys (client w) = ∅ →
  ∃ latency,
    RedisManager.getProcessingLatencyByPriority priorityLevels w = (Ok latency, w)
    ∧ (∀ p, 0 ≤ p < priorityLevels → latency !! p = Some PrimFloat.zero)
    ∧ (∀ p v, latency !! p = Some v → v = PrimFloat.zero).
Proof.
  intros Hc Hempty. unfold RedisManager.getProcessingLatencyByPriority.
  rewrite (bind_ok _ _ _ _ _ (requireConnected_ok w Hc)).
  eexists. split; [reflexivity|]. cbn [fst snd]. rewrite Hempty. split.
  - intros p Hp. rewrite <- (Z2Nat.id p) at 1 by lia.
    rewrite (foldl_insert_lookup
               (λ q, match (∅ : gmap Z float) !! Z.of_nat q with
                     | Some value => JS.Math_round value
                     | None => PrimFloat.zero
                     end)) by (by apply elem_of_priorities).
    by rewrite lookup_empty.
  - apply (foldl_insert_values
             (λ q, match (∅ : gmap Z float) !! Z.of_nat q with
                   | Some value => JS.Math_round value
                   | None => PrimFloat.zero
                   end) (λ v, v = PrimFloat.zero)).
    + intros q. by rewrite lookup_empty.
    + intros k v. by rewrite lookup_empty.
Qed.

(** The collector after [initializeMetrics]. *)
Lemma initializeMetrics_maps m :
  queueDepthByPriority (Metrics.initializeMetrics m)
  = foldl (λ r (p : nat), <[Z.of_nat p := 0]> r) (queueDepthByPriority m)
          (priorities 0 (mc_priorityLevels m))
  ∧ processingLatencyByPriority (Metrics.initializeMetrics m)
    = foldl (λ r (p : nat), <[Z.of_nat p := PrimFloat.zero]> r)
            (processingLatencyByPriority m) (priorities 0 (mc_priorityLevels m))
  ∧ mc_priorityLevels (Metrics.initializeMetrics m) = mc_priorityLevels m.
Proof.
  unfold Metrics.initializeMetrics.
  generalize (priorities 0 (mc_priorityLevels m)). intros levels.
  revert m. induction levels as [|p levels IH]; intros m; [done|].
  simpl. by destruct (IH (mkMetrics (<[Z.of_nat p := 0]> (queueDepthByPriority m))
                         (<[Z.of_nat p := PrimFloat.zero]> (processingLatencyByPriority m))
                         (messageProcessingStartTimes m) (mc_priorityLevels m)))
    as (-> & -> & ->).
Qed.

Lemma resetMetrics_zero m p :
  0 ≤ p < mc_priorityLevels m →
  queueDepthByPriority (Metrics.resetMetrics m) !! p = Some 0
  ∧ processingLatencyByPriority (Metrics.resetMetrics m) !! p = Some PrimFloat.zero.
Proof.
  intros Hp. unfold Metrics.resetMetrics. cbn [queueDepthByPriority processingLatencyByPriority].
  destruct (initializeMetrics_maps m) as (-> & -> & _).
  rewrite <- (Z2Nat.id p) by lia. split.
  - apply (foldl_insert_lookup (λ _, 0)). apply elem_of_priorities. lia.
  - apply (foldl_insert_lookup (λ _, PrimFloat.zero)). apply elem_of_priorities. lia.
Qed.

(** ** C4: purge *)

(** [purgeQueue] purges the transport and resets the collector; the sorted
    sets of the index, which the depth query reads, are as before. *)
Lemma purgeZeroesDepth_fails : ¬ purgeZeroesDepth Scenario.service Scenario.lowThenHigh.
Proof.
  intros H.
  assert (({[0 := 1; 1 := 1; 2 := 0]} : gmap Z Z) !! 0 = Some 0) as Hzero; [|done].
  eapply (H _ _ (run_pair _ _ _ eq_refl)); [|done].
  vm_compute. reflexivity.
Qed.

(** The latency keys of the index are as before too: a key written with
    [storeProcessingLatency] is still answered after a purge. *)
Lemma purgeQueue_keeps_latency_keys :
  let w := after (RedisManager.storeProcessingLatency 0 250.4%float) Scenario.fresh in
  ∃ latency,
    (PriorityQueueService.getProcessingLatencyByPriority Scenario.service
       (after (PriorityQueueService.purgeQueue (Ok tt)) w)).1 = Ok latency
    ∧ latency !! 0 = Some 250%float.
Proof. intros w. eexists. split; [vm_compute; reflexivity|reflexivity]. Qed.

(** C4 (amended). [purgeQueue] returns normally whenever the transport's
    purge does, whatever the queue holds, so also on an empty queue.  After
    it the metrics collector of the service holds depth 0 and latency 0 for
    every class and tracks no message.  On a connected index,
    [processingLatencyByPriority] then returns 0 for every class when the
    index holds no latency key, and [queueDepthByPriority] returns 0 for
    every class when the index holds no identifier, as on an empty queue. *)
Theorem purgeQueue_resets_collector this w :
  mc_priorityLevels (metricsCollector w) = priorityLevels this →
  ∃ w',
    PriorityQueueService.purgeQueue (Ok tt) w = (Ok tt, w')
    ∧ (∀ p, 0 ≤ p < priorityLevels this →
         queueDepthByPriority (metricsCollector w') !! p = Some 0
         ∧ processingLatencyByPriority (metricsCollector w') !! p = Some PrimFloat.zero)
    ∧ messageProcessingStartTimes (metricsCollector w') = ∅
    ∧ (connected w = true → latencyKeys (client w) = ∅ →
       ∃ latency,
         PriorityQueueService.getProcessingLatencyByPriority this w' = (Ok latency, w')
         ∧ ∀ p, 0 ≤ p < priorityLevels this → latency !! p = Some PrimFloat.zero)
    ∧ (connected w = true → (∀ p, zset (client w) p = []) →
       ∃ queueDepth,
         PriorityQueueService.getQueueDepthByPriority this w' = (Ok queueDepth, w')
         ∧ ∀ p, 0 ≤ p < priorityLevels this → queueDepth !! p = Some 0).
Proof.
  intros Hlevels.
  exists (withMetrics Metrics.resetMetrics (logCall SQSPurge w)).
  split; [done|]. split; [|split; [done|split]].
  - intros p Hp. apply resetMetrics_zero. simpl. lia.
  - intros Hc Hempty.
    destruct (getProcessingLatencyByPriority_zero (priorityLevels this)
                (withMetrics Metrics.resetMetrics (logCall SQSPurge w)) Hc Hempty)
      as (latency & Hrun & Hzero & _).
    by exists latency.
  - intros Hc Hempty.
    destruct (getQueueDepthByPriority_lookup (priorityLevels this)
                (withMetrics Metrics.resetMetrics (logCall SQSPurge w)) Hc)
      as (queueDepth & Hrun & Hdepth).
    exists queueDepth. split; [done|]. intros p Hp.
    rewrite Hdepth by done. unfold zCard. simpl. by rewrite Hempty.
Qed.

(** A purge while a message is in flight takes the collector from depth 1
    and one tracked message to depth 0 and none; a purge after the message
    was processed takes it from a latency of 1 ms to 0, and both queries
    then answer 0. *)
Lemma purgeQueue_resets_collector_witness :
  (queueDepthByPriority (metricsCollector Scenario.inFlight) !! 0 = Some 1
   ∧ is_Some (messageProcessingStartTimes (metricsCollector Scenario.inFlight) !! "job")
   ∧ ∃ w',
       PriorityQueueService.purgeQueue (Ok tt) Scenario.inFlight = (Ok tt, w')
       ∧ queueDepthByPriority (metricsCollector w') !! 0 = Some 0
       ∧ messageProcessingStartTimes (metricsCollector w') !! "job" = None)
  ∧ (processingLatencyByPriority (metricsCollector Scenario.processed) !! 0 = Some 1%float
     ∧ ∃ w' latency queueDepth,
         PriorityQueueService.purgeQueue (Ok tt) Scenario.processed = (Ok tt, w')
         ∧ processingLatencyByPriority (metricsCollector w') !! 0 = Some PrimFloat.zero
         ∧ PriorityQueueService.getProcessingLatencyByPriority Scenario.service w'
           = (Ok latency, w')
         ∧ latency !! 0 = Some PrimFloat.zero
         ∧ PriorityQueueService.getQueueDepthByPriority Scenario.service w'
           = (Ok queueDepth, w')
         ∧ queueDepth !! 0 = Some 0).
Proof.
  assert (0 ≤ 0 < priorityLevels Scenario.service) as Hclass by (simpl; lia).
  split.
  - split; [vm_compute; reflexivity|]. split; [vm_compute; by eexists|].
    assert (mc_priorityLevels (metricsCollector Scenario.inFlight)
            = priorityLevels Scenario.service) as Hlevels by (vm_compute; reflexivity).
    destruct (purgeQueue_resets_collector Scenario.service Scenario.inFlight Hlevels)
      as (w' & Hrun & Hcollector & Hstarts & _).
    exists w'. split; [exact Hrun|]. split; [apply (Hcollector 0 Hclass)|].
    by rewrite Hstarts.
  - split; [vm_compute; reflexivity|].
    assert (mc_priorityLevels (metricsCollector Scenario.processed)
            = priorityLevels Scenario.service) as Hlevels by (vm_compute; reflexivity).
    assert (connected Scenario.processed = true) as Hc by (vm_compute; reflexivity).
    assert (latencyKeys (client Scenario.processed) = ∅) as Hkeys by (vm_compute; reflexivity).
    assert (zsets (client Scenario.processed) = {[0 := []]}) as Hqueues
      by (vm_compute; reflexivity).
    destruct (purgeQueue_resets_collector Scenario.service Scenario.processed Hlevels)
      as (w' & Hrun & Hcollector & _ & Hlatency & Hdepth).
    destruct (Hlatency Hc Hkeys) as (latency & Hlatencies & Hzero).
    destruct Hdepth as (queueDepth & Hdepths & Hempty); [exact Hc| |].
    { intros p. unfold zset. rewrite Hqueues.
      destruct (decide (p = 0)) as [->|Hne]; [done|]. by rewrite lookup_singleton_ne. }
    exists w', latency, queueDepth.
    split; [exact Hrun|]. split; [apply (Hcollector 0 Hclass)|].
    split; [exact Hlatencies|]. split; [by apply Hzero|].
    split; [exact Hdepths|by apply Hempty].
Defined.

(** ** C10: the latency query never sees the collector *)

Lemma keeps_latency_Date_now : keeps latencyPart Date_now.
Proof. by intros w. Qed.

Create HintDb keeps.
#[local] Hint Resolve keeps_latency_Date_now : keeps.

(** Walks down a computation: binds, the primitives, and the branches of
    a conditional; what remains is a call, left to the hints. *)
Ltac keeps_auto :=
  lazymatch goal with
  | |- keeps _ (bind _ _) => apply keeps_bind; [keeps_auto | intros; keeps_auto]
  | |- keeps _ (ret _) => apply keeps_ret
  | |- keeps _ (throw _) => apply keeps_throw
  | |- keeps _ (gets _) => apply keeps_gets
  | |- keeps _ requireConnected => apply keeps_requireConnected
  | |- keeps _ (modify _) => apply keeps_modify; intros; reflexivity
  | |- keeps _ (match ?x with _ => _ end) => destruct x; keeps_auto
  | |- _ => auto with keeps
  end.

Lemma keeps_latency_getMessageMetadata messageId :
  keeps latencyPart (RedisManager.getMessageMetadata messageId).
Proof. unfold RedisManager.getMessageMetadata. keeps_auto. Qed.
#[local] Hint Resolve keeps_latency_getMessageMetadata : keeps.

Lemma keeps_latency_markMessageAsReceived messageId :
  keeps latencyPart (RedisManager.markMessageAsReceived messageId).
Proof. unfold RedisManager.markMessageAsReceived. keeps_auto. Qed.
#[local] Hint Resolve keeps_latency_markMessageAsReceived : keeps.

Lemma keeps_latency_addMessage messageId priority metadata :
  keeps latencyPart (RedisManager.addMessage messageId priority metadata).
Proof. unfold RedisManager.addMessage. keeps_auto. Qed.
#[local] Hint Resolve keeps_latency_addMessage : keeps.

Lemma keeps_latency_removeMessage messageId priority :
  keeps latencyPart (RedisManager.removeMessage messageId priority).
Proof. unfold RedisManager.removeMessage. keeps_auto. Qed.
#[local] Hint Resolve keeps_latency_removeMessage : keeps.

Lemma keeps_latency_getNextMessages priorityLevels maxMessages starvationThreshold :
  keeps latencyPart
        (RedisManager.getNextMessages priorityLevels maxMessages starvationThreshold).
Proof. unfold RedisManager.getNextMessages. keeps_auto. Qed.
#[local] Hint Resolve keeps_latency_getNextMessages : keeps.

Lemma keeps_latency_getQueueDepthByPriority priorityLevels :
  keeps latencyPart (RedisManager.getQueueDepthByPriority priorityLevels).
Proof. unfold RedisManager.getQueueDepthByPriority. keeps_auto. Qed.
#[local] Hint Resolve keeps_latency_getQueueDepthByPriority : keeps.

Lemma keeps_latency_getProcessingLatencyByPriority priorityLevels :
  keeps latencyPart (RedisManager.getProcessingLatencyByPriority priorityLevels).
Proof. unfold RedisManager.getProcessingLatencyByPriority. keeps_auto. Qed.
#[local] Hint Resolve keeps_latency_getProcessingLatencyByPriority : keeps.

Lemma keeps_latency_request sqsCall answer :
  keeps latencyPart (SQSManager.request sqsCall answer).
Proof. unfold SQSManager.request. keeps_auto. Qed.
#[local] Hint Resolve keeps_latency_request : keeps.

Lemma keeps_latency_SQS_sendMessage params answer :
  keeps latencyPart (SQSManager.sendMessage params answer).
Proof. unfold SQSManager.sendMessage. keeps_auto. Qed.
#[local] Hint Resolve keeps_latency_SQS_sendMessage : keeps.

Lemma keeps_latency_SQS_receiveMessages maxMessages answer :
  keeps latencyPart (SQSManager.receiveMessages maxMessages answer).
Proof. unfold SQSManager.receiveMessages. keeps_auto. Qed.
#[local] Hint Resolve keeps_latency_SQS_receiveMessages : keeps.

Lemma keeps_latency_refreshQueueDepth this :
  keeps latencyPart (PriorityQueueService.refreshQueueDepth this).
Proof. unfold PriorityQueueService.refreshQueueDepth. keeps_auto. Qed.
#[local] Hint Resolve keeps_latency_refreshQueueDepth : keeps.

Lemma keeps_latency_endMessageProcessing messageId priority :
  keeps latencyPart (PriorityQueueService.endMessageProcessing messageId priority).
Proof. unfold PriorityQueueService.endMessageProcessing. keeps_auto. Qed.
#[local] Hint Resolve keeps_latency_endMessageProcessing : keeps.

Lemma keeps_latency_filterAndPrioritize sqsMessages :
  ∀ prioritizedMessages,
    keeps latencyPart (PriorityQueueService.filterAndPrioritize sqsMessages prioritizedMessages).
Proof.
  induction sqsMessages as [|m sqsMessages IH]; intros acc;
    cbn [PriorityQueueService.filterAndPrioritize]; keeps_auto.
Qed.
#[local] Hint Resolve keeps_latency_filterAndPrioritize : keeps.

(** No public operation of the facade writes a latency key. *)
Lemma keeps_latency_call this c w :
  latencyKeys (client (call this c w)) = latencyKeys (client w).
Proof.
  revert w.
  assert (∀ A (m : M A), keeps latencyPart m →
            ∀ w, latencyKeys (client (after m w)) = latencyKeys (client w))
    as Hafter by (intros A m Hm w; apply Hm).
  destruct c; cbn [call]; apply Hafter.
  - unfold PriorityQueueService.connect, RedisManager.connect. keeps_auto.
  - unfold PriorityQueueService.disconnect, RedisManager.disconnect. keeps_auto.
  - unfold PriorityQueueService.sendMessage. keeps_auto.
  - unfold PriorityQueueService.receiveMessages. keeps_auto.
  - unfold PriorityQueueService.deleteMessage, SQSManager.deleteMessage. keeps_auto.
  - unfold PriorityQueueService.changeMessageVisibility,
      SQSManager.changeMessageVisibility. keeps_auto.
  - unfold PriorityQueueService.getQueueDepthByPriority. keeps_auto.
  - unfold PriorityQueueService.getProcessingLatencyByPriority. keeps_auto.
  - unfold PriorityQueueService.purgeQueue, SQSManager.purgeQueue. keeps_auto.
Qed.

Lemma keeps_latency_run this calls :
  ∀ w, latencyKeys (client (run this calls w)) = latencyKeys (client w).
Proof.
  unfold run. induction calls as [|c calls IH]; intros w; [done|].
  simpl. by rewrite IH, keeps_latency_call.
Qed.

(** The latency keys are what the query reads: a value stored with
    [storeProcessingLatency] is answered, rounded. *)
Lemma storeProcessingLatency_read_back :
  let w := after (RedisManager.storeProcessingLatency 0 250.4%float) Scenario.fresh in
  ∃ latency,
    (PriorityQueueService.getProcessingLatencyByPriority Scenario.service w).1 = Ok latency
    ∧ latency !! 0 = Some 250%float
    ∧ latency !! 1 = Some PrimFloat.zero.
Proof. intros w. eexists. split; [vm_compute; reflexivity|]. split; reflexivity. Qed.

(** C10. Start from any world whose index holds no latency key and make
    any sequence of calls of the facade's public operations, whatever the
    transport and the server answer.  The index still holds no latency key;
    the latency query then throws when the index is not connected and
    otherwise returns 0 for every priority class and nothing else.  The
    answer is computed from the latency keys of the index alone: the
    smoothed latency held by the metrics collector does not enter it. *)
Theorem processingLatency_always_zero this calls w :
  latencyKeys (client w) = ∅ →
  let w' := run this calls w in
  latencyKeys (client w') = ∅
  ∧ (connected w' = false →
     PriorityQueueService.getProcessingLatencyByPriority this w' = (Throw NotConnected, w'))
  ∧ (connected w' = true →
     ∃ latency,
       PriorityQueueService.getProcessingLatencyByPriority this w' = (Ok latency, w')
       ∧ (∀ p, 0 ≤ p < priorityLevels this → latency !! p = Some PrimFloat.zero)
       ∧ (∀ p v, latency !! p = Some v → v = PrimFloat.zero))
  ∧ ∀ f, (PriorityQueueService.getProcessingLatencyByPriority this (withMetrics f w')).1
         = (PriorityQueueService.getProcessingLatencyByPriority this w').1.
Proof.
  intros Hempty w'.
  assert (latencyKeys (client w') = ∅) as Hempty'
    by (subst w'; by rewrite keeps_latency_run).
  split; [done|]. split; [|split].
  - intros Hc. unfold PriorityQueueService.getProcessingLatencyByPriority,
      RedisManager.getProcessingLatencyByPriority.
    by rewrite (bind_throw _ _ _ _ _ (requireConnected_throw w' Hc)).
  - intros Hc. by apply getProcessingLatencyByPriority_zero.
  - intros f. unfold PriorityQueueService.getProcessingLatencyByPriority,
      RedisManager.getProcessingLatencyByPriority.
    destruct (connected w') eqn:Hc.
    + by rewrite (bind_ok _ _ _ _ _ (requireConnected_ok (withMetrics f w') Hc)),
        (bind_ok _ _ _ _ _ (requireConnected_ok w' Hc)).
    + by rewrite (bind_throw _ _ _ _ _ (requireConnected_throw (withMetrics f w') Hc)),
        (bind_throw _ _ _ _ _ (requireConnected_throw w' Hc)).
Qed.

(** After a receive and a delete one second later the collector holds a
    latency of 1000 ms for class 0, and the query still answers 0. *)
Lemma processingLatency_always_zero_witness :
  let w := run Scenario.service
               [Scenario.send 0 "job";
                CallReceive None (Ok (Some [Scenario.delivered "job"]));
                CallDelete "receipt-job" (Some "job") (Some 0) (Ok tt)]
               (run Scenario.service [CallConnect (Ok tt)]
                  (PriorityQueueService.start Scenario.service (mkRedis ∅ ∅ ∅)
                     (λ n, 1000 * Z.of_nat n))) in
  processingLatencyByPriority (metricsCollector w) !! 0 = Some 1000%float
  ∧ ∃ latency,
      PriorityQueueService.getProcessingLatencyByPriority Scenario.service w = (Ok latency, w)
      ∧ latency !! 0 = Some PrimFloat.zero.
Proof.
  intros w. split; [vm_compute; reflexivity|].
  destruct (processingLatency_always_zero Scenario.service
              [Scenario.send 0 "job";
               CallReceive None (Ok (Some [Scenario.delivered "job"]));
               CallDelete "receipt-job" (Some "job") (Some 0) (Ok tt)]
              (run Scenario.service [CallConnect (Ok tt)]
                 (PriorityQueueService.start Scenario.service (mkRedis ∅ ∅ ∅)
                    (λ n, 1000 * Z.of_nat n))) eq_refl)
    as (_ & _ & Hquery & _).
  assert (connected w = true) as Hc by (vm_compute; reflexivity).
  destruct (Hquery Hc) as (latency & Hrun & Hzero & _).
  exists latency. split; [exact Hrun|]. apply Hzero. simpl. lia.
Defined.

(** * Further properties of the code *)

(** ** Sorted sets *)

Lemma zinsert_perm e l : zinsert e l ≡ₚ e :: l.
Proof.
  induction l as [|x l IH]; simpl; [done|].
  destruct (zlt e x); [done|]. rewrite IH. apply perm_swap.
Qed.

Lemma length_zinsert e l : length (zinsert e l) = S (length l).
Proof. by rewrite zinsert_perm. Qed.

Lemma zremove_absent member l : member ∉ l.*2 → zremove member l = l.
Proof.
  unfold zremove. induction l as [|x l IH]; intros Hout; [done|].
  rewrite fmap_cons in Hout. apply not_elem_of_cons in Hout as [Hne Hout].
  rewrite filter_cons_True by done. by rewrite IH.
Qed.

Lemma zremove_gone member l : member ∉ (zremove member l).*2.
Proof.
  unfold zremove. intros (x & -> & Hin)%list_elem_of_fmap.
  by apply list_elem_of_filter in Hin as [Hne _].
Qed.

Lemma zremove_zinsert score member l :
  member ∉ l.*2 → zremove member (zinsert (score, member) l) = l.
Proof.
  unfold zremove. induction l as [|x l IH]; intros Hout; simpl.
  - by rewrite filter_cons_False, filter_nil by (simpl; tauto).
  - rewrite fmap_cons in Hout. apply not_elem_of_cons in Hout as [Hne Hout].
    destruct (zlt (score, member) x).
    + rewrite filter_cons_False by (simpl; tauto).
      rewrite filter_cons_True by done.
      f_equal. by apply zremove_absent.
    + rewrite filter_cons_True by done. by rewrite IH.
Qed.



(** A member with a score above all the others goes to the end. *)
Lemma zinsert_latest score member l :
  Forall (λ x : zentry, x.1 < score) l → zinsert (score, member) l = l ++ [(score, member)].
Proof.
  induction 1 as [|x l Hx Hl IH]; simpl; [done|].
  unfold zlt at 1. simpl.
  replace (score <? x.1) with false by lia.
  replace (score =? x.1) with false by lia. simpl. by rewrite IH.
Qed.

Lemma zset_zAdd priority score member c p :
  zset (zAdd priority score member c) p
  = if decide (priority = p)
    then zinsert (score, member) (zremove member (zset c priority))
    else zset c p.
Proof.
  unfold zset, zAdd. simpl. destruct (decide (priority = p)) as [->|Hne].
  - by rewrite lookup_insert_eq.
  - by rewrite lookup_insert_ne.
Qed.

Lemma zset_zRem priority member c p :
  zset (zRem priority member c) p
  = if decide (priority = p) then zremove member (zset c priority) else zset c p.
Proof.
  unfold zset, zRem. simpl. destruct (decide (priority = p)) as [->|Hne].
  - by rewrite lookup_insert_eq.
  - by rewrite lookup_insert_ne.
Qed.

Lemma length_zremove_present member l :
  NoDup l.*2 → member ∈ l.*2 → S (length (zremove member l)) = length l.
Proof.
  unfold zremove. induction l as [|x l IH]; intros Hnodup Hin.
  - by apply elem_of_nil in Hin.
  - rewrite fmap_cons in Hnodup, Hin. apply NoDup_cons in Hnodup as [Hx Hnodup].
    destruct (decide (x.2 = member)) as [<-|Hne].
    + rewrite filter_cons_False by tauto. simpl. f_equal.
      change (length (zremove x.2 l) = length l). by rewrite zremove_absent.
    + rewrite filter_cons_True by done. simpl. f_equal. apply IH; [done|].
      apply elem_of_cons in Hin as [Heq|Hin]; [congruence|done].
Qed.

(** ** The index operations of [RedisManager] *)

Lemma addMessage_ok messageId priority metadata w :
  connected w = true →
  RedisManager.addMessage messageId priority metadata w
  = (Ok tt,
     withClient (zAdd priority (clock w (ticks w)) messageId)
       (withClient (setMetadata messageId (RedisManager.stamped metadata (clock w (ticks w))))
          (tick w))).
Proof.
  intros Hc. unfold RedisManager.addMessage.
  by rewrite (bind_ok _ _ _ _ _ (requireConnected_ok w Hc)).
Qed.

Lemma removeMessage_ok messageId priority w :
  connected w = true →
  RedisManager.removeMessage messageId priority w
  = (Ok tt, withClient (delMetadata messageId) (withClient (zRem priority messageId) w)).
Proof.
  intros Hc. unfold RedisManager.removeMessage.
  by rewrite (bind_ok _ _ _ _ _ (requireConnected_ok w Hc)).
Qed.

(** X1. On a client that is not connected every operation of the index
    throws the not-connected error and leaves the world as it was: nothing
    is read, written or timed. *)
Theorem index_operations_need_connection w :
  connected w = false →
  (∀ messageId priority metadata,
     RedisManager.addMessage messageId priority metadata w = (Throw NotConnected, w))
  ∧ (∀ priorityLevels maxMessages starvationThreshold,
       RedisManager.getNextMessages priorityLevels maxMessages starvationThreshold w
       = (Throw NotConnected, w))
  ∧ (∀ messageId, RedisManager.getMessageMetadata messageId w = (Throw NotConnected, w))
  ∧ (∀ messageId, RedisManager.markMessageAsReceived messageId w = (Throw NotConnected, w))
  ∧ (∀ messageId priority,
       RedisManager.removeMessage messageId priority w = (Throw NotConnected, w))
  ∧ (∀ priorityLevels,
       RedisManager.getQueueDepthByPriority priorityLevels w = (Throw NotConnected, w))
  ∧ (∀ priority latency,
       RedisManager.storeProcessingLatency priority latency w = (Throw NotConnected, w))
  ∧ (∀ priorityLevels,
       RedisManager.getProcessingLatencyByPriority priorityLevels w = (Throw NotConnected, w)).
Proof.
  intros Hc. pose proof (requireConnected_throw w Hc) as Hguard.
  repeat split; intros;
    apply (bind_throw _ _ _ _ _ Hguard).
Qed.

Lemma index_operations_need_connection_witness :
  let w := PriorityQueueService.start Scenario.service (mkRedis ∅ ∅ ∅) (λ _, 7) in
  RedisManager.getNextMessages 3 10 100 w = (Throw NotConnected, w)
  ∧ RedisManager.removeMessage "m" 0 w = (Throw NotConnected, w).
Proof.
  intros w.
  destruct (index_operations_need_connection w eq_refl) as (_ & Hnext & _ & _ & Hremove & _).
  split; [apply Hnext|apply Hremove].
Defined.

(** X2. On a connected client [addMessage] returns normally.  It writes the
    record of the identifier with [sentAt] set to the time read and
    [receiveCount] 0, whatever the caller put there, and leaves the other
    records; the identifier is queued in its class under that time and the
    other classes are as before.  The depth of the class grows by one when
    the identifier was not queued there, and stays when it was (a second
    registration moves the entry, it does not duplicate it). *)
Theorem addMessage_registers messageId priority metadata w :
  connected w = true →
  let now := clock w (ticks w) in
  ∃ w',
    RedisManager.addMessage messageId priority metadata w = (Ok tt, w')
    ∧ metadataKeys (client w') !! messageId
      = Some (mkMetadata (md_id metadata) (md_priority metadata) now
                         (firstReceivedAt metadata) (lastReceivedAt metadata) 0)
    ∧ (∀ other, other ≠ messageId →
         metadataKeys (client w') !! other = metadataKeys (client w) !! other)
    ∧ (now, messageId) ∈ zset (client w') priority
    ∧ (∀ p, p ≠ priority → zset (client w') p = zset (client w) p)
    ∧ (messageId ∉ (zset (client w) priority).*2 →
       zCard (client w') priority = zCard (client w) priority + 1)
    ∧ (NoDup (zset (client w) priority).*2 → messageId ∈ (zset (client w) priority).*2 →
       zCard (client w') priority = zCard (client w) priority)
    ∧ latencyKeys (client w') = latencyKeys (client w).
Proof.
  intros Hc now. eexists. split; [by apply addMessage_ok|].
  cbn [client withClient]. fold now.
  split; [apply lookup_insert_eq|]. split; [intros other Hne; by apply lookup_insert_ne|].
  split.
  { rewrite zset_zAdd, decide_True by done. rewrite zinsert_perm. apply list_elem_of_here. }
  split.
  { intros p Hne. rewrite zset_zAdd, decide_False by done. done. }
  unfold zCard. rewrite zset_zAdd, decide_True by done. rewrite length_zinsert.
  split; [|split; [|done]].
  - intros Hfresh. change (zset (setMetadata _ _ _) priority) with (zset (client w) priority).
    rewrite zremove_absent by done. lia.
  - intros Hnodup Hin. change (zset (setMetadata _ _ _) priority) with (zset (client w) priority).
    by rewrite (length_zremove_present _ _ Hnodup Hin).
Qed.

Lemma addMessage_registers_witness :
  ∃ w',
    RedisManager.addMessage "third" 0 (mkMetadata "third" 0 5 None None 9) Scenario.twoUrgent
    = (Ok tt, w')
    ∧ zCard (client w') 0 = 3
    ∧ ∃ record, metadataKeys (client w') !! "third" = Some record ∧ receiveCount record = 0.
Proof.
  assert (connected Scenario.twoUrgent = true) as Hc by (vm_compute; reflexivity).
  destruct (addMessage_registers "third" 0 (mkMetadata "third" 0 5 None None 9)
              Scenario.twoUrgent Hc)
    as (w' & Hrun & Hrecord & _ & _ & _ & Hdepth & _).
  exists w'. split; [exact Hrun|]. split.
  - rewrite Hdepth; [by vm_compute|]. vm_compute.
    intros Hin. repeat (apply elem_of_cons in Hin as [Hin|Hin]; [discriminate|]).
    by apply elem_of_nil in Hin.
  - eexists. split; [exact Hrecord|]. reflexivity.
Defined.

(** X3. On a connected client [removeMessage] returns normally; afterwards
    the identifier has no record and is not queued in the class named by
    [priority]; the other members of that class keep their order, the other
    classes and the other records are untouched.  In particular an
    identifier queued in another class stays queued there, without a
    record. *)
Theorem removeMessage_unregisters messageId priority w :
  connected w = true →
  ∃ w',
    RedisManager.removeMessage messageId priority w = (Ok tt, w')
    ∧ metadataKeys (client w') !! messageId = None
    ∧ (∀ other, other ≠ messageId →
         metadataKeys (client w') !! other = metadataKeys (client w) !! other)
    ∧ zset (client w') priority = zremove messageId (zset (client w) priority)
    ∧ (messageId ∉ (zset (client w') priority).*2)
    ∧ (∀ p, p ≠ priority → zset (client w') p = zset (client w) p)
    ∧ latencyKeys (client w') = latencyKeys (client w).
Proof.
  intros Hc. eexists. split; [by apply removeMessage_ok|].
  cbn [client withClient].
  split; [apply lookup_delete_eq|]. split; [intros other Hne; by apply lookup_delete_ne|].
  change (zset (delMetadata ?m ?c) ?p) with (zset c p).
  rewrite zset_zRem, decide_True by done.
  split; [done|]. split; [apply zremove_gone|]. split; [|done].
  intros p Hne. by rewrite zset_zRem, decide_False.
Qed.

Lemma removeMessage_unregisters_witness :
  ∃ w',
    RedisManager.removeMessage "low" 0 Scenario.lowThenHigh = (Ok tt, w')
    ∧ metadataKeys (client w') !! "low" = None
    ∧ (zset (client w') 1).*2 = ["low"].
Proof.
  assert (connected Scenario.lowThenHigh = true) as Hc by (vm_compute; reflexivity).
  destruct (removeMessage_unregisters "low" 0 Scenario.lowThenHigh Hc)
    as (w' & Hrun & Hrecord & _ & _ & _ & Hothers & _).
  exists w'. split; [exact Hrun|]. split; [exact Hrecord|].
  rewrite Hothers by done. by vm_compute.
Defined.

(** X4. Registering an identifier that the index does not know (no record,
    not queued in the class) and removing it under the same priority gives
    back every class queue and every record. *)
Theorem addMessage_removeMessage_roundtrip messageId priority metadata w :
  connected w = true →
  metadataKeys (client w) !! messageId = None →
  messageId ∉ (zset (client w) priority).*2 →
  ∃ w1 w2,
    RedisManager.addMessage messageId priority metadata w = (Ok tt, w1)
    ∧ RedisManager.removeMessage messageId priority w1 = (Ok tt, w2)
    ∧ (∀ p, zset (client w2) p = zset (client w) p)
    ∧ metadataKeys (client w2) = metadataKeys (client w)
    ∧ latencyKeys (client w2) = latencyKeys (client w).
Proof.
  intros Hc Hnew Hfresh. eexists _, _.
  split; [by apply addMessage_ok|]. split; [by apply removeMessage_ok|].
  cbn [client withClient]. split; [|split; [|done]].
  - intros p. change (zset (delMetadata ?m ?c) ?p) with (zset c p).
    rewrite zset_zRem. destruct (decide (priority = p)) as [<-|Hne].
    + rewrite zset_zAdd, decide_True by done.
      change (zset (setMetadata _ _ _) priority) with (zset (client w) priority).
      rewrite (zremove_absent _ _ Hfresh). by apply zremove_zinsert.
    + by rewrite zset_zAdd, decide_False.
  - simpl. rewrite delete_insert_eq. by apply delete_id.
Qed.

Lemma addMessage_removeMessage_roundtrip_witness :
  ∃ w1 w2,
    RedisManager.addMessage "third" 0 (mkMetadata "third" 0 5 None None 0) Scenario.twoUrgent
    = (Ok tt, w1)
    ∧ RedisManager.removeMessage "third" 0 w1 = (Ok tt, w2)
    ∧ zset (client w2) 0 = zset (client Scenario.twoUrgent) 0.
Proof.
  assert (connected Scenario.twoUrgent = true) as Hc by (vm_compute; reflexivity).
  assert (metadataKeys (client Scenario.twoUrgent) !! "third" = None) as Hnew
    by (vm_compute; reflexivity).
  assert ("third" ∉ (zset (client Scenario.twoUrgent) 0).*2) as Hfresh.
  { vm_compute. intros Hin.
    repeat (apply elem_of_cons in Hin as [Hin|Hin]; [discriminate|]).
    by apply elem_of_nil in Hin. }
  destruct (addMessage_removeMessage_roundtrip "third" 0 (mkMetadata "third" 0 5 None None 0)
              Scenario.twoUrgent Hc Hnew Hfresh)
    as (w1 & w2 & Hadd & Hremove & Hqueues & _).
  exists w1, w2. split; [exact Hadd|]. split; [exact Hremove|]. apply Hqueues.
Defined.

(** X5. On a connected client the depth snapshot returns normally,
    without changing the world, an object with exactly the keys
    0 .. priorityLevels - 1, each holding the cardinality of its class
    queue; with no priority level it is empty. *)
Theorem getQueueDepthByPriority_exact priorityLevels w :
  connected w = true →
  ∃ queueDepth,
    RedisManager.getQueueDepthByPriority priorityLevels w = (Ok queueDepth, w)
    ∧ (∀ p, 0 ≤ p < priorityLevels → queueDepth !! p = Some (zCard (client w) p))
    ∧ (∀ p, ¬ (0 ≤ p < priorityLevels) → queueDepth !! p = None).
Proof.
  intros Hc.
  destruct (getQueueDepthByPriority_lookup priorityLevels w Hc) as (queueDepth & Hrun & Hin).
  exists queueDepth. split; [done|]. split; [done|].
  intros p Hout. unfold RedisManager.getQueueDepthByPriority in Hrun.
  rewrite (bind_ok _ _ _ _ _ (requireConnected_ok w Hc)) in Hrun.
  injection Hrun as <-.
  rewrite (foldl_insert_lookup_other (λ q, zCard (client w) (Z.of_nat q))); [done|].
  intros q Hq. unfold priorities in Hq. apply elem_of_seq in Hq. lia.
Qed.

Lemma getQueueDepthByPriority_exact_witness :
  ∃ queueDepth,
    RedisManager.getQueueDepthByPriority 3 Scenario.twoUrgent
    = (Ok queueDepth, Scenario.twoUrgent)
    ∧ queueDepth !! 0 = Some 2 ∧ queueDepth !! 3 = None.
Proof.
  assert (connected Scenario.twoUrgent = true) as Hc by (vm_compute; reflexivity).
  destruct (getQueueDepthByPriority_exact 3 Scenario.twoUrgent Hc)
    as (queueDepth & Hrun & Hin & Hout).
  exists queueDepth. split; [exact Hrun|]. split.
  - rewrite Hin by lia. by vm_compute.
  - apply Hout. lia.
Defined.

(** ** The facade: send *)

(** The collector after the depths of a snapshot were pushed into it. *)
Lemma map_fold_updateQueueDepth m (queueDepth : gmap Z Z) :
  let m' := map_fold Metrics.updateQueueDepth m queueDepth in
  mc_priorityLevels m' = mc_priorityLevels m
  ∧ processingLatencyByPriority m' = processingLatencyByPriority m
  ∧ messageProcessingStartTimes m' = messageProcessingStartTimes m
  ∧ ∀ p, queueDepthByPriority m' !! p
         = match queueDepth !! p with
           | Some depth =>
               if (0 <=? p) && (p <? mc_priorityLevels m) then Some depth
               else queueDepthByPriority m !! p
           | None => queueDepthByPriority m !! p
           end.
Proof.
  cbv zeta.
  apply (map_fold_weak_ind
           (λ m' queueDepth,
              mc_priorityLevels m' = mc_priorityLevels m
              ∧ processingLatencyByPriority m' = processingLatencyByPriority m
              ∧ messageProcessingStartTimes m' = messageProcessingStartTimes m
              ∧ ∀ p, queueDepthByPriority m' !! p
                     = match queueDepth !! p with
                       | Some depth =>
                           if (0 <=? p) && (p <? mc_priorityLevels m) then Some depth
                           else queueDepthByPriority m !! p
                       | None => queueDepthByPriority m !! p
                       end)).
  - repeat split; try (intros p; by rewrite lookup_empty).
  - intros i depth qd r Hfresh (Hlevels & Hlat & Hstart & Hdepth).
    unfold Metrics.updateQueueDepth. rewrite Hlevels.
    destruct ((0 <=? i) && (i <? mc_priorityLevels m)) eqn:Hrange.
    + cbn [mc_priorityLevels processingLatencyByPriority messageProcessingStartTimes
             queueDepthByPriority].
      repeat split; try done. intros p.
      destruct (decide (i = p)) as [->|Hne].
      * by rewrite !lookup_insert_eq, Hrange.
      * rewrite !lookup_insert_ne by done. apply Hdepth.
    + repeat split; try done. intros p.
      destruct (decide (i = p)) as [->|Hne].
      * rewrite lookup_insert_eq, Hrange, Hdepth. by rewrite Hfresh.
      * rewrite lookup_insert_ne by done. apply Hdepth.
Qed.

Lemma refreshQueueDepth_run this w :
  connected w = true →
  mc_priorityLevels (metricsCollector w) = priorityLevels this →
  ∃ m',
    PriorityQueueService.refreshQueueDepth this w = (Ok tt, withMetrics (λ _, m') w)
    ∧ mc_priorityLevels m' = priorityLevels this
    ∧ processingLatencyByPriority m' = processingLatencyByPriority (metricsCollector w)
    ∧ messageProcessingStartTimes m' = messageProcessingStartTimes (metricsCollector w)
    ∧ ∀ p, 0 ≤ p < priorityLevels this →
           queueDepthByPriority m' !! p = Some (zCard (client w) p).
Proof.
  intros Hc Hlevels. unfold PriorityQueueService.refreshQueueDepth.
  destruct (getQueueDepthByPriority_lookup (priorityLevels this) w Hc)
    as (queueDepth & Hq & Hdepth).
  rewrite (bind_ok _ _ _ _ _ Hq).
  destruct (map_fold_updateQueueDepth (metricsCollector w) queueDepth)
    as (Hl & Hlat & Hstart & Hlookup).
  exists (map_fold Metrics.updateQueueDepth (metricsCollector w) queueDepth).
  split; [done|]. split; [congruence|]. split; [done|]. split; [done|].
  intros p Hp. rewrite Hlookup, Hdepth, Hlevels by done.
  by replace ((0 <=? p) && (p <? priorityLevels this)) with true by lia.
Qed.

(** X6. A send with a valid priority, on a connected index, that the
    transport accepts returns the transport's identifier (the empty string
    when the transport names none).  One request is logged; the index holds
    a record for the identifier with the priority of the send,
    [receiveCount] 0 and no receive time, and queues the identifier in that
    class; and the metrics collector then holds, for every class, the depth
    of that class in the index. *)
Theorem sendMessage_registers this params transportId w :
  0 ≤ sp_priority params < priorityLevels this →
  connected w = true →
  mc_priorityLevels (metricsCollector w) = priorityLevels this →
  let messageId := default EmptyString transportId in
  ∃ w' record,
    PriorityQueueService.sendMessage this params (Ok transportId) w = (Ok messageId, w')
    ∧ sqsCalls w' = sqsCalls w ++ [SQSSend params]
    ∧ metadataKeys (client w') !! messageId = Some record
    ∧ md_id record = messageId ∧ md_priority record = sp_priority params
    ∧ receiveCount record = 0
    ∧ firstReceivedAt record = None ∧ lastReceivedAt record = None
    ∧ messageId ∈ (zset (client w') (sp_priority params)).*2
    ∧ ∀ p, 0 ≤ p < priorityLevels this →
           queueDepthByPriority (metricsCollector w') !! p = Some (zCard (client w') p).
Proof.
  intros Hvalid Hc Hlevels messageId.
  unfold PriorityQueueService.sendMessage, isValidPriority.
  replace ((0 <=? sp_priority params) && (sp_priority params <? priorityLevels this))
    with true by lia.
  cbn [negb]. set (w1 := logCall (SQSSend params) w).
  assert (SQSManager.sendMessage params (Ok transportId) w = (Ok messageId, w1)) as Hsend
    by done.
  rewrite (bind_ok _ _ _ _ _ Hsend).
  unfold bind at 1. cbn [Date_now]. fold (tick w1).
  rewrite (bind_ok _ _ _ _ _ (addMessage_ok _ _ _ (tick w1) Hc)).
  set (w2 := withClient _ (withClient _ _)).
  destruct (refreshQueueDepth_run this w2 Hc Hlevels) as (m' & Hrefresh & _ & _ & _ & Hdepth).
  rewrite (bind_ok _ _ _ _ _ Hrefresh).
  eexists _, _. split; [reflexivity|]. split; [done|].
  cbn [client withMetrics]. subst w2. cbn [client withClient].
  split; [apply lookup_insert_eq|]. repeat (split; [done|]).
  split; [|exact Hdepth].
  rewrite zset_zAdd, decide_True by done. rewrite zinsert_perm, fmap_cons.
  apply list_elem_of_here.
Qed.

Lemma sendMessage_registers_witness :
  ∃ w' record,
    PriorityQueueService.sendMessage Scenario.service
      (mkSendParams "payload" 2 None None None None) (Ok (Some "id-9")) Scenario.fresh
    = (Ok "id-9", w')
    ∧ metadataKeys (client w') !! "id-9" = Some record
    ∧ md_priority record = 2
    ∧ queueDepthByPriority (metricsCollector w') !! 2 = Some (zCard (client w') 2).
Proof.
  destruct (sendMessage_registers Scenario.service
              (mkSendParams "payload" 2 None None None None) (Some "id-9") Scenario.fresh)
    as (w' & record & Hrun & _ & Hrecord & _ & Hpriority & _ & _ & _ & _ & Hdepth).
  - simpl. lia.
  - reflexivity.
  - reflexivity.
  - exists w', record. split; [exact Hrun|]. split; [exact Hrecord|].
    split; [exact Hpriority|]. apply Hdepth. simpl. lia.
Defined.

(** X7. A send with a valid priority that the transport accepts while the
    index is not connected fails with the not-connected error after the
    transport took the message: the request is in the log, the index and
    the metrics are as before, so the message exists in the transport
    without an index entry. *)
Theorem sendMessage_without_index this params transportId w :
  0 ≤ sp_priority params < priorityLevels this →
  connected w = false →
  ∃ w',
    PriorityQueueService.sendMessage this params (Ok transportId) w
    = (Throw NotConnected, w')
    ∧ sqsCalls w' = sqsCalls w ++ [SQSSend params]
    ∧ client w' = client w
    ∧ metricsCollector w' = metricsCollector w.
Proof.
  intros Hvalid Hc.
  unfold PriorityQueueService.sendMessage, isValidPriority.
  replace ((0 <=? sp_priority params) && (sp_priority params <? priorityLevels this))
    with true by lia.
  cbn [negb]. set (w1 := logCall (SQSSend params) w).
  assert (SQSManager.sendMessage params (Ok transportId) w
          = (Ok (default EmptyString transportId), w1)) as Hsend by done.
  rewrite (bind_ok _ _ _ _ _ Hsend).
  unfold bind at 1. cbn [Date_now]. fold (tick w1).
  assert (connected (tick w1) = false) as Hc1 by done.
  unfold RedisManager.addMessage.
  rewrite (bind_throw _ _ _ _ _ (bind_throw _ _ _ _ _ (requireConnected_throw _ Hc1))).
  eexists. split; [reflexivity|]. done.
Qed.

Lemma sendMessage_without_index_witness :
  let w := PriorityQueueService.start Scenario.service (mkRedis ∅ ∅ ∅) (λ _, 7) in
  ∃ w',
    PriorityQueueService.sendMessage Scenario.service
      (mkSendParams "payload" 1 None None None None) (Ok (Some "id-1")) w
    = (Throw NotConnected, w')
    ∧ sqsCalls w' = [SQSSend (mkSendParams "payload" 1 None None None None)]
    ∧ client w' = client w.
Proof.
  intros w.
  destruct (sendMessage_without_index Scenario.service
              (mkSendParams "payload" 1 None None None None) (Some "id-1") w)
    as (w' & Hrun & Hlog & Hclient & _).
  - simpl. lia.
  - reflexivity.
  - exists w'. split; [exact Hrun|]. split; [exact Hlog|exact Hclient].
Defined.

(** ** The facade: receive *)

(** The receive call once the transport answered with a non-empty batch. *)
Lemma receiveMessages_batch this params sqsMessages w :
  connected w = true →
  RedisManager.selectMessages (client w) (priorityLevels this)
    (PriorityQueueService.maxMessagesOf params) (starvationPreventionThreshold this) ≠ [] →
  default [] sqsMessages ≠ [] →
  ∃ result w' f,
    PriorityQueueService.filterAndPrioritize (default [] sqsMessages) []
      (logCall (SQSReceive (PriorityQueueService.maxMessagesOf params)) w) = (Ok result, w')
    ∧ PriorityQueueService.receiveMessages this params (Ok sqsMessages) w
      = (Ok result, withMetrics f w').
Proof.
  intros Hc Hcand Hbatch. unfold PriorityQueueService.receiveMessages.
  rewrite (bind_ok _ _ _ _ _ (getNextMessages_ok _ _ _ w Hc)).
  destruct (RedisManager.selectMessages _ _ _ _) as [|candidate candidates]; [done|].
  cbn [length Nat.eqb].
  rewrite (bind_ok _ _ _ _ _ (SQSManager_receiveMessages_ok _ sqsMessages w)).
  destruct (default [] sqsMessages) as [|m rest] eqn:Hmsgs; [done|].
  cbn [length Nat.eqb]. rewrite <- Hmsgs.
  destruct (filterAndPrioritize_ids (default [] sqsMessages) []
              (logCall (SQSReceive (PriorityQueueService.maxMessagesOf params)) w) Hc)
    as (result & w' & Hrun & _ & Hc' & _).
  rewrite (bind_ok _ _ _ _ _ Hrun).
  destruct (refreshQueueDepth_ok this w' Hc') as [f Hrefresh].
  rewrite (bind_ok _ _ _ _ _ Hrefresh).
  by exists result, w', f.
Qed.

(** The receive call when it ends before the loop. *)
Lemma receiveMessages_early this params answer w :
  let maxMessages := PriorityQueueService.maxMessagesOf params in
  let candidates :=
    RedisManager.selectMessages (client w) (priorityLevels this) maxMessages
                                (starvationPreventionThreshold this) in
  (connected w = false →
   PriorityQueueService.receiveMessages this params answer w = (Throw NotConnected, w))
  ∧ (connected w = true → candidates = [] →
     PriorityQueueService.receiveMessages this params answer w = (Ok [], w))
  ∧ (connected w = true → candidates ≠ [] →
     ∀ e, answer = Throw e →
       PriorityQueueService.receiveMessages this params answer w
       = (Throw e, logCall (SQSReceive maxMessages) w))
  ∧ (connected w = true → candidates ≠ [] →
     ∀ sqsMessages, answer = Ok sqsMessages → default [] sqsMessages = [] →
       PriorityQueueService.receiveMessages this params answer w
       = (Ok [], logCall (SQSReceive maxMessages) w)).
Proof.
  intros maxMessages candidates. unfold PriorityQueueService.receiveMessages.
  fold maxMessages. split; [|split; [|split]].
  - intros Hc. unfold RedisManager.getNextMessages.
    by rewrite (bind_throw _ _ _ _ _ (bind_throw _ _ _ _ _ (requireConnected_throw w Hc))).
  - intros Hc Hnone. rewrite (bind_ok _ _ _ _ _ (getNextMessages_ok _ _ _ w Hc)).
    fold candidates. by rewrite Hnone.
  - intros Hc Hcand e ->. rewrite (bind_ok _ _ _ _ _ (getNextMessages_ok _ _ _ w Hc)).
    fold candidates. by destruct candidates.
  - intros Hc Hcand sqsMessages -> Hempty.
    rewrite (bind_ok _ _ _ _ _ (getNextMessages_ok _ _ _ w Hc)).
    fold candidates. destruct candidates; [done|]. cbn [length Nat.eqb].
    rewrite (bind_ok _ _ _ _ _ (SQSManager_receiveMessages_ok _ sqsMessages w)).
    by rewrite Hempty.
Qed.

(** X8. The ways a receive ends without a batch.  On an index that is not
    connected it throws the not-connected error and the world is unchanged:
    the transport is not asked.  When the dispatch engine proposes no
    candidate it returns the empty list and the world is unchanged: again
    the transport is not asked.  When the transport is asked and fails, the
    error is thrown with the index and the metrics as before; when it
    answers with no message the result is empty, and the index and the
    metrics are as before (the depths are not refreshed). *)
Theorem receiveMessages_short_circuits this params answer w :
  let maxMessages := PriorityQueueService.maxMessagesOf params in
  let candidates :=
    RedisManager.selectMessages (client w) (priorityLevels this) maxMessages
                                (starvationPreventionThreshold this) in
  (connected w = false →
   PriorityQueueService.receiveMessages this params answer w = (Throw NotConnected, w))
  ∧ (connected w = true → candidates = [] →
     PriorityQueueService.receiveMessages this params answer w = (Ok [], w))
  ∧ (connected w = true → candidates ≠ [] →
     ∀ e, answer = Throw e →
       PriorityQueueService.receiveMessages this params answer w
       = (Throw e, logCall (SQSReceive maxMessages) w))
  ∧ (connected w = true → candidates ≠ [] →
     ∀ sqsMessages, answer = Ok sqsMessages → default [] sqsMessages = [] →
       PriorityQueueService.receiveMessages this params answer w
       = (Ok [], logCall (SQSReceive maxMessages) w)).
Proof.
  intros maxMessages candidates.
  destruct (receiveMessages_early this params answer w) as (Hoff & Hnone & Hfail & Hempty).
  split; [exact Hoff|]. split; [exact Hnone|]. split; [exact Hfail|exact Hempty].
Qed.

Lemma receiveMessages_short_circuits_witness :
  PriorityQueueService.receiveMessages Scenario.service None
    (Ok (Some [Scenario.delivered "stray"])) Scenario.fresh
  = (Ok [], Scenario.fresh)
  ∧ PriorityQueueService.receiveMessages Scenario.service None
      (Throw (TransportError "down")) Scenario.twoUrgent
    = (Throw (TransportError "down"), logCall (SQSReceive 10) Scenario.twoUrgent).
Proof.
  split.
  - apply (receiveMessages_short_circuits Scenario.service None
             (Ok (Some [Scenario.delivered "stray"])) Scenario.fresh);
      vm_compute; reflexivity.
  - apply (receiveMessages_short_circuits Scenario.service None
             (Throw (TransportError "down")) Scenario.twoUrgent);
      [vm_compute; reflexivity | vm_compute; discriminate | reflexivity].
Defined.

Lemma ages_refl w : ages w w.
Proof. intros messageId record Hrecord. exists record. repeat split; [done|lia]. Qed.

Lemma ages_trans w1 w2 w3 : ages w1 w2 → ages w2 w3 → ages w1 w3.
Proof.
  intros H12 H23 messageId record Hrecord.
  destruct (H12 _ _ Hrecord) as (r2 & Hr2 & Hid2 & Hp2 & Hs2 & Hc2).
  destruct (H23 _ _ Hr2) as (r3 & Hr3 & Hid3 & Hp3 & Hs3 & Hc3).
  exists r3. repeat split; [done|congruence..|lia].
Qed.

Lemma keepsRecords_refl w : keepsRecords w w.
Proof. intros messageId record Hrecord. by exists record. Qed.

Lemma keepsRecords_trans w1 w2 w3 :
  keepsRecords w1 w2 → keepsRecords w2 w3 → keepsRecords w1 w3.
Proof.
  intros H12 H23 messageId record Hrecord.
  destruct (H12 _ _ Hrecord) as (r2 & Hr2 & Hid2 & Hp2 & Hs2).
  destruct (H23 _ _ Hr2) as (r3 & Hr3 & Hid3 & Hp3 & Hs3).
  exists r3. repeat split; [done|congruence..].
Qed.

Lemma safeCounts_le marks marks' c :
  (marks' ≤ marks)%nat → safeCounts marks c → safeCounts marks' c.
Proof.
  intros Hle Hsafe messageId record Hrecord.
  destruct (Hsafe _ _ Hrecord). lia.
Qed.

(** One pass of the loop on a message that surfaces: the record of its
    identifier is rewritten, with the fields of the message kept and, when
    the counts have room for one more receive, a count one higher. *)
Lemma received_step messageId metadata now (w w2 : World) :
  metadataKeys (client w) !! messageId = Some metadata →
  metadataKeys (client w2)
  = <[messageId := RedisManager.received metadata now]> (metadataKeys (client w)) →
  keepsRecords w w2
  ∧ ∀ marks, safeCounts (S marks) (client w) → ages w w2 ∧ safeCounts marks (client w2).
Proof.
  intros Hmd Hkeys. split.
  - intros id record Hrecord. rewrite Hkeys.
    destruct (decide (messageId = id)) as [<-|Hne].
    + rewrite lookup_insert_eq. eexists. split; [done|].
      rewrite Hmd in Hrecord. by injection Hrecord as <-.
    + rewrite lookup_insert_ne by done. by exists record.
  - intros marks Hsafe. split.
    + intros id record Hrecord. rewrite Hkeys.
      destruct (decide (messageId = id)) as [<-|Hne].
      * rewrite lookup_insert_eq. eexists. split; [done|].
        rewrite Hmd in Hrecord. injection Hrecord as <-.
        destruct (Hsafe _ _ Hmd).
        rewrite receiveCount_received by lia. repeat split. lia.
      * rewrite lookup_insert_ne by done. exists record. repeat split; [done|lia].
    + intros id record. rewrite Hkeys.
      destruct (decide (messageId = id)) as [<-|Hne].
      * rewrite lookup_insert_eq. intros [= <-].
        destruct (Hsafe _ _ Hmd).
        rewrite receiveCount_received by lia. lia.
      * rewrite lookup_insert_ne by done. intros Hrecord.
        destruct (Hsafe _ _ Hrecord). lia.
Qed.

(** What the loop returns and what it leaves in the index. *)
Lemma filterAndPrioritize_records sqsMessages :
  ∀ prioritizedMessages w,
    connected w = true →
    ∃ result w',
      PriorityQueueService.filterAndPrioritize sqsMessages prioritizedMessages w
      = (Ok result, w')
      ∧ (length prioritizedMessages ≤ length result)%nat
      ∧ keepsRecords w w'
      ∧ (∀ message, message ∈ result →
           message ∈ prioritizedMessages
           ∨ ∃ record,
               metadataKeys (client w) !! pm_id message = Some record
               ∧ pm_priority message = md_priority record
               ∧ pm_sentTimestamp message = sentAt record)
      ∧ (safeCounts (length result - length prioritizedMessages) (client w) →
         ages w w'
         ∧ ∀ message, message ∈ result →
             message ∈ prioritizedMessages
             ∨ ∃ record record',
                 metadataKeys (client w) !! pm_id message = Some record
                 ∧ receiveCount record ≤ pm_receiveCount message
                 ∧ metadataKeys (client w') !! pm_id message = Some record'
                 ∧ pm_receiveCount message < receiveCount record').
Proof.
  induction sqsMessages as [|m sqsMessages IH]; intros acc w Hc.
  - exists acc, w. split; [done|]. split; [done|]. split; [apply keepsRecords_refl|].
    split; [by left|]. intros _. split; [apply ages_refl|by left].
  - cbn [PriorityQueueService.filterAndPrioritize].
    destruct (JS.truthy (MessageId m)) as [messageId|]; [|by apply IH].
    rewrite (bind_ok _ _ _ _ _ (getMessageMetadata_ok messageId w Hc)).
    destruct (metadataKeys (client w) !! messageId) as [metadata|] eqn:Hmd; [|by apply IH].
    rewrite (bind_ok _ _ _ _ _ (markMessageAsReceived_present _ _ _ Hc Hmd)).
    set (w1 := withClient _ (tick w)).
    unfold bind at 1. cbn [Date_now]. unfold bind at 1. cbn [modify].
    set (w2 := withMetrics _ _).
    assert (metadataKeys (client w2)
            = <[messageId := RedisManager.received metadata (clock w (ticks w))]>
                (metadataKeys (client w))) as Hkeys by done.
    destruct (received_step _ _ _ w w2 Hmd Hkeys) as [Hkeep Hstep].
    set (priorityMessage := PriorityQueueService.toPriorityMessage messageId m metadata).
    destruct (IH (acc ++ [priorityMessage]) w2)
      as (result & w' & Hrun & Hlen & Hkeep' & Hresult & Hcounts); [done|].
    rewrite length_app in Hlen, Hcounts. cbn [length] in Hlen, Hcounts.
    exists result, w'. split; [exact Hrun|]. split; [lia|].
    split; [by eapply keepsRecords_trans|]. split.
    + intros message Hin. destruct (Hresult message Hin) as [Hacc|(record2 & Hr2 & Hp & Hs)].
      * apply elem_of_app in Hacc as [Hacc|Hacc]; [by left|right].
        apply list_elem_of_singleton in Hacc as ->. by exists metadata.
      * right. rewrite Hkeys in Hr2.
        destruct (decide (messageId = pm_id message)) as [Heq|Hne].
        -- rewrite <- Heq in *. rewrite lookup_insert_eq in Hr2. injection Hr2 as <-.
           by exists metadata.
        -- rewrite lookup_insert_ne in Hr2 by done. by exists record2.
    + intros Hsafe.
      replace (length result - length acc)%nat
        with (S (length result - (length acc + 1)))%nat in Hsafe by lia.
      destruct (Hstep _ Hsafe) as [Hages Hsafe2].
      destruct (Hcounts Hsafe2) as [Hages' Hresult'].
      split; [by eapply ages_trans|].
      assert (- 2 ^ 53 ≤ receiveCount metadata < 2 ^ 53) as Hcount
        by (destruct (Hsafe _ _ Hmd); lia).
      intros message Hin.
      destruct (Hresult' message Hin) as [Hacc|(record2 & record' & Hr2 & Hc2 & Hr' & Hc')].
      * apply elem_of_app in Hacc as [Hacc|Hacc]; [by left|right].
        apply list_elem_of_singleton in Hacc as ->.
        destruct (Hages' messageId (RedisManager.received metadata (clock w (ticks w))))
          as (record' & Hrecord' & _ & _ & _ & Hgrown).
        { rewrite Hkeys. apply lookup_insert_eq. }
        rewrite receiveCount_received in Hgrown by done.
        exists metadata, record'.
        cbn [priorityMessage PriorityQueueService.toPriorityMessage pm_id pm_receiveCount].
        repeat split; [done|lia|done|lia].
      * right. rewrite Hkeys in Hr2.
        destruct (decide (messageId = pm_id message)) as [Heq|Hne].
        -- rewrite <- Heq in *. rewrite lookup_insert_eq in Hr2. injection Hr2 as <-.
           rewrite receiveCount_received in Hc2 by done.
           exists metadata, record'. repeat split; [done|lia|done|done].
        -- rewrite lookup_insert_ne in Hr2 by done.
           exists record2, record'. by repeat split.
Qed.

(** X9. Every message a receive returns carries the priority and the send
    time of the record its identifier had in the index when the call began,
    and no record is lost during the call or changes its identifier, its
    priority or its send time.  When the receive counts of the index are
    safe integers with room for one more receive per message returned
    (each is at least -2^53 and, with the number of messages returned
    added, at most 2^53), no count decreases, the count a message carries
    is not below the count its record had when the call began, and when the
    call ends the record of its identifier holds a strictly greater
    count. *)
Theorem receiveMessages_carries_record this params answer w result w' :
  PriorityQueueService.receiveMessages this params answer w = (Ok result, w') →
  keepsRecords w w'
  ∧ (∀ message, message ∈ result →
       ∃ record,
         metadataKeys (client w) !! pm_id message = Some record
         ∧ pm_priority message = md_priority record
         ∧ pm_sentTimestamp message = sentAt record)
  ∧ (safeCounts (length result) (client w) →
     ages w w'
     ∧ ∀ message, message ∈ result →
         ∃ record record',
           metadataKeys (client w) !! pm_id message = Some record
           ∧ receiveCount record ≤ pm_receiveCount message
           ∧ metadataKeys (client w') !! pm_id message = Some record'
           ∧ pm_receiveCount message < receiveCount record').
Proof.
  intros Hrun.
  assert (∀ w0 : World,
            keepsRecords w0 w0
            ∧ (∀ message : PriorityMessage, message ∈ [] →
                 ∃ record,
                   metadataKeys (client w0) !! pm_id message = Some record
                   ∧ pm_priority message = md_priority record
                   ∧ pm_sentTimestamp message = sentAt record)
            ∧ (safeCounts (length (@nil PriorityMessage)) (client w0) →
               ages w0 w0
               ∧ ∀ message : PriorityMessage, message ∈ [] →
                   ∃ record record',
                     metadataKeys (client w0) !! pm_id message = Some record
                     ∧ receiveCount record ≤ pm_receiveCount message
                     ∧ metadataKeys (client w0) !! pm_id message = Some record'
                     ∧ pm_receiveCount message < receiveCount record')) as Hnothing.
  { intros w0. split; [apply keepsRecords_refl|].
    split; [by intros message Hin%elem_of_nil|].
    intros _. split; [apply ages_refl|by intros message Hin%elem_of_nil]. }
  pose proof (receiveMessages_early this params answer w) as Hshort.
  cbv zeta in Hshort. destruct Hshort as (Hoff & Hnone & Hfail & Hempty).
  destruct (connected w) eqn:Hc; [|rewrite Hoff in Hrun; done].
  destruct (decide (RedisManager.selectMessages (client w) (priorityLevels this)
              (PriorityQueueService.maxMessagesOf params)
              (starvationPreventionThreshold this) = [])) as [Hnocand|Hcand].
  { rewrite Hnone in Hrun by done. injection Hrun as <- <-. apply Hnothing. }
  destruct answer as [sqsMessages|e]; [|by rewrite (Hfail eq_refl Hcand e) in Hrun].
  destruct (decide (default [] sqsMessages = [])) as [Hnobatch|Hbatch].
  { rewrite (Hempty eq_refl Hcand _ eq_refl Hnobatch) in Hrun. injection Hrun as <- <-.
    apply (Hnothing (logCall _ w)). }
  destruct (receiveMessages_batch this params sqsMessages w Hc Hcand Hbatch)
    as (result' & w1 & f & Hloop & Hrun').
  rewrite Hrun in Hrun'. injection Hrun' as <- ->.
  destruct (filterAndPrioritize_records (default [] sqsMessages) []
              (logCall (SQSReceive (PriorityQueueService.maxMessagesOf params)) w) Hc)
    as (result' & w1' & Hloop' & _ & Hkeep & Hresult & Hcounts).
  rewrite Hloop in Hloop'. injection Hloop' as <- <-.
  split; [exact Hkeep|]. split.
  - intros message Hin. destruct (Hresult message Hin) as [Hacc|Hnew]; [|exact Hnew].
    by apply elem_of_nil in Hacc.
  - intros Hsafe. cbn [length] in Hcounts. rewrite Nat.sub_0_r in Hcounts.
    destruct (Hcounts Hsafe) as [Hages Hresult']. split; [exact Hages|].
    intros message Hin. destruct (Hresult' message Hin) as [Hacc|Hnew]; [|exact Hnew].
    by apply elem_of_nil in Hacc.
Qed.

Lemma receiveMessages_carries_record_witness :
  ∃ record',
    metadataKeys (client (after (PriorityQueueService.receiveMessages Scenario.service None
                                   (Ok (Some [Scenario.delivered "high"])))
                                Scenario.lowThenHigh)) !! "high" = Some record'
    ∧ 0 < receiveCount record'.
Proof.
  assert ((PriorityQueueService.receiveMessages Scenario.service None
             (Ok (Some [Scenario.delivered "high"])) Scenario.lowThenHigh).1
          = Ok [mkPriorityMessage "high" "payload" 0 "receipt-high" 1003 ∅ None 0])
    as Hrun by (vm_compute; reflexivity).
  destruct (receiveMessages_carries_record Scenario.service None
              (Ok (Some [Scenario.delivered "high"])) Scenario.lowThenHigh _ _
              (run_pair _ _ _ Hrun)) as (_ & _ & Hcounts).
  assert (metadataKeys (client Scenario.lowThenHigh)
          = {["low" := mkMetadata "low" 1 1001 None None 0;
              "high" := mkMetadata "high" 0 1003 None None 0]}) as Hrecords
    by (vm_compute; reflexivity).
  destruct Hcounts as [_ Hresult].
  { intros messageId record. rewrite Hrecords. intros Hrecord.
    apply lookup_insert_Some in Hrecord as [[_ <-]|[_ Hrecord]]; [cbn; lia|].
    apply lookup_singleton_Some in Hrecord as [_ <-]. cbn. lia. }
  destruct (Hresult _ (list_elem_of_here _ _))
    as (record & record' & _ & _ & Hrecord' & Hcount).
  exists record'. split; [exact Hrecord'|exact Hcount].
Defined.

(** X10. A receive is not destructive: whatever the transport answers and
    however the call ends, the class queues are as before, the same
    identifiers have a record and the latency keys are as before, so a
    message stays a candidate until it is deleted. *)
Theorem receiveMessages_keeps_queues this params answer w :
  let w' := after (PriorityQueueService.receiveMessages this params answer) w in
  zsets (client w') = zsets (client w)
  ∧ dom (metadataKeys (client w')) = dom (metadataKeys (client w))
  ∧ latencyKeys (client w') = latencyKeys (client w).
Proof.
  unfold after.
  pose proof (receiveMessages_early this params answer w) as Hshort.
  cbv zeta in Hshort. destruct Hshort as (Hoff & Hnone & Hfail & Hempty).
  destruct (connected w) eqn:Hc; [|by rewrite Hoff].
  destruct (decide (RedisManager.selectMessages (client w) (priorityLevels this)
              (PriorityQueueService.maxMessagesOf params)
              (starvationPreventionThreshold this) = [])) as [Hnocand|Hcand];
    [by rewrite Hnone|].
  destruct answer as [sqsMessages|e]; [|by rewrite (Hfail eq_refl Hcand e)].
  destruct (decide (default [] sqsMessages = [])) as [Hnobatch|Hbatch];
    [by rewrite (Hempty eq_refl Hcand _ eq_refl Hnobatch)|].
  destruct (receiveMessages_batch this params sqsMessages w Hc Hcand Hbatch)
    as (result & w1 & f & Hloop & ->).
  destruct (filterAndPrioritize_ids (default [] sqsMessages) []
              (logCall (SQSReceive (PriorityQueueService.maxMessagesOf params)) w) Hc)
    as (result' & w1' & Hloop' & _ & _ & Hdom & Hz & Hl & _).
  rewrite Hloop in Hloop'. injection Hloop' as <- <-. done.
Qed.

(** ** The facade: delete *)

Lemma SQSManager_request_ok sqsCall w :
  SQSManager.request sqsCall (Ok tt) w = (Ok tt, logCall sqsCall w).
Proof. done. Qed.

Lemma SQSManager_request_throw sqsCall e w :
  SQSManager.request sqsCall (Throw e) w = (Throw e, logCall sqsCall w).
Proof. done. Qed.

(** X11. A delete always asks the transport first.  When the transport
    refuses, its error is thrown and nothing else happens.  When the caller
    gives no identifier (or an empty one) or no priority, the call returns
    after the transport's deletion: the index still holds the entry and the
    metrics are as before.  When both are given but the index is not
    connected, the message is gone from the transport and the call throws
    the not-connected error with the index entry still there. *)
Theorem deleteMessage_transport_only this receiptHandle messageId priority answer w :
  (∀ e, answer = Throw e →
     PriorityQueueService.deleteMessage this receiptHandle messageId priority answer w
     = (Throw e, logCall (SQSDelete receiptHandle) w))
  ∧ (answer = Ok tt → JS.truthy messageId = None ∨ priority = None →
     PriorityQueueService.deleteMessage this receiptHandle messageId priority answer w
     = (Ok tt, logCall (SQSDelete receiptHandle) w))
  ∧ (answer = Ok tt → is_Some (JS.truthy messageId) → is_Some priority →
     connected w = false →
     PriorityQueueService.deleteMessage this receiptHandle messageId priority answer w
     = (Throw NotConnected, logCall (SQSDelete receiptHandle) w)).
Proof.
  unfold PriorityQueueService.deleteMessage, SQSManager.deleteMessage.
  split; [|split].
  - intros e ->. by rewrite (bind_throw _ _ _ _ _ (SQSManager_request_throw _ e w)).
  - intros -> Hmissing. rewrite (bind_ok _ _ _ _ _ (SQSManager_request_ok _ w)).
    destruct Hmissing as [-> | ->]; [done|]. by destruct (JS.truthy messageId).
  - intros -> [id ->] [p ->] Hc.
    rewrite (bind_ok _ _ _ _ _ (SQSManager_request_ok _ w)).
    unfold RedisManager.removeMessage.
    by rewrite (bind_throw _ _ _ _ _
                  (bind_throw _ _ _ _ _
                     (requireConnected_throw (logCall (SQSDelete receiptHandle) w) Hc))).
Qed.

Lemma deleteMessage_transport_only_witness :
  PriorityQueueService.deleteMessage Scenario.service "receipt-low" None None (Ok tt)
                                     Scenario.lowThenHigh
  = (Ok tt, logCall (SQSDelete "receipt-low") Scenario.lowThenHigh)
  ∧ PriorityQueueService.deleteMessage Scenario.service "receipt-low" (Some "low") (Some 1)
                                       (Throw (TransportError "down")) Scenario.lowThenHigh
    = (Throw (TransportError "down"), logCall (SQSDelete "receipt-low") Scenario.lowThenHigh).
Proof.
  split.
  - apply (deleteMessage_transport_only Scenario.service "receipt-low" None None (Ok tt)
             Scenario.lowThenHigh); [reflexivity|by left].
  - apply (deleteMessage_transport_only Scenario.service "receipt-low" (Some "low") (Some 1)
             (Throw (TransportError "down")) Scenario.lowThenHigh). reflexivity.
Defined.

(** The end of the processing of a message, as the facade runs it. *)
Lemma endMessageProcessing_run messageId priority w :
  ∃ w',
    PriorityQueueService.endMessageProcessing messageId priority w = (Ok tt, w')
    ∧ client w' = client w ∧ connected w' = connected w ∧ sqsCalls w' = sqsCalls w
    ∧ mc_priorityLevels (metricsCollector w') = mc_priorityLevels (metricsCollector w)
    ∧ queueDepthByPriority (metricsCollector w') = queueDepthByPriority (metricsCollector w)
    ∧ (∀ p, p ≠ priority →
         processingLatencyByPriority (metricsCollector w') !! p
         = processingLatencyByPriority (metricsCollector w) !! p)
    ∧ (Metrics.trackedStart messageId priority (metricsCollector w) = None → w' = w)
    ∧ (is_Some (Metrics.trackedStart messageId priority (metricsCollector w)) →
       messageProcessingStartTimes (metricsCollector w')
       = delete messageId (messageProcessingStartTimes (metricsCollector w))).
Proof.
  unfold PriorityQueueService.endMessageProcessing, bind at 1, gets.
  destruct (Metrics.trackedStart messageId priority (metricsCollector w)) as [startTime|].
  - eexists. split; [reflexivity|]. simpl. repeat split; try done.
    intros p Hne. by rewrite lookup_insert_ne.
  - exists w. repeat split; try done; by intros [? ?].
Qed.

(** X12. A delete with an identifier and a priority, accepted by the
    transport, on a connected index returns normally.  Afterwards the
    identifier has no record and is not queued in the class named by the
    priority, the other classes and the other records are as before, the
    collector no longer tracks the identifier when it did under a priority
    in range, and the collector holds for every class the depth of that
    class in the index. *)
Theorem deleteMessage_acknowledges this receiptHandle messageId priority w :
  connected w = true →
  messageId ≠ EmptyString →
  mc_priorityLevels (metricsCollector w) = priorityLevels this →
  ∃ w',
    PriorityQueueService.deleteMessage this receiptHandle (Some messageId) (Some priority)
                                       (Ok tt) w = (Ok tt, w')
    ∧ sqsCalls w' = sqsCalls w ++ [SQSDelete receiptHandle]
    ∧ metadataKeys (client w') = delete messageId (metadataKeys (client w))
    ∧ zset (client w') priority = zremove messageId (zset (client w) priority)
    ∧ (messageId ∉ (zset (client w') priority).*2)
    ∧ (∀ p, p ≠ priority → zset (client w') p = zset (client w) p)
    ∧ (0 ≤ priority < priorityLevels this →
       messageProcessingStartTimes (metricsCollector w) !! messageId ≠ Some 0 →
       messageProcessingStartTimes (metricsCollector w') !! messageId = None)
    ∧ ∀ p, 0 ≤ p < priorityLevels this →
           queueDepthByPriority (metricsCollector w') !! p = Some (zCard (client w') p).
Proof.
  intros Hc Hid Hlevels.
  unfold PriorityQueueService.deleteMessage, SQSManager.deleteMessage.
  rewrite (bind_ok _ _ _ _ _ (SQSManager_request_ok _ w)).
  replace (JS.truthy (Some messageId)) with (Some messageId) by (by destruct messageId).
  set (w1 := logCall (SQSDelete receiptHandle) w).
  rewrite (bind_ok _ _ _ _ _ (removeMessage_ok messageId priority w1 Hc)).
  set (w2 := withClient _ (withClient _ w1)).
  destruct (endMessageProcessing_run messageId priority w2)
    as (w3 & Hend & Hclient & Hconn & Hlog & Hl3 & _ & _ & Hnone & Hsome).
  rewrite (bind_ok _ _ _ _ _ Hend).
  assert (connected w3 = true) as Hc3 by (by rewrite Hconn).
  assert (mc_priorityLevels (metricsCollector w3) = priorityLevels this) as Hlevels3
    by (by rewrite Hl3).
  destruct (refreshQueueDepth_run this w3 Hc3 Hlevels3)
    as (m' & Hrefresh & _ & _ & Hstart & Hdepth).
  rewrite Hrefresh. eexists. split; [reflexivity|].
  cbn [sqsCalls client metricsCollector withMetrics]. rewrite Hlog, Hclient.
  rewrite Hclient in Hdepth.
  split; [done|]. split; [done|].
  subst w2. cbn [client withClient] in *.
  change (zset (delMetadata ?m ?c) ?p) with (zset c p).
  rewrite zset_zRem, decide_True by done.
  split; [done|]. split; [apply zremove_gone|].
  split; [intros p Hne; by rewrite zset_zRem, decide_False|].
  split; [|exact Hdepth].
  intros Hrange Hstarted. rewrite Hstart.
  change (Metrics.trackedStart messageId priority
            (metricsCollector
               (withClient (delMetadata messageId)
                  (withClient (zRem priority messageId) w1))))
    with (Metrics.trackedStart messageId priority (metricsCollector w)) in Hnone, Hsome.
  unfold Metrics.trackedStart in Hnone, Hsome. rewrite Hlevels in Hnone, Hsome.
  destruct (messageProcessingStartTimes (metricsCollector w) !! messageId)
    as [startTime|] eqn:Hstarts.
  - assert (startTime ≠ 0) by congruence.
    replace (startTime =? 0) with false in Hsome by lia.
    replace (0 <=? priority) with true in Hsome by lia.
    replace (priority <? priorityLevels this) with true in Hsome by lia.
    rewrite Hsome by (by eexists). apply lookup_delete_eq.
  - by rewrite Hnone.
Qed.

Lemma deleteMessage_acknowledges_witness :
  ∃ w',
    PriorityQueueService.deleteMessage Scenario.service "receipt-high" (Some "high") (Some 0)
                                       (Ok tt) Scenario.lowThenHigh = (Ok tt, w')
    ∧ metadataKeys (client w') !! "high" = None
    ∧ queueDepthByPriority (metricsCollector w') !! 0 = Some 0.
Proof.
  assert (connected Scenario.lowThenHigh = true) as Hc by (vm_compute; reflexivity).
  destruct (deleteMessage_acknowledges Scenario.service "receipt-high" "high" 0
              Scenario.lowThenHigh Hc)
    as (w' & Hrun & _ & Hrecords & Hqueue & _ & _ & _ & Hdepth); [done|reflexivity|].
  exists w'. split; [exact Hrun|]. split.
  - rewrite Hrecords. apply lookup_delete_eq.
  - rewrite Hdepth by (simpl; lia). unfold zCard. rewrite Hqueue. by vm_compute.
Defined.

(** X13. Sending a message whose identifier the index does not know and
    acknowledging it under the same identifier and priority leaves every
    class queue and every record of the index as before the send. *)
Theorem sendMessage_deleteMessage_roundtrip this params messageId receiptHandle w :
  0 ≤ sp_priority params < priorityLevels this →
  connected w = true →
  messageId ≠ EmptyString →
  metadataKeys (client w) !! messageId = None →
  messageId ∉ (zset (client w) (sp_priority params)).*2 →
  ∃ w1 w2,
    PriorityQueueService.sendMessage this params (Ok (Some messageId)) w = (Ok messageId, w1)
    ∧ PriorityQueueService.deleteMessage this receiptHandle (Some messageId)
        (Some (sp_priority params)) (Ok tt) w1 = (Ok tt, w2)
    ∧ (∀ p, zset (client w2) p = zset (client w) p)
    ∧ metadataKeys (client w2) = metadataKeys (client w)
    ∧ latencyKeys (client w2) = latencyKeys (client w).
Proof.
  intros Hvalid Hc Hid Hnew Hfresh.
  (* the send *)
  unfold PriorityQueueService.sendMessage, isValidPriority.
  replace ((0 <=? sp_priority params) && (sp_priority params <? priorityLevels this))
    with true by lia.
  cbn [negb]. set (s1 := logCall (SQSSend params) w).
  assert (SQSManager.sendMessage params (Ok (Some messageId)) w = (Ok messageId, s1)) as Hsend
    by done.
  rewrite (bind_ok _ _ _ _ _ Hsend).
  unfold bind at 1. cbn [Date_now]. fold (tick s1).
  rewrite (bind_ok _ _ _ _ _ (addMessage_ok _ _ _ (tick s1) Hc)).
  set (s2 := withClient _ (withClient _ _)).
  destruct (refreshQueueDepth_ok this s2 Hc) as [f Hrefresh].
  rewrite (bind_ok _ _ _ _ _ Hrefresh).
  set (w1 := withMetrics f s2).
  (* the delete *)
  unfold PriorityQueueService.deleteMessage, SQSManager.deleteMessage.
  exists w1. 
  rewrite (bind_ok _ _ _ _ _ (SQSManager_request_ok _ w1)).
  replace (JS.truthy (Some messageId)) with (Some messageId) by (by destruct messageId).
  set (d1 := logCall (SQSDelete receiptHandle) w1).
  rewrite (bind_ok _ _ _ _ _ (removeMessage_ok messageId (sp_priority params) d1 Hc)).
  set (d2 := withClient _ (withClient _ d1)).
  destruct (endMessageProcessing_run messageId (sp_priority params) d2)
    as (d3 & Hend & Hclient & Hconn & _).
  rewrite (bind_ok _ _ _ _ _ Hend).
  assert (connected d3 = true) as Hc3 by (by rewrite Hconn).
  destruct (refreshQueueDepth_ok this d3 Hc3) as [g Hrefresh'].
  rewrite Hrefresh'. eexists. split; [reflexivity|]. split; [reflexivity|].
  cbn [client withMetrics]. rewrite Hclient. subst d2 d1 w1 s2. cbn [client withClient withMetrics logCall].
  split; [|split; [|done]].
  - intros p. change (zset (delMetadata ?m ?c) ?p) with (zset c p).
    rewrite zset_zRem. destruct (decide (sp_priority params = p)) as [<-|Hne].
    + rewrite zset_zAdd, decide_True by done.
      change (zset (setMetadata _ _ _) ?p) with (zset (client w) p).
      rewrite (zremove_absent _ _ Hfresh). by apply zremove_zinsert.
    + by rewrite zset_zAdd, decide_False.
  - simpl. rewrite delete_insert_eq. by apply delete_id.
Qed.

Lemma sendMessage_deleteMessage_roundtrip_witness :
  ∃ w1 w2,
    PriorityQueueService.sendMessage Scenario.service
      (mkSendParams "payload" 2 None None None None) (Ok (Some "id-9")) Scenario.fresh
    = (Ok "id-9", w1)
    ∧ PriorityQueueService.deleteMessage Scenario.service "receipt-id-9" (Some "id-9")
        (Some 2) (Ok tt) w1 = (Ok tt, w2)
    ∧ metadataKeys (client w2) = metadataKeys (client Scenario.fresh).
Proof.
  destruct (sendMessage_deleteMessage_roundtrip Scenario.service
              (mkSendParams "payload" 2 None None None None) "id-9" "receipt-id-9"
              Scenario.fresh)
    as (w1 & w2 & Hsend & Hdelete & _ & Hrecords & _).
  - simpl. lia.
  - reflexivity.
  - done.
  - reflexivity.
  - vm_compute. intros Hin. by apply elem_of_nil in Hin.
  - by exists w1, w2.
Defined.

(** ** Invariants of the index under the facade *)








Create HintDb preserves.





Section recordsQueued.
Context (levels : Z).







End recordsQueued.




(** The converse is no invariant: a delete that names another class than
    the one the message is queued in removes the record and leaves the
    identifier queued. *)
Lemma queued_without_record :
  let w := run Scenario.service
               [Scenario.send 0 "job"; CallDelete "receipt-job" (Some "job") (Some 1) (Ok tt)]
               Scenario.fresh in
  metadataKeys (client w) !! "job" = None ∧ ids (client w) 0 = ["job"].
Proof. intros w. split; vm_compute; reflexivity. Qed.


(** X15. FIFO within a class: when [addMessage] registers an identifier
    that is not queued in its class, at a time later than every score of
    that class, the identifier goes to the end of the class queue and the
    members already there keep their places. *)
Theorem addMessage_appends messageId priority metadata w :
  connected w = true →
  messageId ∉ (zset (client w) priority).*2 →
  Forall (λ entry : zentry, entry.1 < clock w (ticks w)) (zset (client w) priority) →
  ∃ w',
    RedisManager.addMessage messageId priority metadata w = (Ok tt, w')
    ∧ zset (client w') priority = zset (client w) priority ++ [(clock w (ticks w), messageId)].
Proof.
  intros Hc Hfresh Hlater. eexists. split; [by apply addMessage_ok|].
  cbn [client withClient]. rewrite zset_zAdd, decide_True by done.
  change (zset (setMetadata _ _ _) priority) with (zset (client w) priority).
  rewrite (zremove_absent _ _ Hfresh). by apply zinsert_latest.
Qed.

Lemma addMessage_appends_witness :
  ∃ w',
    RedisManager.addMessage "third" 0 (mkMetadata "third" 0 0 None None 0) Scenario.twoUrgent
    = (Ok tt, w')
    ∧ (zset (client w') 0).*2 = ["first"; "second"; "third"].
Proof.
  assert (connected Scenario.twoUrgent = true) as Hc by (vm_compute; reflexivity).
  destruct (addMessage_appends "third" 0 (mkMetadata "third" 0 0 None None 0)
              Scenario.twoUrgent Hc) as (w' & Hrun & Hqueue).
  - vm_compute. intros Hin.
    repeat (apply elem_of_cons in Hin as [Hin|Hin]; [discriminate|]).
    by apply elem_of_nil in Hin.
  - vm_compute. repeat constructor.
  - exists w'. split; [exact Hrun|]. rewrite Hqueue. by vm_compute.
Defined.

(** ** The shape of a batch of the dispatch engine *)

Lemma oldestOfEachClass_none classes :
  oldestOfEachClass classes (replicate (length classes) 0%nat) = [].
Proof.
  unfold oldestOfEachClass. induction classes as [|q classes IH]; [done|].
  cbn [length replicate zip_with concat]. by rewrite take_0.
Qed.

Lemma oldestOfEachClass_cons q classes count counts :
  oldestOfEachClass (q :: classes) (count :: counts)
  = take count q ++ oldestOfEachClass classes counts.
Proof. done. Qed.

Lemma starvationLoop_shape c queueSizes totalMessages messagesRemaining levels :
  ∀ result allocated,
    ∃ counts,
      length counts = length levels
      ∧ RedisManager.starvationLoop c queueSizes totalMessages messagesRemaining levels
                                    result allocated
        = result ++ oldestOfEachClass (ids c <$> levels) counts.
Proof.
  induction levels as [|priority levels IH]; intros result allocated.
  - exists []. split; [done|]. simpl. by rewrite app_nil_r.
  - rewrite fmap_cons. cbn [RedisManager.starvationLoop].
    assert (∀ result allocated,
              ∃ counts, length counts = length (priority :: levels)
                ∧ RedisManager.starvationLoop c queueSizes totalMessages messagesRemaining
                    levels result allocated
                  = result ++ oldestOfEachClass (ids c priority :: (ids c <$> levels)) counts)
      as Hskip.
    { intros r a. destruct (IH r a) as (counts & Hlen & ->).
      exists (0%nat :: counts). split; [simpl; lia|].
      by rewrite oldestOfEachClass_cons, take_0. }
    destruct (0 <? RedisManager.sizeAt queueSizes priority); [|apply Hskip].
    set (toTake := Z.min _ _).
    destruct (0 <? toTake) eqn:Htake; [|apply Hskip].
    apply Z.ltb_lt in Htake. rewrite zRange_oldest by done.
    destruct (messagesRemaining <=? _).
    + exists (Z.to_nat toTake :: replicate (length levels) 0%nat).
      split; [simpl; by rewrite length_replicate|].
      rewrite oldestOfEachClass_cons.
      rewrite <- (length_fmap (ids c) levels) at 1.
      by rewrite oldestOfEachClass_none, app_nil_r.
    + destruct (IH (result ++ take (Z.to_nat toTake) (ids c priority))
                   (allocated + Z.of_nat (length (take (Z.to_nat toTake) (ids c priority)))))
        as (counts & Hlen & ->).
      exists (Z.to_nat toTake :: counts). split; [simpl; lia|].
      by rewrite oldestOfEachClass_cons, app_assoc.
Qed.

Lemma normalLoop_shape c queueSizes maxMessages levels :
  ∀ result,
    ∃ counts,
      length counts = length levels
      ∧ RedisManager.normalLoop c queueSizes maxMessages levels result
        = result ++ oldestOfEachClass (ids c <$> levels) counts.
Proof.
  induction levels as [|priority levels IH]; intros result.
  - exists []. split; [done|]. simpl. by rewrite app_nil_r.
  - rewrite fmap_cons. cbn [RedisManager.normalLoop].
    assert (∀ result,
              ∃ counts, length counts = length (priority :: levels)
                ∧ RedisManager.normalLoop c queueSizes maxMessages levels result
                  = result ++ oldestOfEachClass (ids c priority :: (ids c <$> levels)) counts)
      as Hskip.
    { intros r. destruct (IH r) as (counts & Hlen & ->).
      exists (0%nat :: counts). split; [simpl; lia|].
      by rewrite oldestOfEachClass_cons, take_0. }
    destruct (0 <? RedisManager.sizeAt queueSizes priority); [|apply Hskip].
    set (toTake := Z.min _ _).
    destruct (0 <? toTake) eqn:Htake; [|apply Hskip].
    apply Z.ltb_lt in Htake. rewrite zRange_oldest by done.
    destruct (maxMessages <=? _).
    + exists (Z.to_nat toTake :: replicate (length levels) 0%nat).
      split; [simpl; by rewrite length_replicate|].
      rewrite oldestOfEachClass_cons.
      rewrite <- (length_fmap (ids c) levels) at 1.
      by rewrite oldestOfEachClass_none, app_nil_r.
    + destruct (IH (result ++ take (Z.to_nat toTake) (ids c priority)))
        as (counts & Hlen & ->).
      exists (Z.to_nat toTake :: counts). split; [simpl; lia|].
      by rewrite oldestOfEachClass_cons, app_assoc.
Qed.

(** X16. In both modes the batch of [getNextMessages] lists the classes in
    ascending order and, of each class, a run of its oldest identifiers in
    queue order: it is the concatenation, class by class, of the first
    [counts[i]] identifiers of class [i], for some counts. *)
Theorem getNextMessages_oldest_of_each_class priorityLevels maxMessages starvationThreshold w :
  connected w = true →
  ∃ counts,
    length counts = length (priorities 0 priorityLevels)
    ∧ RedisManager.getNextMessages priorityLevels maxMessages starvationThreshold w
      = (Ok (oldestOfEachClass (ids (client w) <$> priorities 0 priorityLevels) counts), w).
Proof.
  intros Hc. rewrite getNextMessages_ok by done. unfold RedisManager.selectMessages.
  destruct (RedisManager.preventStarvation _ _ _).
  - destruct (0 <? _).
    + destruct (starvationLoop_shape (client w)
                  (RedisManager.readQueueSizes (client w) priorityLevels)
                  (foldl Z.add 0 (RedisManager.readQueueSizes (client w) priorityLevels))
                  (Z.min maxMessages
                     (foldl Z.add 0 (RedisManager.readQueueSizes (client w) priorityLevels)))
                  (priorities 0 priorityLevels) [] 0) as (counts & Hlen & ->).
      by exists counts.
    + exists (replicate (length (priorities 0 priorityLevels)) 0%nat).
      split; [by rewrite length_replicate|].
      rewrite <- (length_fmap (ids (client w))) at 1. by rewrite oldestOfEachClass_none.
  - destruct (normalLoop_shape (client w)
                (RedisManager.readQueueSizes (client w) priorityLevels) maxMessages
                (priorities 0 priorityLevels) []) as (counts & Hlen & ->).
    by exists counts.
Qed.

Lemma getNextMessages_oldest_of_each_class_witness :
  ∃ counts,
    length counts = 3%nat
    ∧ RedisManager.getNextMessages 3 10 100 Scenario.crowded
      = (Ok (oldestOfEachClass (ids (client Scenario.crowded) <$> priorities 0 3) counts),
         Scenario.crowded).
Proof.
  assert (connected Scenario.crowded = true) as Hc by (vm_compute; reflexivity).
  exact (getNextMessages_oldest_of_each_class 3 10 100 Scenario.crowded Hc).
Defined.

Lemma sumZ_readQueueSizes c levels :
  sumZ ((λ priority : nat, zCard c (Z.of_nat priority)) <$> levels)
  = Z.of_nat (length (concat (ids c <$> levels))).
Proof.
  induction levels as [|priority levels IH]; [done|].
  rewrite !fmap_cons. cbn [concat]. rewrite length_app, Nat2Z.inj_add, <- IH, length_ids.
  done.
Qed.

Lemma backlog_length c priorityLevels :
  backlog c priorityLevels
  = Z.of_nat (length (concat (ids c <$> priorities 0 priorityLevels))).
Proof. unfold backlog, RedisManager.readQueueSizes. apply sumZ_readQueueSizes. Qed.

Lemma starvationLoop_head c priorityLevels totalMessages messagesRemaining levels :
  0 < messagesRemaining →
  levels ⊆ priorities 0 priorityLevels →
  head (RedisManager.starvationLoop c (RedisManager.readQueueSizes c priorityLevels)
          totalMessages messagesRemaining levels [] 0)
  = head (concat (ids c <$> levels)).
Proof.
  intros Hrem. induction levels as [|priority levels IH]; intros Hsub; [done|].
  assert (levels ⊆ priorities 0 priorityLevels) as Hsub'
    by (intros p Hp; apply Hsub, elem_of_cons; by right).
  rewrite fmap_cons. cbn [RedisManager.starvationLoop concat].
  rewrite sizeAt_readQueueSizes by (apply Hsub, elem_of_cons; by left).
  pose proof (length_ids c priority) as Hids.
  destruct (0 <? zCard c (Z.of_nat priority)) eqn:Hsize.
  - apply Z.ltb_lt in Hsize.
    set (toTake := Z.min _ _).
    assert (0 < toTake) as Htake by (subst toTake; lia).
    replace (0 <? toTake) with true by lia.
    rewrite zRange_oldest by done. rewrite app_nil_l.
    destruct (ids c priority) as [|oldest others] eqn:Hq; [simpl in Hids; lia|].
    destruct (Z.to_nat toTake) as [|n] eqn:Hn; [lia|]. cbn [take].
    destruct (messagesRemaining <=? _); [done|].
    destruct (starvationLoop_shape c (RedisManager.readQueueSizes c priorityLevels)
                totalMessages messagesRemaining levels (oldest :: take n others)
                (0 + Z.of_nat (length (oldest :: take n others)))) as (counts & _ & ->).
    done.
  - apply Z.ltb_ge in Hsize.
    destruct (ids c priority) as [|? ?]; [|simpl in Hids; lia].
    by apply IH.
Qed.

(** X17. Head of the line: on a connected index with a backlog, a request
    for at least one message returns, in either mode, a non-empty batch
    that starts with the oldest identifier of the first non-empty class. *)
Theorem getNextMessages_head_of_line priorityLevels maxMessages starvationThreshold w :
  connected w = true →
  0 < maxMessages →
  0 < backlog (client w) priorityLevels →
  ∃ first others,
    RedisManager.getNextMessages priorityLevels maxMessages starvationThreshold w
    = (Ok (first :: others), w)
    ∧ head (concat (ids (client w) <$> priorities 0 priorityLevels)) = Some first.
Proof.
  intros Hc Hmax Hbacklog. rewrite getNextMessages_ok by done.
  set (classes := ids (client w) <$> priorities 0 priorityLevels).
  assert (head (RedisManager.selectMessages (client w) priorityLevels maxMessages
                  starvationThreshold) = head (concat classes)) as Hhead.
  { unfold RedisManager.selectMessages.
    destruct (RedisManager.preventStarvation _ _ _).
    - rewrite foldl_add_sumZ, Z.add_0_l. fold (backlog (client w) priorityLevels).
      replace (0 <? Z.min maxMessages (backlog (client w) priorityLevels)) with true by lia.
      apply starvationLoop_head; [lia|done].
    - rewrite normalLoop_greedy by done. rewrite app_nil_l, greedy_take_concat.
      simpl. rewrite Z.sub_0_r. fold classes.
      destruct (Z.to_nat maxMessages) eqn:Hn; [lia|]. by destruct (concat classes). }
  rewrite backlog_length in Hbacklog. fold classes in Hbacklog.
  destruct (concat classes) as [|first rest]; [simpl in Hbacklog; lia|].
  destruct (RedisManager.selectMessages _ _ _ _) as [|first' others]; [done|].
  injection Hhead as ->. by exists first, others.
Qed.

Lemma getNextMessages_head_of_line_witness :
  ∃ others,
    RedisManager.getNextMessages 3 1 100 Scenario.crowded
    = (Ok ("urgent" :: others), Scenario.crowded).
Proof.
  assert (connected Scenario.crowded = true) as Hc by (vm_compute; reflexivity).
  destruct (getNextMessages_head_of_line 3 1 100 Scenario.crowded Hc)
    as (first & others & Hrun & Hhead); [lia|by vm_compute|].
  exists others. rewrite Hrun. do 2 f_equal.
  assert (head (concat (ids (client Scenario.crowded) <$> priorities 0 3)) = Some "urgent")
    as Hurgent by (vm_compute; reflexivity).
  rewrite Hurgent in Hhead. by injection Hhead as <-.
Defined.

(** X18. In normal mode the batch holds exactly as many identifiers as the
    request allows and the backlog offers: min (maxMessages, backlog), or
    none for a request that is not positive. *)
Theorem getNextMessages_normal_count priorityLevels maxMessages starvationThreshold w :
  connected w = true →
  (∀ p, 1 ≤ p < priorityLevels → zCard (client w) p ≤ starvationThreshold) →
  ∃ messageIds,
    RedisManager.getNextMessages priorityLevels maxMessages starvationThreshold w
    = (Ok messageIds, w)
    ∧ Z.of_nat (length messageIds)
      = Z.max 0 (Z.min maxMessages (backlog (client w) priorityLevels)).
Proof.
  intros Hc Hnormal%preventStarvation_false.
  rewrite getNextMessages_ok by done. eexists. split; [reflexivity|].
  unfold RedisManager.selectMessages.
  rewrite Hnormal, normalLoop_greedy by done.
  rewrite app_nil_l, greedy_take_concat, length_take, backlog_length. simpl. lia.
Qed.

Lemma getNextMessages_normal_count_witness :
  ∃ messageIds,
    RedisManager.getNextMessages 3 10 100 Scenario.twoUrgent
    = (Ok messageIds, Scenario.twoUrgent)
    ∧ Z.of_nat (length messageIds) = 2.
Proof.
  assert (connected Scenario.twoUrgent = true) as Hc by (vm_compute; reflexivity).
  destruct (getNextMessages_normal_count 3 10 100 Scenario.twoUrgent Hc)
    as (messageIds & Hrun & Hcount).
  - intros p Hp. assert (p = 1 ∨ p = 2) as [-> | ->] by lia; by vm_compute.
  - exists messageIds. split; [exact Hrun|]. rewrite Hcount. by vm_compute.
Defined.

(** ** The metrics collector *)

(** X19. Closing the latency tracking of a message.  When the collector
    tracks the identifier (a start time that is not 0) and the priority is
    in range, the call drops the start time, touches the latency of that
    class only and leaves the depths, and closing the same identifier again,
    under any priority, changes nothing: an acknowledgement is counted
    once.  With a priority out of range, or with no start time for the
    identifier, the call changes nothing and reads no clock. *)
Theorem endMessageProcessing_once messageId priority w :
  (is_Some (Metrics.trackedStart messageId priority (metricsCollector w)) →
   ∃ w',
     PriorityQueueService.endMessageProcessing messageId priority w = (Ok tt, w')
     ∧ messageProcessingStartTimes (metricsCollector w') !! messageId = None
     ∧ queueDepthByPriority (metricsCollector w') = queueDepthByPriority (metricsCollector w)
     ∧ (∀ p, p ≠ priority →
          processingLatencyByPriority (metricsCollector w') !! p
          = processingLatencyByPriority (metricsCollector w) !! p)
     ∧ ∀ priority',
         PriorityQueueService.endMessageProcessing messageId priority' w' = (Ok tt, w'))
  ∧ (¬ (0 ≤ priority < mc_priorityLevels (metricsCollector w)) →
     PriorityQueueService.endMessageProcessing messageId priority w = (Ok tt, w))
  ∧ (messageProcessingStartTimes (metricsCollector w) !! messageId = None →
     PriorityQueueService.endMessageProcessing messageId priority w = (Ok tt, w)).
Proof.
  assert (∀ p v, Metrics.trackedStart messageId p (metricsCollector v) = None →
                 PriorityQueueService.endMessageProcessing messageId p v = (Ok tt, v))
    as Hidle.
  { intros p v Hnone. unfold PriorityQueueService.endMessageProcessing, bind at 1, gets.
    by rewrite Hnone. }
  split; [|split].
  - intros Htracked.
    destruct (endMessageProcessing_run messageId priority w)
      as (w' & Hrun & _ & _ & _ & _ & Hdepth & Hlat & _ & Hstart).
    exists w'. split; [done|].
    assert (messageProcessingStartTimes (metricsCollector w') !! messageId = None) as Hgone
      by (rewrite Hstart by done; apply lookup_delete_eq).
    repeat split; try done.
    intros priority'. apply Hidle. unfold Metrics.trackedStart. by rewrite Hgone.
  - intros Hout. apply Hidle. unfold Metrics.trackedStart.
    destruct (messageProcessingStartTimes (metricsCollector w) !! messageId); [|done].
    destruct (0 <=? priority) eqn:Hlo, (priority <? mc_priorityLevels (metricsCollector w))
      eqn:Hhi; rewrite ?andb_false_r; try done.
    exfalso. apply Hout. lia.
  - intros Hnone. apply Hidle. unfold Metrics.trackedStart. by rewrite Hnone.
Qed.

Lemma endMessageProcessing_once_witness :
  let w := after (PriorityQueueService.receiveMessages Scenario.service None
                    (Ok (Some [Scenario.delivered "high"]))) Scenario.lowThenHigh in
  (∃ w',
     PriorityQueueService.endMessageProcessing "high" 0 w = (Ok tt, w')
     ∧ PriorityQueueService.endMessageProcessing "high" 0 w' = (Ok tt, w'))
  ∧ PriorityQueueService.endMessageProcessing "high" 7 w = (Ok tt, w).
Proof.
  intros w.
  destruct (endMessageProcessing_once "high" 0 w) as (Htracked & _ & _).
  destruct (endMessageProcessing_once "high" 7 w) as (_ & Hout & _).
  split.
  - destruct Htracked as (w' & Hrun & _ & _ & _ & Hagain); [by vm_compute; eexists|].
    exists w'. split; [exact Hrun|apply Hagain].
  - apply Hout. vm_compute. intros [_ Hhi]. discriminate.
Defined.

(** ** The latency keys of the index *)

Lemma getProcessingLatencyByPriority_lookup priorityLevels w :
  connected w = true →
  ∃ latency,
    RedisManager.getProcessingLatencyByPriority priorityLevels w = (Ok latency, w)
    ∧ ∀ p, 0 ≤ p < priorityLevels →
           latency !! p = Some (match latencyKeys (client w) !! p with
                                | Some value => JS.Math_round value
                                | None => PrimFloat.zero
                                end).
Proof.
  intros Hc. unfold RedisManager.getProcessingLatencyByPriority.
  rewrite (bind_ok _ _ _ _ _ (requireConnected_ok w Hc)).
  eexists. split; [reflexivity|]. intros p Hp. cbn [fst snd].
  rewrite <- (Z2Nat.id p) at 1 by lia.
  rewrite (foldl_insert_lookup
             (λ q, match latencyKeys (client w) !! Z.of_nat q with
                   | Some value => JS.Math_round value
                   | None => PrimFloat.zero
                   end)) by (by apply elem_of_priorities).
  by rewrite Z2Nat.id by lia.
Qed.

(** X20. What [storeProcessingLatency] stores is what the latency query
    answers.  On a connected index the call returns normally, for every
    sample and whatever the index holds, and touches the latency key of its
    class only: the other latency keys, the class queues, the metadata
    records, the collector, the log of the transport and the clock are as
    before.  The key is written as a string and read back as a number: the
    first sample of a class (no key yet) is stored as it is, a later one is
    averaged into the stored value with weights 0.9 and 0.1 unless that
    value is 0, and a value of -0 reads back as 0.  For a class in range
    the query then answers the stored value rounded, and what it answered
    before for the other classes. *)
Theorem storeProcessingLatency_own_key priorityLevels priority sample w :
  connected w = true →
  ∃ stored w',
    RedisManager.storeProcessingLatency priority sample w = (Ok tt, w')
    ∧ latencyKeys (client w') !! priority = Some stored
    ∧ (∀ p, p ≠ priority → latencyKeys (client w') !! p = latencyKeys (client w) !! p)
    ∧ zsets (client w') = zsets (client w)
    ∧ metadataKeys (client w') = metadataKeys (client w)
    ∧ metricsCollector w' = metricsCollector w
    ∧ sqsCalls w' = sqsCalls w
    ∧ ticks w' = ticks w
    ∧ connected w' = true
    ∧ (latencyKeys (client w) !! priority = None →
       stored = JS.parseFloat_toString sample)
    ∧ (∀ current,
         latencyKeys (client w) !! priority = Some current →
         stored = JS.parseFloat_toString
                    (if PrimFloat.eqb current PrimFloat.zero then sample
                     else PrimFloat.add (PrimFloat.mul current 0.9%float)
                                        (PrimFloat.mul sample 0.1%float)))
    ∧ JS.parseFloat_toString (PrimFloat.opp PrimFloat.zero) = PrimFloat.zero
    ∧ (0 ≤ priority < priorityLevels →
       ∃ before latency,
         RedisManager.getProcessingLatencyByPriority priorityLevels w = (Ok before, w)
         ∧ RedisManager.getProcessingLatencyByPriority priorityLevels w' = (Ok latency, w')
         ∧ latency !! priority = Some (JS.Math_round stored)
         ∧ ∀ p, 0 ≤ p < priorityLevels → p ≠ priority → latency !! p = before !! p).
Proof.
  intros Hc.
  set (current := default PrimFloat.zero (latencyKeys (client w) !! priority)).
  set (stored := JS.parseFloat_toString
                   (if PrimFloat.eqb current PrimFloat.zero then sample
                    else PrimFloat.add (PrimFloat.mul current 0.9%float)
                                       (PrimFloat.mul sample 0.1%float))).
  assert (RedisManager.storeProcessingLatency priority sample w
          = (Ok tt, withClient (setLatency priority stored) w)) as Hstore.
  { unfold RedisManager.storeProcessingLatency.
    by rewrite (bind_ok _ _ _ _ _ (requireConnected_ok w Hc)). }
  exists stored, (withClient (setLatency priority stored) w).
  split; [exact Hstore|].
  split; [apply lookup_insert_eq|].
  split; [by intros p Hp; apply lookup_insert_ne|].
  do 5 (split; [reflexivity|]). split; [exact Hc|].
  split; [by subst stored current; intros ->|].
  split; [by subst stored current; intros ? ->|].
  split; [reflexivity|].
  intros Hrange.
  destruct (getProcessingLatencyByPriority_lookup priorityLevels w Hc)
    as (before & Hbefore & Hb).
  destruct (getProcessingLatencyByPriority_lookup priorityLevels
              (withClient (setLatency priority stored) w) Hc) as (latency & Hafter & Ha).
  exists before, latency. split; [exact Hbefore|]. split; [exact Hafter|]. split.
  - rewrite Ha by done. simpl. by rewrite lookup_insert_eq.
  - intros p Hp Hne. rewrite Ha, Hb by done. simpl. by rewrite lookup_insert_ne.
Qed.

(** A first sample of 250.4 ms for class 1 is answered as 250; a second
    sample of 100 ms moves the stored value to 235.36, answered as 235; a
    first sample of -0 is stored as 0. *)
Lemma storeProcessingLatency_own_key_witness :
  let w1 := after (RedisManager.storeProcessingLatency 1 250.4%float) Scenario.fresh in
  ∃ w2 latency,
    latencyKeys (client w1) !! 1 = Some 250.4%float
    ∧ RedisManager.storeProcessingLatency 1 100%float w1 = (Ok tt, w2)
    ∧ RedisManager.getProcessingLatencyByPriority 3 w2 = (Ok latency, w2)
    ∧ latency !! 1 = Some 235%float
    ∧ latency !! 0 = Some PrimFloat.zero
    ∧ latencyKeys
        (client (after (RedisManager.storeProcessingLatency 1 (PrimFloat.opp PrimFloat.zero))
                       Scenario.fresh)) !! 1
      = Some PrimFloat.zero.
Proof.
  intros w1.
  assert (connected Scenario.fresh = true) as Hfresh by (vm_compute; reflexivity).
  assert (connected w1 = true) as Hc by (vm_compute; reflexivity).
  destruct (storeProcessingLatency_own_key 3 1 250.4%float Scenario.fresh Hfresh)
    as (stored1 & w1' & Hrun1 & Hkey1 & _ & _ & _ & _ & _ & _ & _ & Hfirst1 & _).
  destruct (storeProcessingLatency_own_key 3 1 (PrimFloat.opp PrimFloat.zero)
              Scenario.fresh Hfresh)
    as (stored0 & w0 & Hrun0 & Hkey0 & _ & _ & _ & _ & _ & _ & _ & Hfirst0 & _ & Hzero & _).
  destruct (storeProcessingLatency_own_key 3 1 100%float w1 Hc)
    as (stored & w2 & Hrun & _ & _ & _ & _ & _ & _ & _ & _ & _ & Hlater & _ & Hquery).
  destruct Hquery as (before & latency & Hbefore & Hafter & Hown & Hothers); [lia|].
  assert (latencyKeys (client w1) !! 1 = Some 250.4%float) as Hkey.
  { unfold w1, after. rewrite Hrun1. cbn [snd]. rewrite Hkey1, (Hfirst1 eq_refl). done. }
  exists w2, latency. split; [exact Hkey|]. split; [exact Hrun|]. split; [exact Hafter|].
  split; [|split].
  - rewrite Hown, (Hlater _ Hkey). by vm_compute.
  - rewrite (Hothers 0) by lia.
    assert ((RedisManager.getProcessingLatencyByPriority 3 w1).1 = Ok before) as Hb
      by (by rewrite Hbefore).
    vm_compute in Hb. injection Hb as <-. reflexivity.
  - unfold after. rewrite Hrun0. cbn [snd]. rewrite Hkey0, (Hfirst0 eq_refl), Hzero. done.
Defined.

(** ** The logger *)

(** X21. The logger prints a message exactly when the severity of its
    level is at least that of the configured level, in the order DEBUG <
    INFO < WARN < ERROR; the configured level is the one given to the
    constructor, INFO when none is given, and the one last set by
    [setLevel].  So a logger at DEBUG prints every level, at INFO every
    level but DEBUG, at WARN only WARN and ERROR, and at ERROR only ERROR.
    A line is printed exactly when the level passes; it goes to the console
    method of its own level, and reads [[timestamp] [LEVEL] [context]
    message]. *)
Theorem Logger_shouldLog_threshold this level :
  Logger.shouldLog this level = (severity (Logger.level this) <=? severity level)
  ∧ (∀ context configured,
       Logger.level (Logger.new context configured) = default Logger.INFO configured)
  ∧ (∀ configured, Logger.level (Logger.setLevel configured this) = configured)
  ∧ Logger.shouldLog (Logger.setLevel Logger.DEBUG this) level = true
  ∧ Logger.shouldLog (Logger.setLevel Logger.INFO this) level
    = negb (bool_decide (level = Logger.DEBUG))
  ∧ Logger.shouldLog (Logger.setLevel Logger.WARN this) level
    = bool_decide (level = Logger.WARN ∨ level = Logger.ERROR)
  ∧ Logger.shouldLog (Logger.setLevel Logger.ERROR this) level
    = bool_decide (level = Logger.ERROR)
  ∧ (∀ timestamp message,
       is_Some (Logger.log this timestamp level message)
       ↔ severity (Logger.level this) ≤ severity level)
  ∧ (∀ timestamp message console line,
       Logger.log this timestamp level message = Some (console, line) →
       console = level
       ∧ line = "[" +:+ timestamp +:+ "] [" +:+ Logger.upperCase level +:+ "] ["
                    +:+ Logger.context this +:+ "] " +:+ message).
Proof.
  assert (Logger.shouldLog this level = (severity (Logger.level this) <=? severity level))
    as Hthreshold by (by destruct this as [context []], level).
  split; [exact Hthreshold|].
  split; [done|]. split; [done|].
  split; [by destruct level|]. split; [by destruct level|].
  split; [by destruct level|]. split; [by destruct level|].
  split.
  - intros timestamp message. unfold Logger.log. rewrite Hthreshold.
    destruct (Z.leb_spec (severity (Logger.level this)) (severity level)) as [Hle|Hgt].
    + split; [done|]. by eexists.
    + split; [by intros [? ?]|lia].
  - intros timestamp message console line. unfold Logger.log.
    destruct (Logger.shouldLog this level); [|done]. by intros [= <- <-].
Qed.

(** A logger built without a level prints a warning and drops a debug
    message; once set to ERROR it drops the warning too. *)
Lemma Logger_shouldLog_threshold_witness :
  let this := Logger.new "RedisManager" None in
  Logger.warn this "12:00" "slow"
  = Some (Logger.WARN, "[12:00] [WARN] [RedisManager] slow")
  ∧ Logger.debug this "12:00" "tick" = None
  ∧ Logger.warn (Logger.setLevel Logger.ERROR this) "12:00" "slow" = None.
Proof.
  intros this.
  destruct (Logger_shouldLog_threshold this Logger.WARN)
    as (_ & _ & _ & _ & _ & _ & _ & Hprints & Hline).
  destruct (Logger_shouldLog_threshold this Logger.DEBUG)
    as (_ & _ & _ & _ & _ & _ & _ & Hdrops & _).
  destruct (Logger_shouldLog_threshold (Logger.setLevel Logger.ERROR this) Logger.WARN)
    as (_ & _ & _ & _ & _ & _ & _ & Hdrops' & _).
  split; [|split].
  - destruct (proj2 (Hprints "12:00" "slow")) as [[console line] Hlog]; [by vm_compute|].
    unfold Logger.warn. rewrite Hlog.
    by destruct (Hline _ _ _ _ Hlog) as [-> ->].
  - unfold Logger.debug.
    destruct (Logger.log this "12:00" Logger.DEBUG "tick") as [printed|] eqn:Hlog; [|done].
    assert (severity (Logger.level this) ≤ severity Logger.DEBUG) as Hle.
    { apply (Hdrops "12:00" "tick"). rewrite Hlog. by eexists. }
    by vm_compute in Hle.
  - unfold Logger.warn.
    destruct (Logger.log (Logger.setLevel Logger.ERROR this) "12:00" Logger.WARN "slow")
      as [printed|] eqn:Hlog; [|done].
    assert (severity (Logger.level (Logger.setLevel Logger.ERROR this))
            ≤ severity Logger.WARN) as Hle.
    { apply (Hdrops' "12:00" "slow"). rewrite Hlog. by eexists. }
    by vm_compute in Hle.
Defined.
